(** * sprockets-postgres: a shallow embedding of [sprockets_postgres.py]

    The module wraps an [aiopg] connection pool for use from Tornado request
    handlers.  Everything the module does is an effect: it calls the driver,
    the clock and user callbacks, and it raises and catches exceptions.  The
    embedding therefore is a state-and-exception monad over a [world] that
    holds the state of the environment (database, pool, clock), the sequence
    of calls made so far and the objects callbacks can reach.  Asynchronous
    generators used as context managers are resumptions over that monad.

    Conventions: timeouts and clock readings are integers ([Z]); awaiting is
    sequencing (one coroutine runs at a time in the model); a value that may
    be [None] is an [option], and [if x:] on it is a [match]; callbacks work
    on the objects of the world, not on the driver.  [_postgres_setup],
    which builds the pool from the environment, is not part of the
    embedding: an application either has a pool or has [None]. *)

From Stdlib Require Import ZArith Ascii String List Lia.
From stdpp Require Import base option list gmap strings pretty.

Local Open Scope string_scope.
Local Open Scope Z_scope.

(** ** Python values that cross the interfaces *)

(** Column values of a result row and query parameters. *)
Inductive value :=
| VNone
| VBool (b : bool)
| VInt (z : Z)
| VStr (s : string).

(** [QueryParameters = typing.Union[dict, list, tuple, None]] *)
Inductive QueryParameters :=
| ParametersNone
| ParametersSeq (l : list value)
| ParametersDict (d : gmap string value).

(** [Timeout = typing.Union[int, float, None]], numbers modelled in [Z]. *)
Definition Timeout := option Z.

(** Truth value of a [Timeout]: [None] and [0] are false. *)
Definition timeout_truthy (t : Timeout) : bool :=
  match t with
  | None => false
  | Some z => negb (z =? 0)
  end.

(** [psycopg2.extras.RealDictRow]: a row as the cursor returns it, a mapping
    from column name to value. *)
Record RealDictRow := { row_items : gmap string value }.

(** [dict(row)]: a plain dictionary with the items of the row. *)
Definition dict (r : RealDictRow) : gmap string value := row_items r.

(** ** Exceptions *)

Module psycopg2.

(** The classes of [psycopg2.Error] the module tests for, with some of
    their relatives from [psycopg2.errors]. *)
Inductive error_class :=
| Error
| InterfaceError
| DatabaseError
| DataError
| OperationalError
| IntegrityError
| InternalError
| ProgrammingError
| NotSupportedError
| UniqueViolation
| UndefinedTable
| QueryCanceled.

Definition base (c : error_class) : option error_class :=
  match c with
  | Error => None
  | InterfaceError | DatabaseError => Some Error
  | DataError | OperationalError | IntegrityError | InternalError
  | ProgrammingError | NotSupportedError => Some DatabaseError
  | UniqueViolation => Some IntegrityError
  | UndefinedTable => Some ProgrammingError
  | QueryCanceled => Some OperationalError
  end.

Definition eqb (c d : error_class) : bool :=
  match c, d with
  | Error, Error | InterfaceError, InterfaceError
  | DatabaseError, DatabaseError | DataError, DataError
  | OperationalError, OperationalError | IntegrityError, IntegrityError
  | InternalError, InternalError | ProgrammingError, ProgrammingError
  | NotSupportedError, NotSupportedError
  | UniqueViolation, UniqueViolation | UndefinedTable, UndefinedTable
  | QueryCanceled, QueryCanceled => true
  | _, _ => false
  end.

(** [issubclass c d], walking up the (depth three) hierarchy. *)
Fixpoint issubclass_upto (n : nat) (c d : error_class) : bool :=
  eqb c d ||
  match n with
  | O => false
  | S n' => match base c with
            | Some b => issubclass_upto n' b d
            | None => false
            end
  end.

Definition issubclass := issubclass_upto 3.

Definition name (c : error_class) : string :=
  match c with
  | Error => "Error"
  | InterfaceError => "InterfaceError"
  | DatabaseError => "DatabaseError"
  | DataError => "DataError"
  | OperationalError => "OperationalError"
  | IntegrityError => "IntegrityError"
  | InternalError => "InternalError"
  | ProgrammingError => "ProgrammingError"
  | NotSupportedError => "NotSupportedError"
  | UniqueViolation => "UniqueViolation"
  | UndefinedTable => "UndefinedTable"
  | QueryCanceled => "QueryCanceled"
  end.

End psycopg2.

(** Exception values.  [ConnectionException] is the module's own class; the
    others come from asyncio, psycopg2, tornado and the interpreter. *)
Inductive exn :=
| TimeoutError (msg : string)
| Psycopg2Error (cls : psycopg2.error_class) (msg : string)
| ConnectionException (msg : string)
| HTTPError (status_code : Z) (reason : string)
| RuntimeError (msg : string)
| TypeError (msg : string)
| AttributeError (msg : string)
| ValueError (msg : string)
| OtherException (cls : string) (msg : string).

(** [str(exc)] *)
Definition str (e : exn) : string :=
  match e with
  | TimeoutError m | Psycopg2Error _ m | ConnectionException m
  | RuntimeError m | TypeError m | AttributeError m | ValueError m
  | OtherException _ m => m
  | HTTPError c r => "HTTP " +:+ pretty c +:+ ": " +:+ r
  end.

(** [exc.__class__.__name__] *)
Definition class_name (e : exn) : string :=
  match e with
  | TimeoutError _ => "TimeoutError"
  | Psycopg2Error c _ => psycopg2.name c
  | ConnectionException _ => "ConnectionException"
  | HTTPError _ _ => "HTTPError"
  | RuntimeError _ => "RuntimeError"
  | TypeError _ => "TypeError"
  | AttributeError _ => "AttributeError"
  | ValueError _ => "ValueError"
  | OtherException c _ => c
  end.

(** [isinstance(exc, asyncio.TimeoutError)] *)
Definition is_TimeoutError (e : exn) : bool :=
  match e with TimeoutError _ => true | _ => false end.

(** [isinstance(exc, psycopg2.<cls>)] *)
Definition is_psycopg2 (cls : psycopg2.error_class) (e : exn) : bool :=
  match e with
  | Psycopg2Error c _ => psycopg2.issubclass c cls
  | _ => false
  end.

(** [isinstance(exc, ConnectionException)] *)
Definition is_ConnectionException (e : exn) : bool :=
  match e with ConnectionException _ => true | _ => false end.

(** The handler clause [except (asyncio.TimeoutError, psycopg2.Error)]. *)
Definition timeout_or_driver_error (e : exn) : bool :=
  is_TimeoutError e || is_psycopg2 psycopg2.Error e.

(** Result of running a piece of code: a value or a raised exception. *)
Inductive outcome (A : Type) : Type :=
| Ret (a : A)
| Raise (e : exn).
Arguments Ret {A} a.
Arguments Raise {A} e.

(** ** Objects reachable from callbacks *)

Inductive log_arg :=
| LogStr (s : string)
| LogNum (z : Z).

(** One call on [LOGGER]: level, format string, arguments. *)
Record log_record := LogRecord {
  log_level : string;
  log_format : string;
  log_args : list log_arg }.

(** The part of the interpreter state callbacks work on: [asyncio.Event]
    objects by address, what was logged, and what the metrics mixins of a
    request handler recorded. *)
Record heap := Heap {
  events : list bool;
  log_records : list log_record;
  influxdb_fields : list (string * Z);
  recorded_timings : list (string * Z) }.

Definition empty_heap : heap := Heap [] [] [] [].

(** An error callback returns an exception to raise or [None], or raises
    itself; a duration callback returns nothing. *)
Definition on_error_callback := string -> exn -> heap -> outcome (option exn) * heap.
Definition on_duration_callback := string -> Z -> heap -> outcome unit * heap.

(** ** Driver handles and the calls made *)

Definition Pool := nat.
Definition Connection := nat.
Definition Cursor := nat.

(** Calls that leave the module, in the order they are made. *)
Inductive event :=
| EvAcquire (p : Pool)
| EvRelease (p : Pool) (conn : Connection)
| EvCursor (conn : Connection) (timeout : Timeout)
| EvCursorClose (cur : Cursor)
| EvExecute (cur : Cursor) (operation : string)
            (parameters : QueryParameters) (timeout : Timeout)
| EvCallproc (cur : Cursor) (procname : string)
             (parameters : QueryParameters) (timeout : Timeout)
| EvFetchone (cur : Cursor)
| EvFetchall (cur : Cursor)
| EvBegin (cur : Cursor)
| EvCommit (cur : Cursor)
| EvRollback (cur : Cursor)
| EvPoolClose (p : Pool)
| EvPoolWaitClosed (p : Pool)
| EvOnError (metric_name : string) (exc : exn)
| EvOnDuration (metric_name : string) (duration : Z).

(** The driver capability ([aiopg] over [psycopg2]) and the clock, as
    transitions on an environment state [D].  Every call may raise. *)
Record Driver (D : Type) := {
  (* aiopg.Pool *)
  pool_acquire : Pool -> D -> outcome Connection * D;
  pool_release : Pool -> Connection -> D -> outcome unit * D;
  pool_close : Pool -> D -> outcome unit * D;
  pool_wait_closed : Pool -> D -> outcome unit * D;
  pool_size : Pool -> D -> Z;
  pool_freesize : Pool -> D -> Z;
  pool_closed : Pool -> D -> bool;
  (* aiopg.Connection *)
  conn_cursor : Connection -> Timeout -> D -> outcome Cursor * D;
  (* aiopg.Cursor *)
  cursor_close : Cursor -> D -> outcome unit * D;
  cursor_execute :
    Cursor -> string -> QueryParameters -> Timeout -> D -> outcome unit * D;
  cursor_callproc :
    Cursor -> string -> QueryParameters -> Timeout -> D -> outcome unit * D;
  cursor_rowcount : Cursor -> D -> Z;
  cursor_fetchone : Cursor -> D -> outcome (option RealDictRow) * D;
  cursor_fetchall : Cursor -> D -> outcome (list RealDictRow) * D;
  (* aiopg.Transaction, reached through Cursor.begin() *)
  tx_begin : Cursor -> D -> outcome unit * D;
  tx_commit : Cursor -> D -> outcome unit * D;
  tx_rollback : Cursor -> D -> outcome unit * D;
  (* time.monotonic() *)
  monotonic : D -> Z }.

Arguments pool_acquire {D}.
Arguments pool_release {D}.
Arguments pool_close {D}.
Arguments pool_wait_closed {D}.
Arguments pool_size {D}.
Arguments pool_freesize {D}.
Arguments pool_closed {D}.
Arguments conn_cursor {D}.
Arguments cursor_close {D}.
Arguments cursor_execute {D}.
Arguments cursor_callproc {D}.
Arguments cursor_rowcount {D}.
Arguments cursor_fetchone {D}.
Arguments cursor_fetchall {D}.
Arguments tx_begin {D}.
Arguments tx_commit {D}.
Arguments tx_rollback {D}.
Arguments monotonic {D}.

(** ** The world and the monad of coroutines *)

Record world (D : Type) := World {
  env : D;
  trace : list event;
  objects : heap }.
Arguments World {D}.
Arguments env {D}.
Arguments trace {D}.
Arguments objects {D}.

(** A coroutine: runs on a world, returns or raises, leaves a world. *)
Definition M (D A : Type) : Type := world D -> outcome A * world D.

Definition ret {D A} (a : A) : M D A := fun w => (Ret a, w).

Definition raise {D A} (e : exn) : M D A := fun w => (Raise e, w).

Definition bind {D A B} (m : M D A) (f : A -> M D B) : M D B :=
  fun w => match m w with
           | (Ret a, w') => f a w'
           | (Raise e, w') => (Raise e, w')
           end.

(** [try: m  except <matching handles>: h err], no [else] clause. *)
Definition try_except {D A} (m : M D A) (handles : exn -> bool)
    (h : exn -> M D A) : M D A :=
  fun w => match m w with
           | (Ret a, w') => (Ret a, w')
           | (Raise e, w') => if handles e then h e w' else (Raise e, w')
           end.

(** [try: m  except <handles>: h err  else: k a]: the [else] clause is not
    protected by the handler. *)
Definition try_except_else {D A B} (m : M D A) (handles : exn -> bool)
    (h : exn -> M D B) (k : A -> M D B) : M D B :=
  fun w => match m w with
           | (Ret a, w') => k a w'
           | (Raise e, w') => if handles e then h e w' else (Raise e, w')
           end.

Declare Scope coro_scope.
Delimit Scope coro_scope with coro.
Notation "x <~ m ;; k" := (bind m (fun x => k))
  (at level 100, m at next level, right associativity) : coro_scope.
Notation "m ;;; k" := (bind m (fun _ => k))
  (at level 100, right associativity) : coro_scope.

(** The general form of [try]: continue with [on_ret] after a normal end,
    with [on_raise] after an exception; neither continuation is protected. *)
Definition catch {D A B} (m : M D A) (on_ret : A -> M D B)
    (on_raise : exn -> M D B) : M D B :=
  fun w => match m w with
           | (Ret a, w') => on_ret a w'
           | (Raise e, w') => on_raise e w'
           end.

(** ** Asynchronous generators

    A generator runs until it ends, raises, or stops at a [yield]; a stopped
    generator is resumed with [None] ([anext]) or with an exception thrown at
    the [yield] ([athrow]). *)
#[local] Set Warnings "-register-all".
Inductive gstep (D X A : Type) : Type :=
| GDone (a : A)
| GYield (x : X)
         (k : option exn -> world D -> outcome (gstep D X A) * world D).
Arguments GDone {D X A} a.
Arguments GYield {D X A} x k.

Definition G (D X A : Type) : Type := M D (gstep D X A).

Definition gret {D X A} (a : A) : G D X A := ret (GDone a).

Definition graise {D X A} (e : exn) : G D X A := raise e.

(** A coroutine awaited inside a generator. *)
Definition glift {D X A} (m : M D A) : G D X A :=
  bind m (fun a => ret (GDone a)).

(** [yield x] *)
Definition yield_ {D X} (x : X) : G D X unit :=
  ret (GYield x (fun sent =>
                   match sent with
                   | None => ret (GDone tt)
                   | Some e => raise e
                   end)).

Fixpoint gcatch_step {D X A B} (s : gstep D X A) (on_ret : A -> G D X B)
    (on_raise : exn -> G D X B) {struct s} : G D X B :=
  match s with
  | GDone a => on_ret a
  | GYield x k =>
      ret (GYield x (fun sent w =>
                       match k sent w with
                       | (Ret s', w') => gcatch_step s' on_ret on_raise w'
                       | (Raise e, w') => on_raise e w'
                       end))
  end.

(** [catch] for generator code: the protected part may stop at yields and
    is still protected when it is resumed. *)
Definition gcatch {D X A B} (m : G D X A) (on_ret : A -> G D X B)
    (on_raise : exn -> G D X B) : G D X B :=
  catch m (fun s => gcatch_step s on_ret on_raise) on_raise.

Definition gbind {D X A B} (m : G D X A) (f : A -> G D X B) : G D X B :=
  gcatch m f graise.

Definition gtry_except {D X A} (m : G D X A) (handles : exn -> bool)
    (h : exn -> G D X A) : G D X A :=
  gcatch m gret (fun e => if handles e then h e else graise e).

Declare Scope gen_scope.
Delimit Scope gen_scope with gen.
Notation "x <~ m ;; k" := (gbind m (fun x => k))
  (at level 100, m at next level, right associativity) : gen_scope.
Notation "m ;;; k" := (gbind m (fun _ => k))
  (at level 100, right associativity) : gen_scope.

(** ** Context managers *)

(** A context manager given by its [__aenter__] and [__aexit__]; the
    managers of the driver return [None] from [__aexit__], so they never
    suppress the exception they are told about. *)
Record context_manager (D X : Type) := {
  aenter : M D X;
  aexit : X -> option exn -> M D unit }.
Arguments aenter {D X}.
Arguments aexit {D X}.

(** [async with c as y: body y] inside a generator. *)
Definition async_with_cm {D X Y B} (c : context_manager D Y)
    (body : Y -> G D X B) : G D X B :=
  (y <~ glift (aenter c) ;;
   gcatch (body y)
     (fun b => glift (aexit c y None) ;;; gret b)
     (fun e => glift (aexit c y (Some e)) ;;; graise e))%gen.

Definition didnt_yield := RuntimeError "generator didn't yield".
Definition didnt_stop := RuntimeError "generator didn't stop".
Definition didnt_stop_after_athrow :=
  RuntimeError "generator didn't stop after athrow()".

(** What [contextlib.asynccontextmanager] does with the generator when the
    body of the [async with] has ended: with [None] after a normal end, with
    the exception of the body otherwise.  A generator that ends after
    [athrow] has suppressed the exception; one that yields again is an
    error. *)
Definition agen_exit {D Y B} (k : option exn -> G D Y unit)
    (r : outcome B) : M D (option B) :=
  match r with
  | Ret b =>
      (st <~ k None ;;
       match st with
       | GDone _ => ret (Some b)
       | GYield _ _ => raise didnt_stop
       end)%coro
  | Raise e =>
      (st <~ k (Some e) ;;
       match st with
       | GDone _ => ret None
       | GYield _ _ => raise didnt_stop_after_athrow
       end)%coro
  end.

(** [async with g as y: body y] in a coroutine, for [g] made by
    [contextlib.asynccontextmanager].  The result is [None] when the
    generator suppressed an exception of the body. *)
Definition async_with {D Y B} (g : G D Y unit) (body : Y -> M D B)
    : M D (option B) :=
  (st <~ g ;;
   match st with
   | GDone _ => raise didnt_yield
   | GYield y k =>
       catch (body y) (fun b => agen_exit k (Ret b))
                      (fun e => agen_exit k (Raise e))
   end)%coro.

(** The same inside a generator, where the body may yield. *)
Definition async_with_gen {D X Y B} (g : G D Y unit) (body : Y -> G D X B)
    : G D X (option B) :=
  (st <~ glift g ;;
   match st with
   | GDone _ => graise didnt_yield
   | GYield y k =>
       gcatch (body y) (fun b => glift (agen_exit k (Ret b)))
                       (fun e => glift (agen_exit k (Raise e)))
   end)%gen.

(** ** The module *)

Definition DEFAULT_POSTGRES_QUERY_TIMEOUT : Z := 120.

(** [@dataclasses.dataclass class QueryResult] *)
Record QueryResult := {
  row_count : Z;
  row : option (gmap string value);
  rows : option (list (gmap string value)) }.

(** [class PostgresConnector]: the attributes [__init__] sets. *)
Record PostgresConnector := {
  cursor : Cursor;
  _on_error : on_error_callback;
  _on_duration : option on_duration_callback;
  _timeout : Z }.

(** The keyword arguments [callproc] and [execute] hand to [_query]:
    [procname=] or [operation=], [parameters=] and [timeout=]. *)
Record kwargs := {
  kw_operation : string;
  kw_parameters : QueryParameters;
  kw_timeout : Timeout }.

(** [class ApplicationMixin]: [__init__] sets [_postgres_pool] to [None],
    [_postgres_setup] to the pool it creates. *)
Record ApplicationMixin := {
  _postgres_pool : option Pool }.

Definition POSTGRES_STATUS_TIMEOUT : Z := 3.

(** The dictionary [postgres_status] returns. *)
Record status := {
  available : bool;
  status_pool_size : Z;
  status_pool_free : Z }.

Section sprockets_postgres.

Context {D : Type}.

(** The driver and clock the module runs against. *)
Variable drv : Driver D.

(** [os.environ] and the builtin [int] on strings ([None] for the
    strings on which it raises [ValueError]). *)
Variable environ : gmap string string.
Variable int_of_str : string -> option Z.

Local Abbreviation M := (M D).
Local Abbreviation G := (G D).

(** *** Calls out of the module, recorded in the trace *)

Definition driver_call {A} (ev : event) (f : D -> outcome A * D) : M A :=
  fun w => let (r, d) := f (env w) in
           (r, World d (trace w ++ [ev]) (objects w)).

Definition call_on_error (cb : on_error_callback) (metric_name : string)
    (err : exn) : M (option exn) :=
  fun w => let (r, h) := cb metric_name err (objects w) in
           (r, World (env w) (trace w ++ [EvOnError metric_name err]) h).

Definition call_on_duration (cb : on_duration_callback)
    (metric_name : string) (duration : Z) : M unit :=
  fun w => let (r, h) := cb metric_name duration (objects w) in
           (r, World (env w) (trace w ++ [EvOnDuration metric_name duration]) h).

(** [time.monotonic()] *)
Definition time_monotonic : M Z :=
  fun w => (Ret (monotonic drv (env w)), w).

(** [cursor.rowcount] *)
Definition rowcount (cur : Cursor) : M Z :=
  fun w => (Ret (cursor_rowcount drv cur (env w)), w).

Definition fetchone (cur : Cursor) : M (option RealDictRow) :=
  driver_call (EvFetchone cur) (cursor_fetchone drv cur).

Definition fetchall (cur : Cursor) : M (list RealDictRow) :=
  driver_call (EvFetchall cur) (cursor_fetchall drv cur).

(** The bound methods [self.cursor.execute] and [self.cursor.callproc],
    called with the keyword arguments. *)
Definition cursor_execute_method (cur : Cursor) (kw : kwargs) : M unit :=
  driver_call
    (EvExecute cur (kw_operation kw) (kw_parameters kw) (kw_timeout kw))
    (cursor_execute drv cur (kw_operation kw) (kw_parameters kw)
       (kw_timeout kw)).

Definition cursor_callproc_method (cur : Cursor) (kw : kwargs) : M unit :=
  driver_call
    (EvCallproc cur (kw_operation kw) (kw_parameters kw) (kw_timeout kw))
    (cursor_callproc drv cur (kw_operation kw) (kw_parameters kw)
       (kw_timeout kw)).

(** [dict(x)] for what [fetchone] returned; it returns [None] when the
    result set is exhausted, and [dict(None)] raises. *)
Definition dict_of_fetched (x : option RealDictRow)
    : M (gmap string value) :=
  match x with
  | Some r => ret (dict r)
  | None => raise (TypeError "'NoneType' object is not iterable")
  end.

(** *** PostgresConnector *)

(** [int(os.environ.get('POSTGRES_QUERY_TIMEOUT',
    DEFAULT_POSTGRES_QUERY_TIMEOUT))] *)
Definition environ_query_timeout : outcome Z :=
  match environ !! "POSTGRES_QUERY_TIMEOUT" with
  | None => Ret DEFAULT_POSTGRES_QUERY_TIMEOUT
  | Some s =>
      match int_of_str s with
      | Some z => Ret z
      | None =>
          Raise (ValueError
                   ("invalid literal for int() with base 10: '" +:+ s +:+ "'"))
      end
  end.

(** [PostgresConnector.__init__]; [timeout or int(...)] evaluates the
    right operand only when [timeout] is false. *)
Definition PostgresConnector__init__ (cur : Cursor)
    (on_error : on_error_callback)
    (on_duration : option on_duration_callback) (timeout : Timeout)
    : outcome PostgresConnector :=
  match (if timeout_truthy timeout
         then Ret (default 0 timeout)
         else environ_query_timeout) with
  | Ret t => Ret {| cursor := cur; _on_error := on_error;
                    _on_duration := on_duration; _timeout := t |}
  | Raise e => Raise e
  end.

(** [PostgresConnector._query_results] *)
Definition _query_results (self : PostgresConnector) : M QueryResult :=
  (count <~ rowcount (cursor self) ;;
   n <~ rowcount (cursor self) ;;
   if n =? 1 then
     row <~ try_except
              (fetched <~ fetchone (cursor self) ;;
               d <~ dict_of_fetched fetched ;;
               ret (Some d))
              (is_psycopg2 psycopg2.ProgrammingError)
              (fun _ => ret None) ;;
     ret {| row_count := count; row := row; rows := None |}
   else
     n' <~ rowcount (cursor self) ;;
     if n' >? 1 then
       rows <~ try_except
                 (fetched <~ fetchall (cursor self) ;;
                  ret (Some (map dict fetched)))
                 (is_psycopg2 psycopg2.ProgrammingError)
                 (fun _ => ret None) ;;
       ret {| row_count := count; row := None; rows := rows |}
     else
       ret {| row_count := count; row := None; rows := None |})%coro.

(** [if kwargs['timeout'] is None: kwargs['timeout'] = self._timeout] *)
Definition timeout_defaulted (self : PostgresConnector) (kw : kwargs)
    : kwargs :=
  match kw_timeout kw with
  | None => {| kw_operation := kw_operation kw;
               kw_parameters := kw_parameters kw;
               kw_timeout := Some (_timeout self) |}
  | Some _ => kw
  end.

(** [PostgresConnector._query]; the result is [None] when the function
    ends without [return]. *)
Definition _query (self : PostgresConnector) (method : kwargs -> M unit)
    (metric_name : string) (kw : kwargs) : M (option QueryResult) :=
  let kw := timeout_defaulted self kw in
  (start_time <~ time_monotonic ;;
   try_except_else (method kw) timeout_or_driver_error
     (fun err =>
        exc <~ call_on_error (_on_error self) metric_name err ;;
        match exc with
        | Some e => raise e
        | None => ret None
        end)
     (fun _ =>
        results <~ _query_results self ;;
        match _on_duration self with
        | Some on_duration =>
            now <~ time_monotonic ;;
            call_on_duration on_duration metric_name (now - start_time)
        | None => ret tt
        end ;;;
        ret (Some results)))%coro.

(** [PostgresConnector.callproc] *)
Definition callproc (self : PostgresConnector) (name : string)
    (parameters : QueryParameters) (metric_name : string)
    (timeout : Timeout) : M (option QueryResult) :=
  _query self (cursor_callproc_method (cursor self)) metric_name
    {| kw_operation := name; kw_parameters := parameters;
       kw_timeout := timeout |}.

(** [PostgresConnector.execute] *)
Definition execute (self : PostgresConnector) (sql : string)
    (parameters : QueryParameters) (metric_name : string)
    (timeout : Timeout) : M (option QueryResult) :=
  _query self (cursor_execute_method (cursor self)) metric_name
    {| kw_operation := sql; kw_parameters := parameters;
       kw_timeout := timeout |}.

(** [self.cursor.begin()]: the driver's transaction manager issues
    [BEGIN] on entry; on exit it issues [ROLLBACK] when told about an
    exception and [COMMIT] otherwise. *)
Definition cursor_begin (cur : Cursor) : context_manager D unit :=
  {| aenter := driver_call (EvBegin cur) (tx_begin drv cur);
     aexit := fun _ exc =>
                match exc with
                | Some _ => driver_call (EvRollback cur) (tx_rollback drv cur)
                | None => driver_call (EvCommit cur) (tx_commit drv cur)
                end |}.

(** [PostgresConnector.transaction] *)
Definition transaction (self : PostgresConnector)
    : G PostgresConnector unit :=
  async_with_cm (cursor_begin (cursor self)) (fun _ => yield_ self).

(** *** ApplicationMixin *)

(** [self._postgres_pool.<attr>]: on [None] the attribute access raises. *)
Definition the_pool (self : ApplicationMixin) (attr : string) : M Pool :=
match _postgres_pool self with
| Some p => ret p
| None =>
    raise (AttributeError
             ("'NoneType' object has no attribute '" +:+ attr +:+ "'"))
end.

(** [self._postgres_pool.acquire()]: entering takes a connection from the
    pool, leaving gives it back. *)
Definition pool_acquire_cm (p : Pool) : context_manager D Connection :=
{| aenter := driver_call (EvAcquire p) (pool_acquire drv p);
   aexit := fun conn _ =>
              driver_call (EvRelease p conn) (pool_release drv p conn) |}.

(** [conn.cursor(cursor_factory=extras.RealDictCursor, timeout=timeout)]:
    entering opens the cursor, leaving closes it. *)
Definition conn_cursor_cm (conn : Connection) (timeout : Timeout)
    : context_manager D Cursor :=
{| aenter := driver_call (EvCursor conn timeout) (conn_cursor drv conn timeout);
   aexit := fun cur _ =>
              driver_call (EvCursorClose cur) (cursor_close drv cur) |}.

Definition of_outcome {A} (r : outcome A) : M A := fun w => (r, w).

(** [ApplicationMixin.postgres_connector] *)
Definition postgres_connector (self : ApplicationMixin)
    (on_error : on_error_callback)
    (on_duration : option on_duration_callback) (timeout : Timeout)
    : G (option PostgresConnector) unit :=
gtry_except
  (p <~ glift (the_pool self "acquire") ;;
   async_with_cm (pool_acquire_cm p) (fun conn =>
     async_with_cm (conn_cursor_cm conn timeout) (fun cur =>
       connector <~ glift (of_outcome
                             (PostgresConnector__init__ cur on_error
                                on_duration timeout)) ;;
       yield_ (Some connector))))%gen
  timeout_or_driver_error
  (fun err =>
     (exc <~ glift (call_on_error on_error "postgres_connector"
                      (ConnectionException (str err))) ;;
      match exc with
      | Some e => graise e
      | None => yield_ None
      end)%gen).

(** [asyncio.Event()], [Event.set()] and [Event.is_set()] *)
Definition asyncio_Event : M nat :=
fun w =>
  let h := objects w in
  (Ret (length (events h)),
   World (env w) (trace w)
     (Heap (events h ++ [false]) (log_records h) (influxdb_fields h)
        (recorded_timings h))).

Definition Event_set (a : nat) (h : heap) : heap :=
Heap (<[a := true]> (events h)) (log_records h) (influxdb_fields h)
  (recorded_timings h).

Definition Event_is_set (a : nat) : M bool :=
fun w => (Ret (default false (events (objects w) !! a)), w).

(** [ApplicationMixin.postgres_status] *)
Definition postgres_status (self : ApplicationMixin) : M status :=
(query_error <~ asyncio_Event ;;
 let on_error : on_error_callback :=
   fun _metric_name _exc h => (Ret None, Event_set query_error h) in
 async_with
   (postgres_connector self on_error None (Some POSTGRES_STATUS_TIMEOUT))
   (fun connector =>
      match connector with
      | Some c => execute c "SELECT 1" ParametersNone "" None ;;; ret tt
      | None => ret tt
      end) ;;;
 is_set <~ Event_is_set query_error ;;
 p <~ the_pool self "size" ;;
 fun w =>
   (Ret {| available := negb is_set;
           status_pool_size := pool_size drv p (env w);
           status_pool_free := pool_freesize drv p (env w) |}, w))%coro.

(** [ApplicationMixin._postgres_shutdown] *)
Definition _postgres_shutdown (self : ApplicationMixin) : M unit :=
match _postgres_pool self with
| Some p =>
    (driver_call (EvPoolClose p) (pool_close drv p) ;;;
     driver_call (EvPoolWaitClosed p) (pool_wait_closed drv p))%coro
| None => ret tt
end.

End sprockets_postgres.

(** *** RequestHandlerMixin *)

(** [s.split('\n')[0]] *)
Fixpoint first_line (s : string) : string :=
match s with
| EmptyString => EmptyString
| String c s' =>
    if Ascii.eqb c "010"%char then EmptyString else String c (first_line s')
end.

(** What [hasattr] finds on the handler in [_on_postgres_timing]. *)
Inductive metrics_mixin :=
| NoMetrics
| InfluxDB
| RecordTiming
| InfluxDBAndRecordTiming.

(** A request handler: its application, the name of its class, the metrics
    mixins of the class, and the two methods a subclass may override. *)
Record RequestHandlerMixin := {
  application : ApplicationMixin;
  handler_class : string;
  handler_metrics : metrics_mixin;
  on_postgres_error : on_error_callback;
  on_postgres_timing : on_duration_callback }.

Definition LOGGER_log (level format : string) (args : list log_arg)
    (h : heap) : heap :=
Heap (events h) (log_records h ++ [LogRecord level format args])
  (influxdb_fields h) (recorded_timings h).

(** [RequestHandlerMixin._on_postgres_error] *)
Definition _on_postgres_error (self_class : string) : on_error_callback :=
fun metric_name exc h =>
  let h := LOGGER_log "ERROR" "%s in %s for %s (%s)"
             [LogStr (class_name exc); LogStr self_class;
              LogStr metric_name; LogStr (first_line (str exc))] h in
  if is_ConnectionException exc then
    (Raise (HTTPError 503 "Database Connection Error"), h)
  else if is_TimeoutError exc then
    (Raise (HTTPError 500 "Query Timeout"), h)
  else if is_psycopg2 psycopg2.UniqueViolation exc then
    (Raise (HTTPError 409 "Unique Violation"), h)
  else if is_psycopg2 psycopg2.Error exc then
    (Raise (HTTPError 500 "Database Error"), h)
  else (Ret (Some exc), h).

(** [RequestHandlerMixin._on_postgres_timing] *)
Definition _on_postgres_timing (mixin : metrics_mixin)
    : on_duration_callback :=
fun metric_name duration h =>
  match mixin with
  | InfluxDB | InfluxDBAndRecordTiming =>
      (Ret tt,
       Heap (events h) (log_records h)
         (influxdb_fields h ++ [(metric_name, duration)])
         (recorded_timings h))
  | RecordTiming =>
      (Ret tt,
       Heap (events h) (log_records h) (influxdb_fields h)
         (recorded_timings h ++ [(metric_name, duration)]))
  | NoMetrics =>
      (Ret tt,
       LOGGER_log "DEBUG" "Postgres query %s duration: %s"
         [LogStr metric_name; LogNum duration] h)
  end.

(** A handler that overrides neither method. *)
Definition default_handler (app : ApplicationMixin) (cls : string)
    (mixin : metrics_mixin) : RequestHandlerMixin :=
{| application := app;
   handler_class := cls;
   handler_metrics := mixin;
   on_postgres_error := _on_postgres_error cls;
   on_postgres_timing := _on_postgres_timing mixin |}.

Section request_handler.

Context {D : Type}.
Variable drv : Driver D.
Variable environ : gmap string string.
Variable int_of_str : string -> option Z.

Local Abbreviation M := (M D).
Local Abbreviation G := (G D).

Definition no_attribute {A} (attr : string) : M A :=
raise (AttributeError
         ("'NoneType' object has no attribute '" +:+ attr +:+ "'")).

(** [RequestHandlerMixin.postgres_callproc]; leaving the [async with]
    without the [return] having run ends the function with [None]. *)
Definition postgres_callproc (self : RequestHandlerMixin) (name : string)
    (parameters : QueryParameters) (metric_name : string)
    (timeout : Timeout) : M (option QueryResult) :=
(r <~ async_with
        (postgres_connector drv environ int_of_str (application self)
           (on_postgres_error self) (Some (on_postgres_timing self)) timeout)
        (fun connector =>
           match connector with
           | Some c => callproc drv c name parameters metric_name timeout
           | None => no_attribute "callproc"
           end) ;;
 ret (mjoin r))%coro.

(** [RequestHandlerMixin.postgres_execute] *)
Definition postgres_execute (self : RequestHandlerMixin) (sql : string)
    (parameters : QueryParameters) (metric_name : string)
    (timeout : Timeout) : M (option QueryResult) :=
(r <~ async_with
        (postgres_connector drv environ int_of_str (application self)
           (on_postgres_error self) (Some (on_postgres_timing self)) timeout)
        (fun connector =>
           match connector with
           | Some c => execute drv c sql parameters metric_name timeout
           | None => no_attribute "execute"
           end) ;;
 ret (mjoin r))%coro.

(** [RequestHandlerMixin.postgres_transaction] *)
Definition postgres_transaction (self : RequestHandlerMixin)
    (timeout : Timeout) : G PostgresConnector unit :=
(async_with_gen
   (postgres_connector drv environ int_of_str (application self)
      (on_postgres_error self) (Some (on_postgres_timing self)) timeout)
   (fun connector =>
      match connector with
      | Some c => async_with_gen (transaction drv c) (fun _ => yield_ c)
      | None => glift (no_attribute "transaction")
      end) ;;;
 gret tt)%gen.

End request_handler.

(** ** A scripted driver

    A test double for the driver: what acquisition, cursor creation,
    execution, fetching and the transaction statements answer is fixed by a
    script; the pool flags follow [aiopg.Pool] ([acquire] refuses a pool
    that is closing, [close] marks it, [wait_closed] closes it).  Every
    call takes one tick of the clock. *)
Module Mock.

Record script := {
  acquire_result : outcome Connection;
  cursor_result : outcome Cursor;
  execute_result : outcome unit;
  reported_rowcount : Z;
  fetch_result : outcome (list RealDictRow);
  begin_result : outcome unit;
  commit_result : outcome unit;
  rollback_result : outcome unit }.

Record db := {
  answers : script;
  now : Z;
  unfetched : outcome (list RealDictRow);
  closing : bool;
  closed : bool;
  size : Z;
  free : Z }.

Definition start (s : script) (size free : Z) : db :=
{| answers := s; now := 0; unfetched := fetch_result s;
   closing := false; closed := false; size := size; free := free |}.

Definition tick (d : db) : db :=
{| answers := answers d; now := now d + 1; unfetched := unfetched d;
   closing := closing d; closed := closed d; size := size d;
   free := free d |}.

Definition set_free (n : Z) (d : db) : db :=
{| answers := answers d; now := now d; unfetched := unfetched d;
   closing := closing d; closed := closed d; size := size d; free := n |}.

Definition set_unfetched (r : outcome (list RealDictRow)) (d : db) : db :=
{| answers := answers d; now := now d; unfetched := r;
   closing := closing d; closed := closed d; size := size d;
   free := free d |}.

Definition set_flags (closing closed : bool) (size free : Z) (d : db) : db :=
{| answers := answers d; now := now d; unfetched := unfetched d;
   closing := closing; closed := closed; size := size; free := free |}.

Definition acquire (_ : Pool) (d : db) : outcome Connection * db :=
if closing d then
  (Raise (RuntimeError "Cannot acquire connection after closing pool"),
   tick d)
else
  match acquire_result (answers d) with
  | Ret c => (Ret c, tick (set_free (free d - 1) d))
  | Raise e => (Raise e, tick d)
  end.

Definition release (_ : Pool) (_ : Connection) (d : db) : outcome unit * db :=
(Ret tt, tick (set_free (free d + 1) d)).

Definition close (_ : Pool) (d : db) : outcome unit * db :=
if closed d then (Ret tt, d)
else (Ret tt, set_flags true (closed d) (size d) (free d) d).

Definition wait_closed (_ : Pool) (d : db) : outcome unit * db :=
if closed d then (Ret tt, d)
else if closing d then (Ret tt, tick (set_flags true true 0 0 d))
else (Raise (RuntimeError ".wait_closed() should be called after .close()"),
      d).

Definition fetchone (_ : Cursor) (d : db)
    : outcome (option RealDictRow) * db :=
match unfetched d with
| Ret [] => (Ret None, tick d)
| Ret (r :: rest) => (Ret (Some r), tick (set_unfetched (Ret rest) d))
| Raise e => (Raise e, tick d)
end.

Definition fetchall (_ : Cursor) (d : db)
    : outcome (list RealDictRow) * db :=
match unfetched d with
| Ret rs => (Ret rs, tick (set_unfetched (Ret []) d))
| Raise e => (Raise e, tick d)
end.

Definition driver : Driver db :=
{| pool_acquire := acquire;
   pool_release := release;
   pool_close := close;
   pool_wait_closed := wait_closed;
   pool_size := fun _ d => size d;
   pool_freesize := fun _ d => free d;
   pool_closed := fun _ d => closed d;
   conn_cursor := fun _ _ d => (cursor_result (answers d), tick d);
   cursor_close := fun _ d => (Ret tt, tick d);
   cursor_execute := fun _ _ _ _ d => (execute_result (answers d), tick d);
   cursor_callproc := fun _ _ _ _ d => (execute_result (answers d), tick d);
   cursor_rowcount := fun _ d => reported_rowcount (answers d);
   cursor_fetchone := fetchone;
   cursor_fetchall := fetchall;
   tx_begin := fun _ d => (begin_result (answers d), tick d);
   tx_commit := fun _ d => (commit_result (answers d), tick d);
   tx_rollback := fun _ d => (rollback_result (answers d), tick d);
   monotonic := now |}.

(** A stand-in for [int] on strings: decimal digits only. *)
Definition digit (c : ascii) : option Z :=
let n := Z.of_nat (nat_of_ascii c) in
if (48 <=? n) && (n <=? 57) then Some (n - 48) else None.

Fixpoint digits (acc : Z) (s : string) : option Z :=
match s with
| EmptyString => Some acc
| String c s' =>
    match digit c with
    | Some v => digits (10 * acc + v) s'
    | None => None
    end
end.

Definition int_of_str (s : string) : option Z :=
match s with
| EmptyString => None
| _ => digits 0 s
end.

(** A database where everything succeeds and [SELECT 1] returns a row. *)
Definition one : RealDictRow := {| row_items := {[ "?column?" := VInt 1 ]} |}.

Definition healthy : script :=
{| acquire_result := Ret 7%nat;
   cursor_result := Ret 11%nat;
   execute_result := Ret tt;
   reported_rowcount := 1;
   fetch_result := Ret [one];
   begin_result := Ret tt;
   commit_result := Ret tt;
   rollback_result := Ret tt |}.

(** The database cannot be reached. *)
Definition unreachable : script :=
{| acquire_result :=
     Raise (Psycopg2Error psycopg2.OperationalError "connection refused");
   cursor_result := Ret 11%nat;
   execute_result := Ret tt;
   reported_rowcount := 1;
   fetch_result := Ret [one];
   begin_result := Ret tt;
   commit_result := Ret tt;
   rollback_result := Ret tt |}.

(** Opening a cursor times out. *)
Definition no_cursor : script :=
{| acquire_result := Ret 7%nat;
   cursor_result := Raise (TimeoutError "");
   execute_result := Ret tt;
   reported_rowcount := 1;
   fetch_result := Ret [one];
   begin_result := Ret tt;
   commit_result := Ret tt;
   rollback_result := Ret tt |}.

(** The statement violates a unique constraint. *)
Definition duplicate_key : script :=
{| acquire_result := Ret 7%nat;
   cursor_result := Ret 11%nat;
   execute_result :=
     Raise (Psycopg2Error psycopg2.UniqueViolation
              "duplicate key value violates unique constraint");
   reported_rowcount := -1;
   fetch_result := Ret [];
   begin_result := Ret tt;
   commit_result := Ret tt;
   rollback_result := Ret tt |}.

(** The statement returns what [rows] holds and reports [n] rows. *)
Definition returning (n : Z) (rows : outcome (list RealDictRow)) : script :=
{| acquire_result := Ret 7%nat;
   cursor_result := Ret 11%nat;
   execute_result := Ret tt;
   reported_rowcount := n;
   fetch_result := rows;
   begin_result := Ret tt;
   commit_result := Ret tt;
   rollback_result := Ret tt |}.

Definition two : RealDictRow := {| row_items := {[ "?column?" := VInt 2 ]} |}.

Definition no_results : exn :=
Psycopg2Error psycopg2.ProgrammingError "no results to fetch".

Definition cursor_closed : exn :=
Psycopg2Error psycopg2.InterfaceError "cursor already closed".

Definition world0 (s : script) : world db := World (start s 1 1) [] empty_heap.

Definition app : ApplicationMixin := {| _postgres_pool := Some 0%nat |}.

Definition app_not_started : ApplicationMixin := {| _postgres_pool := None |}.

(** Error callbacks: one returns [None], one returns the exception. *)
Definition swallow : on_error_callback := fun _ _ h => (Ret None, h).

Definition hand_back : on_error_callback := fun _ exc h => (Ret (Some exc), h).

Definition connector (on_error : on_error_callback) : PostgresConnector :=
{| cursor := 11%nat;
   _on_error := on_error;
   _on_duration := Some (_on_postgres_timing RecordTiming);
   _timeout := 120 |}.

Definition untimed (on_error : on_error_callback) : PostgresConnector :=
{| cursor := 11%nat;
   _on_error := on_error;
   _on_duration := None;
   _timeout := 120 |}.

Definition insert : kwargs :=
{| kw_operation := "INSERT INTO t(id) VALUES (%s)";
   kw_parameters := ParametersSeq [VInt 1];
   kw_timeout := None |}.

Definition handler : RequestHandlerMixin :=
default_handler app "RequestHandler" NoMetrics.

End Mock.

(** ** Start-up

    [ApplicationMixin._postgres_setup] builds the pool from the environment
    and fills it.  What it calls outside the module is a parameter: the
    constructor of [aiopg.pool.Pool], the pool's [_fill_free_pool], the
    [stop] of the application, and the parsers [int] and
    [distutils.util.strtobool] ([None] for the strings on which they raise
    [ValueError]).  These calls are not entered in the trace. *)

Definition DEFAULT_POSTGRES_CONNECTION_TIMEOUT : Z := 10.
Definition DEFAULT_POSTGRES_CONNECTION_TTL : Z := 300.
Definition DEFAULT_POSTGRES_HSTORE : string := "FALSE".
Definition DEFAULT_POSTGRES_JSON : string := "FALSE".
Definition DEFAULT_POSTGRES_MAX_POOL_SIZE : string := "10".
Definition DEFAULT_POSTGRES_MIN_POOL_SIZE : string := "1".
Definition DEFAULT_POSTGRES_UUID : string := "TRUE".

(** The arguments [_postgres_setup] gives to [pool.Pool]; [strtobool]
    returns the integers 1 and 0; [on_connect] is always [None]. *)
Record pool_arguments := {
  dsn : string;
  maxsize : Z;
  minsize : Z;
  timeout_ : Z;
  enable_hstore : Z;
  enable_json : Z;
  enable_uuid : Z;
  echo : bool;
  pool_recycle : Z }.

Record Host (D : Type) := {
  (* aiopg.pool.Pool(dsn, maxsize=..., ...) *)
  Pool_new : pool_arguments -> D -> outcome Pool * D;
  (* async with pool._cond: await pool._fill_free_pool(False) *)
  pool_fill_free_pool : Pool -> D -> outcome unit * D;
  (* self.stop(loop) *)
  app_stop : D -> outcome unit * D }.
Arguments Pool_new {D}.
Arguments pool_fill_free_pool {D}.
Arguments app_stop {D}.

(** [r >>= f] on results without state: the arguments of a call are
    evaluated in order and the first exception ends the evaluation. *)
Definition and_then {A B} (r : outcome A) (f : A -> outcome B) : outcome B :=
match r with
| Ret a => f a
| Raise e => Raise e
end.

Section startup.

Context {D : Type}.
Variable host : Host D.
Variable environ : gmap string string.
Variable int_of_str : string -> option Z.
Variable strtobool_of_str : string -> option Z.

(** [int(s)] for a string *)
Definition int_ (s : string) : outcome Z :=
match int_of_str s with
| Some z => Ret z
| None =>
    Raise (ValueError
             ("invalid literal for int() with base 10: '" +:+ s +:+ "'"))
end.

(** [util.strtobool(s)] *)
Definition strtobool (s : string) : outcome Z :=
match strtobool_of_str s with
| Some z => Ret z
| None => Raise (ValueError ("invalid truth value '" +:+ s +:+ "'"))
end.

(** [int(os.environ.get(key, default))] for a default that is a string, as
    for the pool sizes, and for one that is an integer already. *)
Definition environ_int_str (key default_ : string) : outcome Z :=
int_ (default default_ (environ !! key)).

Definition environ_int (key : string) (default_ : Z) : outcome Z :=
match environ !! key with
| Some s => int_ s
| None => Ret default_
end.

(** [util.strtobool(os.environ.get(key, default))] *)
Definition environ_bool (key default_ : string) : outcome Z :=
strtobool (default default_ (environ !! key)).

(** The arguments of the [pool.Pool(...)] call, evaluated left to right. *)
Definition pool_arguments_of_environ (url : string) : outcome pool_arguments :=
and_then (environ_int_str "POSTGRES_MAX_POOL_SIZE"
            DEFAULT_POSTGRES_MAX_POOL_SIZE) (fun maxsize =>
and_then (environ_int_str "POSTGRES_MIN_POOL_SIZE"
            DEFAULT_POSTGRES_MIN_POOL_SIZE) (fun minsize =>
and_then (environ_int "POSTGRES_CONNECT_TIMEOUT"
            DEFAULT_POSTGRES_CONNECTION_TIMEOUT) (fun timeout =>
and_then (environ_bool "POSTGRES_HSTORE" DEFAULT_POSTGRES_HSTORE)
  (fun hstore =>
and_then (environ_bool "POSTGRES_JSON" DEFAULT_POSTGRES_JSON) (fun json =>
and_then (environ_bool "POSTGRES_UUID" DEFAULT_POSTGRES_UUID) (fun uuid =>
and_then (environ_int "POSTGRES_CONNECTION_TTL"
            DEFAULT_POSTGRES_CONNECTION_TTL) (fun ttl =>
Ret {| dsn := url; maxsize := maxsize; minsize := minsize;
       timeout_ := timeout; enable_hstore := hstore; enable_json := json;
       enable_uuid := uuid; echo := false; pool_recycle := ttl |}))))))).

(** [ApplicationMixin._postgres_setup]: the result, the application with
    the attribute it may have set, and the world. *)
Definition _postgres_setup (self : ApplicationMixin) (w : world D)
    : outcome unit * ApplicationMixin * world D :=
match environ !! "POSTGRES_URL" with
| None =>
    let h := LOGGER_log "CRITICAL" "Missing POSTGRES_URL environment variable"
               [] (objects w) in
    let (r, d) := app_stop host (env w) in
    (r, self, World d (trace w) h)
| Some url =>
    match pool_arguments_of_environ url with
    | Raise e => (Raise e, self, w)
    | Ret arguments =>
        match Pool_new host arguments (env w) with
        | (Raise e, d) => (Raise e, self, World d (trace w) (objects w))
        | (Ret p, d) =>
            let self := {| _postgres_pool := Some p |} in
            match pool_fill_free_pool host p d with
            | (Ret _, d') => (Ret tt, self, World d' (trace w) (objects w))
            | (Raise error, d') =>
                if is_psycopg2 psycopg2.OperationalError error
                   || is_psycopg2 psycopg2.Error error
                then
                  (Ret tt, self,
                   World d' (trace w)
                     (LOGGER_log "WARNING"
                        "Error connecting to PostgreSQL on startup: %s"
                        [LogStr (str error)] (objects w)))
                else (Raise error, self, World d' (trace w) (objects w))
            end
        end
    end
end.

End startup.

(** A host for the scripted driver: the constructor checks the sizes as
    [aiopg.pool.Pool] does, filling the pool connects as the script says,
    and a stand-in for [strtobool] on ASCII. *)
Module MockHost.

Definition new_pool (a : pool_arguments) (d : Mock.db)
    : outcome Pool * Mock.db :=
if minsize a <? 0 then
  (Raise (ValueError "minsize should be zero or greater"), d)
else if (maxsize a <? minsize a) && negb (maxsize a =? 0) then
  (Raise (ValueError "maxsize should be not less than minsize"), d)
else (Ret 0%nat, d).

Definition fill (_ : Pool) (d : Mock.db) : outcome unit * Mock.db :=
match Mock.acquire_result (Mock.answers d) with
| Ret _ => (Ret tt, Mock.tick d)
| Raise e => (Raise e, Mock.tick d)
end.

Definition host : Host Mock.db :=
{| Pool_new := new_pool;
   pool_fill_free_pool := fill;
   app_stop := fun d => (Ret tt, Mock.tick d) |}.

Definition lower_ascii (c : ascii) : ascii :=
let n := nat_of_ascii c in
if (65 <=? n)%nat && (n <=? 90)%nat then ascii_of_nat (n + 32) else c.

Fixpoint lower (s : string) : string :=
match s with
| EmptyString => EmptyString
| String c s' => String (lower_ascii c) (lower s')
end.

Definition strtobool_of_str (s : string) : option Z :=
let val := lower s in
if bool_decide (val ∈ ["y"; "yes"; "t"; "true"; "on"; "1"]) then Some 1
else if bool_decide (val ∈ ["n"; "no"; "f"; "false"; "off"; "0"]) then Some 0
else None.

Definition url : string := "postgresql://localhost:5432/postgres".

End MockHost.

(** Further scripts, handlers and environments for the scripted driver. *)
Module MockCases.

(** The statement raises [e]. *)
Definition failing_with (e : exn) : Mock.script :=
{| Mock.acquire_result := Ret 7%nat;
   Mock.cursor_result := Ret 11%nat;
   Mock.execute_result := Raise e;
   Mock.reported_rowcount := -1;
   Mock.fetch_result := Ret [];
   Mock.begin_result := Ret tt;
   Mock.commit_result := Ret tt;
   Mock.rollback_result := Ret tt |}.

(** The transaction statements answer as given. *)
Definition transacting (begin commit rollback : outcome unit) : Mock.script :=
{| Mock.acquire_result := Ret 7%nat;
   Mock.cursor_result := Ret 11%nat;
   Mock.execute_result := Ret tt;
   Mock.reported_rowcount := 1;
   Mock.fetch_result := Ret [Mock.one];
   Mock.begin_result := begin;
   Mock.commit_result := commit;
   Mock.rollback_result := rollback |}.

(** Connecting answers as given. *)
Definition connecting (r : outcome Connection) : Mock.script :=
{| Mock.acquire_result := r;
   Mock.cursor_result := Ret 11%nat;
   Mock.execute_result := Ret tt;
   Mock.reported_rowcount := 1;
   Mock.fetch_result := Ret [Mock.one];
   Mock.begin_result := Ret tt;
   Mock.commit_result := Ret tt;
   Mock.rollback_result := Ret tt |}.

Definition server_gone : exn :=
Psycopg2Error psycopg2.OperationalError "server closed the connection".

(** A handler whose error method is overridden to return [None]. *)
Definition quiet_handler : RequestHandlerMixin :=
{| application := Mock.app;
   handler_class := "QuietHandler";
   handler_metrics := NoMetrics;
   on_postgres_error := Mock.swallow;
   on_postgres_timing := _on_postgres_timing NoMetrics |}.

Definition bad_query_timeout : gmap string string :=
{[ "POSTGRES_QUERY_TIMEOUT" := "soon" ]}.

Definition url_only : gmap string string :=
{[ "POSTGRES_URL" := MockHost.url ]}.

Definition bad_pool_size : gmap string string :=
<[ "POSTGRES_MAX_POOL_SIZE" := "many" ]> url_only.

Definition bad_flag : gmap string string :=
<[ "POSTGRES_JSON" := "maybe" ]> url_only.

End MockCases.

(** * Properties *)

Local Close Scope string_scope.

Section properties.

Context {D : Type}.
Variable drv : Driver D.
Variable environ : gmap string string.
Variable int_of_str : string -> option Z.

Local Abbreviation M := (M D).
Local Abbreviation G := (G D).

(** ** Running the primitives *)

Lemma run_driver_call {A} (ev : event) (f : D -> outcome A * D) (w : world D)
    (r : outcome A) (d : D) :
  f (env w) = (r, d) ->
  driver_call ev f w = (r, World d (trace w ++ [ev]) (objects w)).
Proof. intros H. unfold driver_call. now rewrite H. Qed.

(** Unfolding the control operators, to run a program on a world. *)
Ltac unfold_coro :=
  unfold async_with, async_with_gen, async_with_cm, agen_exit,
    gtry_except, gbind, gcatch, glift, gret, graise, yield_,
    catch, try_except, try_except_else, bind, ret, raise, of_outcome,
    the_pool, call_on_error, call_on_duration, time_monotonic.

(** ** Result shaping *)

(** The two optional fields are filled in different branches. *)
Lemma _query_results_exclusive (self : PostgresConnector) (w w' : world D)
    (qr : QueryResult) :
  _query_results drv self w = (Ret qr, w') ->
  row_count qr = cursor_rowcount drv (cursor self) (env w) /\
  (row qr = None \/ rows qr = None).
Proof.
  unfold _query_results, bind, try_except, rowcount, ret; simpl.
  destruct (_ =? 1).
  - destruct (fetchone drv (cursor self) w) as [[fetched|e] w1].
    + destruct (dict_of_fetched fetched w1) as [[d|e] w2]; simpl.
      * intros [= <- <-]; simpl; auto.
      * destruct (is_psycopg2 _ e); [intros [= <- <-]; simpl; auto|easy].
    + destruct (is_psycopg2 _ e); [intros [= <- <-]; simpl; auto|easy].
  - destruct (_ >? 1).
    + destruct (fetchall drv (cursor self) w) as [[fetched|e] w1]; simpl.
      * intros [= <- <-]; simpl; auto.
      * destruct (is_psycopg2 _ e); [intros [= <- <-]; simpl; auto|easy].
    + intros [= <- <-]; simpl; auto.
Qed.

(** C1.  Shape of the [QueryResult] for a cursor that reports [n] rows:
    with [n = 1] and a fetched row, [row] is the mapping of that row and
    [rows] is unset; with [n > 1], [rows] is the fetched rows as mappings,
    in the order fetched (so [n] of them when the driver hands over the [n]
    rows it reported) and [row] is unset; with [n = 0] nothing is fetched
    and both are unset; a [ProgrammingError] from fetching leaves the field
    unset and is not raised; and no result has both fields set. *)
Theorem query_results_shape (self : PostgresConnector) (w : world D) :
  let cur := cursor self in
  let n := cursor_rowcount drv cur (env w) in
  (n = 1 -> forall r d,
     cursor_fetchone drv cur (env w) = (Ret (Some r), d) ->
     _query_results drv self w =
       (Ret {| row_count := 1; row := Some (dict r); rows := None |},
        World d (trace w ++ [EvFetchone cur]) (objects w))) /\
  (1 < n -> forall rs d,
     cursor_fetchall drv cur (env w) = (Ret rs, d) ->
     _query_results drv self w =
       (Ret {| row_count := n; row := None; rows := Some (map dict rs) |},
        World d (trace w ++ [EvFetchall cur]) (objects w)) /\
     (forall i : nat, map dict rs !! i = dict <$> rs !! i) /\
     (Z.of_nat (length rs) = n -> Z.of_nat (length (map dict rs)) = n)) /\
  (n = 0 ->
     _query_results drv self w =
       (Ret {| row_count := 0; row := None; rows := None |}, w)) /\
  (n = 1 -> forall e d,
     cursor_fetchone drv cur (env w) = (Raise e, d) ->
     is_psycopg2 psycopg2.ProgrammingError e = true ->
     _query_results drv self w =
       (Ret {| row_count := 1; row := None; rows := None |},
        World d (trace w ++ [EvFetchone cur]) (objects w))) /\
  (1 < n -> forall e d,
     cursor_fetchall drv cur (env w) = (Raise e, d) ->
     is_psycopg2 psycopg2.ProgrammingError e = true ->
     _query_results drv self w =
       (Ret {| row_count := n; row := None; rows := None |},
        World d (trace w ++ [EvFetchall cur]) (objects w))) /\
  (forall qr w',
     _query_results drv self w = (Ret qr, w') ->
     ~ (is_Some (row qr) /\ is_Some (rows qr))).
Proof.
  intros cur n. subst cur n.
  split; [|split; [|split; [|split; [|split]]]].
  - intros Hn r d Hf.
    unfold _query_results, bind, try_except, rowcount, ret, fetchone; simpl.
    rewrite Hn; simpl. rewrite (run_driver_call _ _ _ _ _ Hf). reflexivity.
  - intros Hn rs d Hf. split; [|split].
    + unfold _query_results, bind, try_except, rowcount, ret, fetchall; simpl.
      replace (_ =? 1) with false by lia.
      replace (_ >? 1) with true by lia.
      rewrite (run_driver_call _ _ _ _ _ Hf). reflexivity.
    + apply list_lookup_fmap.
    + now rewrite length_map.
  - intros Hn.
    unfold _query_results, bind, rowcount, ret; simpl.
    rewrite Hn; simpl. rewrite Hn. reflexivity.
  - intros Hn e d Hf He.
    unfold _query_results, bind, try_except, rowcount, ret, fetchone; simpl.
    rewrite Hn; simpl. rewrite (run_driver_call _ _ _ _ _ Hf), He. reflexivity.
  - intros Hn e d Hf He.
    unfold _query_results, bind, try_except, rowcount, ret, fetchall; simpl.
    replace (_ =? 1) with false by lia.
    replace (_ >? 1) with true by lia.
    rewrite (run_driver_call _ _ _ _ _ Hf), He. reflexivity.
  - intros qr w' Hq [[x Hx] [y Hy]].
    destruct (_query_results_exclusive _ _ _ _ Hq) as [_ [Hr|Hr]]; congruence.
Qed.

(** ** The shared execution path *)

(** The trace only grows while a result is shaped. *)
Lemma _query_results_extends (self : PostgresConnector) (w : world D) :
  exists l : list event,
    trace (snd (_query_results drv self w)) = trace w ++ l.
Proof.
  unfold _query_results, bind, try_except, rowcount, ret, fetchone, fetchall,
    driver_call; simpl.
  destruct (_ =? 1).
  - destruct (cursor_fetchone _ _ _) as [[[r|]|e] d]; simpl;
      try destruct (is_psycopg2 _ _); simpl; eauto.
  - destruct (_ >? 1); [|exists []; now rewrite app_nil_r].
    destruct (cursor_fetchall _ _ _) as [[rs|e] d]; simpl;
      try destruct (is_psycopg2 _ _); simpl; eauto.
Qed.

(** C3.  [execute] and [callproc] run [_query] on the driver method.  When
    the method raises a timeout or driver error, the error callback is
    called with the metric name and the error, and an exception it returns
    is raised; nothing is called after it, the duration callback included.
    When the method returns, the result is shaped; a configured duration
    callback is then called with the metric name and the clock reading
    after shaping minus the reading taken before the method was called, and
    the shaped result is returned. *)
Theorem query_error_and_duration (self : PostgresConnector)
    (method : kwargs -> M unit) (metric_name : string) (kw : kwargs)
    (w : world D) :
  let kw' := timeout_defaulted self kw in
  let start_time := monotonic drv (env w) in
  (forall sql parameters timeout,
     execute drv self sql parameters metric_name timeout =
     _query drv self (cursor_execute_method drv (cursor self)) metric_name
       {| kw_operation := sql; kw_parameters := parameters;
          kw_timeout := timeout |}) /\
  (forall name parameters timeout,
     callproc drv self name parameters metric_name timeout =
     _query drv self (cursor_callproc_method drv (cursor self)) metric_name
       {| kw_operation := name; kw_parameters := parameters;
          kw_timeout := timeout |}) /\
  (forall err w1 e h,
     method kw' w = (Raise err, w1) ->
     timeout_or_driver_error err = true ->
     _on_error self metric_name err (objects w1) = (Ret (Some e), h) ->
     _query drv self method metric_name kw w =
       (Raise e, World (env w1) (trace w1 ++ [EvOnError metric_name err]) h)) /\
  (forall w1 qr w2,
     method kw' w = (Ret tt, w1) ->
     _query_results drv self w1 = (Ret qr, w2) ->
     let elapsed := monotonic drv (env w2) - start_time in
     (forall on_duration h,
        _on_duration self = Some on_duration ->
        on_duration metric_name elapsed (objects w2) = (Ret tt, h) ->
        _query drv self method metric_name kw w =
          (Ret (Some qr),
           World (env w2) (trace w2 ++ [EvOnDuration metric_name elapsed]) h)) /\
     (_on_duration self = None ->
        _query drv self method metric_name kw w = (Ret (Some qr), w2))).
Proof.
  intros kw' start_time. split; [reflexivity|]. split; [reflexivity|].
  split.
  - intros err w1 e h Hm Herr Hcb.
    unfold _query, bind, try_except_else, time_monotonic, call_on_error.
    fold kw'. rewrite Hm, Herr, Hcb. reflexivity.
  - intros w1 qr w2 Hm Hq elapsed. split.
    + intros on_duration h Hd Hcb.
      unfold _query, bind, try_except_else, time_monotonic, call_on_duration.
      fold kw'. rewrite Hm, Hq, Hd. fold start_time. fold elapsed.
      rewrite Hcb. reflexivity.
    + intros Hd.
      unfold _query, bind, try_except_else, time_monotonic.
      fold kw'. rewrite Hm, Hq, Hd. reflexivity.
Qed.

(** C9.  When the driver method of [execute] or [callproc] raises a timeout
    or driver error and the error callback returns [None], the call returns
    [None]: after the callback nothing is fetched and nothing else is
    called. *)
Theorem swallowed_error_returns_None (self : PostgresConnector)
    (target : string) (parameters : QueryParameters) (metric_name : string)
    (timeout : Timeout) (w : world D) (err : exn) (d : D) (h : heap) :
  let cur := cursor self in
  let t := Some (default (_timeout self) timeout) in
  timeout_or_driver_error err = true ->
  _on_error self metric_name err (objects w) = (Ret None, h) ->
  (cursor_execute drv cur target parameters t (env w) = (Raise err, d) ->
   execute drv self target parameters metric_name timeout w =
     (Ret None,
      World d (trace w ++ [EvExecute cur target parameters t;
                           EvOnError metric_name err]) h)) /\
  (cursor_callproc drv cur target parameters t (env w) = (Raise err, d) ->
   callproc drv self target parameters metric_name timeout w =
     (Ret None,
      World d (trace w ++ [EvCallproc cur target parameters t;
                           EvOnError metric_name err]) h)).
Proof.
  intros cur t Herr Hcb. subst cur t.
  split; intros Hdrv;
    unfold execute, callproc, _query, bind, try_except_else, time_monotonic,
      call_on_error, cursor_execute_method, cursor_callproc_method,
      driver_call, timeout_defaulted;
    destruct timeout as [t|]; simpl in *;
    rewrite Hdrv, Herr; simpl; rewrite Hcb, <- app_assoc; reflexivity.
Qed.

(** ** Timeouts *)


(** ** Timeouts *)

(** The first call [_query] makes is the driver method, on the keyword
    arguments with the timeout filled in. *)
Lemma _query_first_call (self : PostgresConnector)
    (method_event : kwargs -> event) (f : kwargs -> D -> outcome unit * D)
    (metric_name : string) (kw : kwargs) (w : world D) :
  exists rest : list event,
    trace (snd (_query drv self
                  (fun k => driver_call (method_event k) (f k))
                  metric_name kw w)) =
    trace w ++ method_event (timeout_defaulted self kw) :: rest.
Proof.
  unfold _query, bind, try_except_else, time_monotonic.
  set (kw' := timeout_defaulted self kw).
  unfold driver_call at 1.
  destruct (f kw' (env w)) as [[[]|e] d].
  - set (w1 := World d _ _).
    destruct (_query_results_extends self w1) as [l Hl].
    destruct (_query_results drv self w1) as [[qr|e] w2]; simpl in Hl.
    + destruct (_on_duration self) as [cb|]; simpl.
      * unfold call_on_duration.
        destruct (cb _ _ _) as [[[]|e] h]; simpl; rewrite Hl; subst w1;
          simpl; rewrite <- !app_assoc; simpl; eauto.
      * rewrite Hl. subst w1. simpl. rewrite <- app_assoc. simpl. eauto.
    + simpl. rewrite Hl. subst w1. simpl. rewrite <- app_assoc. simpl. eauto.
  - destruct (timeout_or_driver_error e); simpl; [|eauto].
    unfold call_on_error; simpl.
    destruct (_on_error self _ _ _) as [[[x|]|x] h]; simpl;
      rewrite <- app_assoc; simpl; eauto.
Qed.

(** The same for [execute] and [callproc]: the timeout handed to the
    driver is the argument of the call, or the default of the connector. *)
Lemma execute_first_call (self : PostgresConnector) (sql : string)
    (parameters : QueryParameters) (metric_name : string) (timeout : Timeout)
    (w : world D) :
  exists rest : list event,
    trace (snd (execute drv self sql parameters metric_name timeout w)) =
    trace w ++
    EvExecute (cursor self) sql parameters
      (Some (default (_timeout self) timeout)) :: rest.
Proof.
  destruct (_query_first_call self
              (fun k => EvExecute (cursor self) (kw_operation k)
                          (kw_parameters k) (kw_timeout k))
              (fun k => cursor_execute drv (cursor self) (kw_operation k)
                          (kw_parameters k) (kw_timeout k))
              metric_name
              {| kw_operation := sql; kw_parameters := parameters;
                 kw_timeout := timeout |} w) as [rest Hrest].
  exists rest. unfold execute, cursor_execute_method. rewrite Hrest.
  destruct timeout; reflexivity.
Qed.

Lemma callproc_first_call (self : PostgresConnector) (name : string)
    (parameters : QueryParameters) (metric_name : string) (timeout : Timeout)
    (w : world D) :
  exists rest : list event,
    trace (snd (callproc drv self name parameters metric_name timeout w)) =
    trace w ++
    EvCallproc (cursor self) name parameters
      (Some (default (_timeout self) timeout)) :: rest.
Proof.
  destruct (_query_first_call self
              (fun k => EvCallproc (cursor self) (kw_operation k)
                          (kw_parameters k) (kw_timeout k))
              (fun k => cursor_callproc drv (cursor self) (kw_operation k)
                          (kw_parameters k) (kw_timeout k))
              metric_name
              {| kw_operation := name; kw_parameters := parameters;
                 kw_timeout := timeout |} w) as [rest Hrest].
  exists rest. unfold callproc, cursor_callproc_method. rewrite Hrest.
  destruct timeout; reflexivity.
Qed.

(** C6.  The timeout [execute] and [callproc] hand to the driver is the
    timeout argument of the call when there is one and the default of the
    connector otherwise.  The default of a connector is the timeout it was
    constructed with; constructed without one, and with no
    [POSTGRES_QUERY_TIMEOUT] in the environment, it is 120. *)
Theorem effective_timeout :
  (forall self sql parameters metric_name timeout (w : world D),
     exists rest : list event,
       trace (snd (execute drv self sql parameters metric_name timeout w)) =
       trace w ++
       EvExecute (cursor self) sql parameters
         (Some (default (_timeout self) timeout)) :: rest) /\
  (forall self name parameters metric_name timeout (w : world D),
     exists rest : list event,
       trace (snd (callproc drv self name parameters metric_name timeout w)) =
       trace w ++
       EvCallproc (cursor self) name parameters
         (Some (default (_timeout self) timeout)) :: rest) /\
  (forall cur on_error on_duration t,
     t <> 0 ->
     PostgresConnector__init__ environ int_of_str cur on_error on_duration
       (Some t) =
     Ret {| cursor := cur; _on_error := on_error;
            _on_duration := on_duration; _timeout := t |}) /\
  (environ !! "POSTGRES_QUERY_TIMEOUT"%string = None ->
   forall cur on_error on_duration,
     PostgresConnector__init__ environ int_of_str cur on_error on_duration
       None =
     Ret {| cursor := cur; _on_error := on_error;
            _on_duration := on_duration; _timeout := 120 |}).
Proof.
  repeat split.
  - intros. apply execute_first_call.
  - intros. apply callproc_first_call.
  - intros cur on_error on_duration t Ht.
    unfold PostgresConnector__init__, timeout_truthy.
    destruct (Z.eqb_spec t 0); [contradiction|reflexivity].
  - intros Henv cur on_error on_duration.
    unfold PostgresConnector__init__, environ_query_timeout; simpl.
    rewrite Henv. reflexivity.
Qed.

(** C10, as amended.  A connector constructed with timeout 0 is
    constructed as one without a timeout: 0 is false, so the default is read
    from [POSTGRES_QUERY_TIMEOUT], and is 120 when the environment does not
    have it.  A timeout argument of 0 to [execute] or [callproc] is not
    [None], and goes to the driver as 0 whatever the default of the
    connector is. *)
Theorem zero_timeout :
  (forall cur on_error on_duration,
     PostgresConnector__init__ environ int_of_str cur on_error on_duration
       (Some 0) =
     PostgresConnector__init__ environ int_of_str cur on_error on_duration
       None) /\
  (forall cur on_error on_duration,
     PostgresConnector__init__ environ int_of_str cur on_error on_duration
       (Some 0) =
     match environ !! "POSTGRES_QUERY_TIMEOUT"%string with
     | None => Ret {| cursor := cur; _on_error := on_error;
                      _on_duration := on_duration; _timeout := 120 |}
     | Some s =>
         match int_of_str s with
         | Some t => Ret {| cursor := cur; _on_error := on_error;
                            _on_duration := on_duration; _timeout := t |}
         | None =>
             Raise (ValueError
                      ("invalid literal for int() with base 10: '" +:+ s
                       +:+ "'"))
         end
     end) /\
  (forall self sql parameters metric_name (w : world D),
     exists rest : list event,
       trace (snd (execute drv self sql parameters metric_name (Some 0) w)) =
       trace w ++ EvExecute (cursor self) sql parameters (Some 0) :: rest) /\
  (forall self name parameters metric_name (w : world D),
     exists rest : list event,
       trace (snd (callproc drv self name parameters metric_name (Some 0) w)) =
       trace w ++ EvCallproc (cursor self) name parameters (Some 0) :: rest).
Proof.
  split; [reflexivity|]. split.
  - intros cur on_error on_duration.
    unfold PostgresConnector__init__, environ_query_timeout; simpl.
    destruct (environ !! _) as [s|]; [|reflexivity].
    destruct (int_of_str s); reflexivity.
  - split; intros.
    + apply (execute_first_call self sql parameters metric_name (Some 0)).
    + apply (callproc_first_call self name parameters metric_name (Some 0)).
Qed.

(** ** The default error policy *)

(** C7.  [_on_postgres_error] on a [ConnectionException] gives
    [HTTPError 503], on a timeout [HTTPError 500] "Query Timeout", on a
    [UniqueViolation] [HTTPError 409], on any other [psycopg2.Error]
    [HTTPError 500] "Database Error"; these four are raised by the callback.
    Every other exception is returned as it is. *)
Theorem default_error_policy (self_class metric_name : string) (exc : exn)
    (h : heap) :
  let result := fst (_on_postgres_error self_class metric_name exc h) in
  (is_ConnectionException exc = true ->
   result = Raise (HTTPError 503 "Database Connection Error")) /\
  (is_TimeoutError exc = true ->
   result = Raise (HTTPError 500 "Query Timeout")) /\
  (is_psycopg2 psycopg2.UniqueViolation exc = true ->
   result = Raise (HTTPError 409 "Unique Violation")) /\
  (is_psycopg2 psycopg2.Error exc = true ->
   is_psycopg2 psycopg2.UniqueViolation exc = false ->
   result = Raise (HTTPError 500 "Database Error")) /\
  (is_ConnectionException exc = false ->
   is_TimeoutError exc = false ->
   is_psycopg2 psycopg2.Error exc = false ->
   result = Ret (Some exc)).
Proof.
  intros result. subst result. unfold _on_postgres_error.
  destruct exc as [m|c m|m|s m|m|m|m|m|c m]; simpl;
    repeat split; try discriminate; try reflexivity.
  - intros Hu. now rewrite Hu.
  - intros He Hu. now rewrite Hu, He.
  - intros _ _ He. destruct c; discriminate.
Qed.

(** ** Shutdown *)

(** C8.  Without a pool [_postgres_shutdown] does nothing.  With a pool it
    closes the pool and waits; when the driver's [close] does not raise and
    its [wait_closed] after [close] returns with the pool closed, as for
    [aiopg.Pool], two calls in a row both return and both leave the pool
    closed. *)
Theorem shutdown_idempotent :
  (forall w : world D,
     _postgres_shutdown drv {| _postgres_pool := None |} w = (Ret tt, w)) /\
  (forall p : Pool,
     (forall d, exists d', pool_close drv p d = (Ret tt, d')) ->
     (forall d d',
        pool_close drv p d = (Ret tt, d') ->
        exists d'', pool_wait_closed drv p d' = (Ret tt, d'') /\
                    pool_closed drv p d'' = true) ->
     forall w : world D,
     exists w1 w2,
       _postgres_shutdown drv {| _postgres_pool := Some p |} w = (Ret tt, w1) /\
       pool_closed drv p (env w1) = true /\
       trace w1 = trace w ++ [EvPoolClose p; EvPoolWaitClosed p] /\
       _postgres_shutdown drv {| _postgres_pool := Some p |} w1 = (Ret tt, w2) /\
       pool_closed drv p (env w2) = true).
Proof.
  split; [reflexivity|].
  intros p Hclose Hwait.
  assert (Hrun : forall w : world D, exists w1,
             _postgres_shutdown drv {| _postgres_pool := Some p |} w =
               (Ret tt, w1) /\
             pool_closed drv p (env w1) = true /\
             trace w1 = trace w ++ [EvPoolClose p; EvPoolWaitClosed p]).
  { intros w. destruct (Hclose (env w)) as [d1 H1].
    destruct (Hwait _ _ H1) as [d2 [H2 Hc]].
    eexists. unfold _postgres_shutdown, bind, driver_call; simpl.
    rewrite H1; simpl. rewrite H2; simpl.
    split; [reflexivity|]. split; [exact Hc|].
    now rewrite <- app_assoc. }
  intros w. destruct (Hrun w) as [w1 [E1 [C1 T1]]].
  destruct (Hrun w1) as [w2 [E2 [C2 _]]].
  exists w1, w2. auto.
Qed.

(** ** Transactions *)

(** What a transaction scope does, call by call. *)
Lemma run_transaction {B} (self : PostgresConnector)
    (body : PostgresConnector -> M B) (w : world D) :
  async_with (transaction drv self) body w =
  match driver_call (EvBegin (cursor self)) (tx_begin drv (cursor self)) w with
  | (Raise e, w1) => (Raise e, w1)
  | (Ret _, w1) =>
      match body self w1 with
      | (Ret b, w2) =>
          match driver_call (EvCommit (cursor self))
                  (tx_commit drv (cursor self)) w2 with
          | (Ret _, w3) => (Ret (Some b), w3)
          | (Raise e, w3) => (Raise e, w3)
          end
      | (Raise e, w2) =>
          match driver_call (EvRollback (cursor self))
                  (tx_rollback drv (cursor self)) w2 with
          | (Ret _, w3) => (Raise e, w3)
          | (Raise e', w3) => (Raise e', w3)
          end
      end
  end.
Proof.
  unfold async_with, transaction, async_with_cm, gbind, gcatch, glift, catch,
    bind, ret, yield_, cursor_begin; simpl.
  destruct (driver_call _ _ w) as [[[]|e] w1]; simpl; [|reflexivity].
  destruct (body self w1) as [[b|e] w2]; simpl.
  - unfold agen_exit, bind, ret, raise, graise, gret; simpl.
    destruct (driver_call _ _ w2) as [[[]|e] w3]; reflexivity.
  - unfold agen_exit, bind, ret, raise, graise, gret; simpl.
    destruct (driver_call _ _ w2) as [[[]|e'] w3]; reflexivity.
Qed.

(** A connector that was constructed has the cursor and the callbacks it
    was given. *)
Lemma PostgresConnector__init__inv (cur : Cursor) (on_error : on_error_callback)
    (on_duration : option on_duration_callback) (timeout : Timeout)
    (c : PostgresConnector) :
  PostgresConnector__init__ environ int_of_str cur on_error on_duration
    timeout = Ret c ->
  exists t, c = {| cursor := cur; _on_error := on_error;
                   _on_duration := on_duration; _timeout := t |}.
Proof.
  unfold PostgresConnector__init__.
  destruct (if timeout_truthy timeout then _ else _) as [t|e];
    [|discriminate].
  intros [= <-]. now exists t.
Qed.

(** C2.  [transaction] issues [BEGIN] and then runs the body with the
    connector it was called on.  When the body raises, [ROLLBACK] is
    issued and the exception is raised out of the scope; when the body
    ends normally, [COMMIT] is issued.  So a statement in the scope whose
    timeout or driver error the error callback turns into an exception is
    followed by [ROLLBACK].  [postgres_transaction] does the same on a
    connector it acquires, and closes the cursor and gives the connection
    back after [COMMIT] or [ROLLBACK]. *)
Theorem transaction_scope :
  (forall {B} (self : PostgresConnector) (body : PostgresConnector -> M B)
          (w : world D) (d1 : D),
     let cur := cursor self in
     let w1 := World d1 (trace w ++ [EvBegin cur]) (objects w) in
     tx_begin drv cur (env w) = (Ret tt, d1) ->
     (forall e w2 d3,
        body self w1 = (Raise e, w2) ->
        tx_rollback drv cur (env w2) = (Ret tt, d3) ->
        async_with (transaction drv self) body w =
          (Raise e, World d3 (trace w2 ++ [EvRollback cur]) (objects w2))) /\
     (forall b w2 d3,
        body self w1 = (Ret b, w2) ->
        tx_commit drv cur (env w2) = (Ret tt, d3) ->
        async_with (transaction drv self) body w =
          (Ret (Some b), World d3 (trace w2 ++ [EvCommit cur]) (objects w2)))) /\
  (forall (self : PostgresConnector) sql parameters metric_name timeout
          (w : world D) d1 d2 d3 err e h,
     let cur := cursor self in
     let t := Some (default (_timeout self) timeout) in
     tx_begin drv cur (env w) = (Ret tt, d1) ->
     cursor_execute drv cur sql parameters t d1 = (Raise err, d2) ->
     timeout_or_driver_error err = true ->
     _on_error self metric_name err (objects w) = (Ret (Some e), h) ->
     tx_rollback drv cur d2 = (Ret tt, d3) ->
     async_with (transaction drv self)
       (fun c => execute drv c sql parameters metric_name timeout) w =
       (Raise e,
        World d3 (trace w ++ [EvBegin cur; EvExecute cur sql parameters t;
                              EvOnError metric_name err; EvRollback cur]) h)) /\
  (forall {B} (handler : RequestHandlerMixin) (timeout : Timeout)
          (body : PostgresConnector -> M B) (w : world D) p conn cur c
          d1 d2 d3,
     let scope := postgres_transaction drv environ int_of_str handler
                    timeout in
     let w3 := World d3 (trace w ++ [EvAcquire p; EvCursor conn timeout;
                                     EvBegin cur]) (objects w) in
     _postgres_pool (application handler) = Some p ->
     pool_acquire drv p (env w) = (Ret conn, d1) ->
     conn_cursor drv conn timeout d1 = (Ret cur, d2) ->
     PostgresConnector__init__ environ int_of_str cur
       (on_postgres_error handler) (Some (on_postgres_timing handler))
       timeout = Ret c ->
     tx_begin drv cur d2 = (Ret tt, d3) ->
     (forall b w4 d5 d6 d7,
        body c w3 = (Ret b, w4) ->
        tx_commit drv cur (env w4) = (Ret tt, d5) ->
        cursor_close drv cur d5 = (Ret tt, d6) ->
        pool_release drv p conn d6 = (Ret tt, d7) ->
        async_with scope body w =
          (Ret (Some b),
           World d7 (trace w4 ++ [EvCommit cur; EvCursorClose cur;
                                  EvRelease p conn]) (objects w4))) /\
     (forall e w4 d5 d6 d7,
        body c w3 = (Raise e, w4) ->
        tx_rollback drv cur (env w4) = (Ret tt, d5) ->
        cursor_close drv cur d5 = (Ret tt, d6) ->
        pool_release drv p conn d6 = (Ret tt, d7) ->
        exists e' reported h,
          async_with scope body w =
            (Raise e',
             World d7 (trace w4 ++ [EvRollback cur; EvCursorClose cur;
                                    EvRelease p conn] ++ reported) h) /\
          (timeout_or_driver_error e = false ->
           e' = e /\ reported = [] /\ h = objects w4))).
Proof.
  split; [|split].
  - intros B self body w d1 cur w1 Hbegin. subst cur w1.
    split.
    + intros e w2 d3 Hbody Hrb. rewrite run_transaction.
      rewrite (run_driver_call _ _ _ _ _ Hbegin), Hbody.
      now rewrite (run_driver_call _ _ _ _ _ Hrb).
    + intros b w2 d3 Hbody Hc. rewrite run_transaction.
      rewrite (run_driver_call _ _ _ _ _ Hbegin), Hbody.
      now rewrite (run_driver_call _ _ _ _ _ Hc).
  - intros self sql parameters metric_name timeout w d1 d2 d3 err e h cur t
      Hbegin Hexe Herr Hcb Hrb. subst cur t.
    rewrite run_transaction.
    rewrite (run_driver_call _ _ _ _ _ Hbegin).
    unfold execute, _query, cursor_execute_method, timeout_defaulted,
      driver_call; unfold_coro.
    destruct timeout as [t|]; simpl in *;
      rewrite Hexe; simpl; rewrite Herr; simpl; rewrite Hcb; simpl;
      rewrite Hrb; simpl; rewrite <- !app_assoc; reflexivity.
  - intros B handler timeout body w p conn cur c d1 d2 d3 scope w3
      Hp Hacq Hcur Hinit Hbegin. subst scope w3.
    destruct (PostgresConnector__init__inv _ _ _ _ _ Hinit) as [t0 Hc].
    split.
    + intros b w4 d5 d6 d7 Hbody Hcommit Hclose Hrel.
      unfold postgres_transaction, postgres_connector, transaction,
        cursor_begin, pool_acquire_cm, conn_cursor_cm; unfold_coro.
      rewrite Hp; simpl. unfold driver_call; simpl. rewrite Hacq; simpl.
      rewrite Hcur; simpl. rewrite Hinit; simpl.
      rewrite Hc in *; simpl. rewrite Hbegin; simpl.
      rewrite <- !app_assoc; simpl. rewrite Hbody; simpl.
      rewrite Hcommit; simpl. rewrite Hclose; simpl. rewrite Hrel; simpl.
      rewrite <- !app_assoc. reflexivity.
    + intros e w4 d5 d6 d7 Hbody Hrb Hclose Hrel.
      unfold postgres_transaction, postgres_connector, transaction,
        cursor_begin, pool_acquire_cm, conn_cursor_cm; unfold_coro.
      rewrite Hp; simpl. unfold driver_call; simpl. rewrite Hacq; simpl.
      rewrite Hcur; simpl. rewrite Hinit; simpl.
      rewrite Hc in *; simpl. rewrite Hbegin; simpl.
      rewrite <- !app_assoc; simpl. rewrite Hbody; simpl.
      rewrite Hrb; simpl. rewrite Hclose; simpl. rewrite Hrel; simpl.
      destruct (timeout_or_driver_error e); simpl.
      * destruct (on_postgres_error handler _ _ _) as [[[x|]|x] h]; simpl;
          eexists _, [_], _; (split; [|discriminate]);
          rewrite <- !app_assoc; reflexivity.
      * exists e, [], (objects w4). split; [|auto].
        rewrite <- !app_assoc. reflexivity.
Qed.

(** ** Scoped acquisition *)

(** C4.  When taking the connection from the pool raises a timeout or
    driver error, or opening the cursor does (the connection is then given
    back first), the error callback is called with the metric name
    "postgres_connector" and a [ConnectionException] made from the text of
    the error.  An exception the callback returns is raised out of the
    [async with] and the body does not run; when the callback returns
    [None], the body runs with [None] for the connector. *)
Theorem acquisition_failure {B} (self : ApplicationMixin)
    (on_error : on_error_callback)
    (on_duration : option on_duration_callback) (timeout : Timeout)
    (body : option PostgresConnector -> M B) (w : world D)
    (p : Pool) (err : exn) (d : D) (calls : list event) (h : heap) :
  let scope := postgres_connector drv environ int_of_str self on_error
                 on_duration timeout in
  let reported := ConnectionException (str err) in
  let w' := World d
              (trace w ++ calls ++ [EvOnError "postgres_connector" reported])
              h in
  _postgres_pool self = Some p ->
  timeout_or_driver_error err = true ->
  (pool_acquire drv p (env w) = (Raise err, d) /\ calls = [EvAcquire p]) \/
  (exists conn d1 d2,
     pool_acquire drv p (env w) = (Ret conn, d1) /\
     conn_cursor drv conn timeout d1 = (Raise err, d2) /\
     pool_release drv p conn d2 = (Ret tt, d) /\
     calls = [EvAcquire p; EvCursor conn timeout; EvRelease p conn]) ->
  (forall e,
     on_error "postgres_connector"%string reported (objects w) =
       (Ret (Some e), h) ->
     async_with scope body w = (Raise e, w')) /\
  (on_error "postgres_connector"%string reported (objects w) = (Ret None, h) ->
   async_with scope body w = bind (body None) (fun b => ret (Some b)) w').
Proof.
  intros scope reported w' Hp Herr Hfail. subst scope reported w'.
  destruct Hfail as [[Hacq ->]|(conn & d1 & d2 & Hacq & Hcur & Hrel & ->)].
  - split; [intros e Hcb|intros Hcb];
      unfold postgres_connector, pool_acquire_cm, conn_cursor_cm; unfold_coro;
      rewrite Hp; simpl; unfold driver_call at 1; rewrite Hacq; simpl;
      rewrite Herr; simpl; rewrite Hcb; simpl;
      rewrite <- !app_assoc; reflexivity.
  - split; [intros e Hcb|intros Hcb];
      unfold postgres_connector, pool_acquire_cm, conn_cursor_cm; unfold_coro;
      rewrite Hp; simpl; unfold driver_call; simpl; rewrite Hacq; simpl;
      rewrite Hcur; simpl; rewrite Hrel; simpl;
      rewrite Herr; simpl; rewrite Hcb; simpl;
      rewrite <- !app_assoc; reflexivity.
Qed.

(** ** The status operation *)

(** C5, as amended.  With a pool, [postgres_status] acquires a connector
    with timeout 3 and executes [SELECT 1].  When acquiring the connection,
    opening the cursor or the driver's [execute] raises a timeout or driver
    error, it does not raise: it returns [available = False] with the size
    and free count the pool has at the end.  When all three succeed and
    the result is shaped, it returns [available = True] with the two
    counts. *)
Theorem status_reports_driver_errors (self : ApplicationMixin) (w : world D)
    (p : Pool) (d : D) (calls : list event) (ok : bool) :
  let t := Some POSTGRES_STATUS_TIMEOUT in
  _postgres_pool self = Some p ->
  (exists err,
     timeout_or_driver_error err = true /\
     pool_acquire drv p (env w) = (Raise err, d) /\
     calls = [EvAcquire p;
              EvOnError "postgres_connector" (ConnectionException (str err))] /\
     ok = false) \/
  (exists err conn d1 d2,
     timeout_or_driver_error err = true /\
     pool_acquire drv p (env w) = (Ret conn, d1) /\
     conn_cursor drv conn t d1 = (Raise err, d2) /\
     pool_release drv p conn d2 = (Ret tt, d) /\
     calls = [EvAcquire p; EvCursor conn t; EvRelease p conn;
              EvOnError "postgres_connector" (ConnectionException (str err))] /\
     ok = false) \/
  (exists err conn cur d1 d2 d3 d4,
     timeout_or_driver_error err = true /\
     pool_acquire drv p (env w) = (Ret conn, d1) /\
     conn_cursor drv conn t d1 = (Ret cur, d2) /\
     cursor_execute drv cur "SELECT 1" ParametersNone t d2 = (Raise err, d3) /\
     cursor_close drv cur d3 = (Ret tt, d4) /\
     pool_release drv p conn d4 = (Ret tt, d) /\
     calls = [EvAcquire p; EvCursor conn t;
              EvExecute cur "SELECT 1" ParametersNone t; EvOnError "" err;
              EvCursorClose cur; EvRelease p conn] /\
     ok = false) \/
  (exists conn cur d1 d2 d3 d4 d5 fetches,
     pool_acquire drv p (env w) = (Ret conn, d1) /\
     conn_cursor drv conn t d1 = (Ret cur, d2) /\
     cursor_execute drv cur "SELECT 1" ParametersNone t d2 = (Ret tt, d3) /\
     (forall c (w' : world D),
        cursor c = cur -> env w' = d3 ->
        exists qr,
          _query_results drv c w' =
            (Ret qr, World d4 (trace w' ++ fetches) (objects w'))) /\
     cursor_close drv cur d4 = (Ret tt, d5) /\
     pool_release drv p conn d5 = (Ret tt, d) /\
     calls = [EvAcquire p; EvCursor conn t;
              EvExecute cur "SELECT 1" ParametersNone t] ++ fetches ++
             [EvCursorClose cur; EvRelease p conn] /\
     ok = true) ->
  exists h,
    postgres_status drv environ int_of_str self w =
      (Ret {| available := ok;
              status_pool_size := pool_size drv p d;
              status_pool_free := pool_freesize drv p d |},
       World d (trace w ++ calls) h).
Proof.
  intros t Hp Hcases. subst t.
  destruct Hcases as
    [(err & Herr & Hacq & -> & ->)
    |[(err & conn & d1 & d2 & Herr & Hacq & Hcur & Hrel & -> & ->)
    |[(err & conn & cur & d1 & d2 & d3 & d4 & Herr & Hacq & Hcur & Hexe
       & Hclose & Hrel & -> & ->)
    |(conn & cur & d1 & d2 & d3 & d4 & d5 & fetches & Hacq & Hcur & Hexe
      & Hshape & Hclose & Hrel & -> & ->)]]].
  - eexists.
    unfold postgres_status, postgres_connector, pool_acquire_cm,
      conn_cursor_cm, asyncio_Event, Event_is_set; unfold_coro.
    rewrite Hp; simpl. unfold driver_call; simpl. rewrite Hacq; simpl.
    rewrite Herr; simpl.
    rewrite list_lookup_insert_eq by (rewrite length_app; simpl; lia).
    simpl. rewrite <- !app_assoc. reflexivity.
  - eexists.
    unfold postgres_status, postgres_connector, pool_acquire_cm,
      conn_cursor_cm, asyncio_Event, Event_is_set; unfold_coro.
    rewrite Hp; simpl. unfold driver_call; simpl. rewrite Hacq; simpl.
    rewrite Hcur; simpl. rewrite Hrel; simpl.
    rewrite Herr; simpl.
    rewrite list_lookup_insert_eq by (rewrite length_app; simpl; lia).
    simpl. rewrite <- !app_assoc. reflexivity.
  - eexists.
    unfold postgres_status, postgres_connector, pool_acquire_cm,
      conn_cursor_cm, asyncio_Event, Event_is_set, execute, _query,
      cursor_execute_method, timeout_defaulted; unfold_coro.
    rewrite Hp; simpl. unfold driver_call; simpl. rewrite Hacq; simpl.
    rewrite Hcur; simpl. rewrite Hexe; simpl. rewrite Herr; simpl.
    rewrite Hclose; simpl. rewrite Hrel; simpl.
    rewrite list_lookup_insert_eq by (rewrite length_app; simpl; lia).
    simpl. rewrite <- !app_assoc. reflexivity.
  - eexists.
    unfold postgres_status, postgres_connector, pool_acquire_cm,
      conn_cursor_cm, asyncio_Event, Event_is_set, execute, _query,
      cursor_execute_method, timeout_defaulted; unfold_coro.
    rewrite Hp; simpl. unfold driver_call; simpl. rewrite Hacq; simpl.
    rewrite Hcur; simpl. rewrite Hexe; simpl.
    match goal with
    | |- context [_query_results drv ?c ?w'] =>
        destruct (Hshape c w' eq_refl eq_refl) as [qr Hq]; rewrite Hq
    end; simpl.
    rewrite Hclose; simpl. rewrite Hrel; simpl.
    rewrite lookup_app_r by lia. rewrite Nat.sub_diag. simpl.
    rewrite <- !app_assoc. reflexivity.
Qed.

End properties.

(** * The properties on the scripted driver *)

(** C1 on cursors that report one row, two rows, no row, and one affected
    row without a result set. *)
Lemma query_results_shape_witness :
  fst (_query_results Mock.driver (Mock.connector Mock.swallow)
         (Mock.world0 Mock.healthy)) =
    Ret {| row_count := 1; row := Some (dict Mock.one); rows := None |} /\
  fst (_query_results Mock.driver (Mock.connector Mock.swallow)
         (Mock.world0 (Mock.returning 2 (Ret [Mock.one; Mock.two])))) =
    Ret {| row_count := 2; row := None;
           rows := Some [dict Mock.one; dict Mock.two] |} /\
  fst (_query_results Mock.driver (Mock.connector Mock.swallow)
         (Mock.world0 (Mock.returning 0 (Ret [])))) =
    Ret {| row_count := 0; row := None; rows := None |} /\
  fst (_query_results Mock.driver (Mock.connector Mock.swallow)
         (Mock.world0 (Mock.returning 1 (Raise Mock.no_results)))) =
    Ret {| row_count := 1; row := None; rows := None |} /\
  fst (_query_results Mock.driver (Mock.connector Mock.swallow)
         (Mock.world0 (Mock.returning 2 (Raise Mock.no_results)))) =
    Ret {| row_count := 2; row := None; rows := None |}.
Proof.
  split; [|split; [|split; [|split]]].
  - destruct (query_results_shape Mock.driver (Mock.connector Mock.swallow)
                (Mock.world0 Mock.healthy)) as (H & _).
    erewrite H; reflexivity.
  - destruct (query_results_shape Mock.driver (Mock.connector Mock.swallow)
                (Mock.world0 (Mock.returning 2 (Ret [Mock.one; Mock.two]))))
      as (_ & H & _).
    destruct (H ltac:(reflexivity) _ _ eq_refl) as (E & _). rewrite E.
    reflexivity.
  - destruct (query_results_shape Mock.driver (Mock.connector Mock.swallow)
                (Mock.world0 (Mock.returning 0 (Ret [])))) as (_ & _ & H & _).
    rewrite H; reflexivity.
  - destruct (query_results_shape Mock.driver (Mock.connector Mock.swallow)
                (Mock.world0 (Mock.returning 1 (Raise Mock.no_results))))
      as (_ & _ & _ & H & _).
    erewrite H; reflexivity.
  - destruct (query_results_shape Mock.driver (Mock.connector Mock.swallow)
                (Mock.world0 (Mock.returning 2 (Raise Mock.no_results))))
      as (_ & _ & _ & _ & H & _).
    erewrite H; reflexivity.
Defined.

(** C3 on a statement that violates a unique constraint and on one that
    returns a row, with and without a duration callback. *)
Lemma query_error_and_duration_witness :
  (let run := _query Mock.driver (Mock.connector Mock.hand_back)
                (cursor_execute_method Mock.driver 11%nat) "insert"
                Mock.insert (Mock.world0 Mock.duplicate_key) in
   fst run = Raise (Psycopg2Error psycopg2.UniqueViolation
                      "duplicate key value violates unique constraint") /\
   trace (snd run) =
     [EvExecute 11%nat "INSERT INTO t(id) VALUES (%s)"
        (ParametersSeq [VInt 1]) (Some 120);
      EvOnError "insert"
        (Psycopg2Error psycopg2.UniqueViolation
           "duplicate key value violates unique constraint")]) /\
  (let run := _query Mock.driver (Mock.connector Mock.hand_back)
                (cursor_execute_method Mock.driver 11%nat) "select"
                Mock.insert (Mock.world0 Mock.healthy) in
   fst run = Ret (Some {| row_count := 1; row := Some (dict Mock.one);
                          rows := None |}) /\
   trace (snd run) =
     [EvExecute 11%nat "INSERT INTO t(id) VALUES (%s)"
        (ParametersSeq [VInt 1]) (Some 120);
      EvFetchone 11%nat; EvOnDuration "select" 2] /\
   recorded_timings (objects (snd run)) = [("select"%string, 2)]) /\
  (let run := _query Mock.driver (Mock.untimed Mock.hand_back)
                (cursor_execute_method Mock.driver 11%nat) "select"
                Mock.insert (Mock.world0 Mock.healthy) in
   fst run = Ret (Some {| row_count := 1; row := Some (dict Mock.one);
                          rows := None |}) /\
   trace (snd run) =
     [EvExecute 11%nat "INSERT INTO t(id) VALUES (%s)"
        (ParametersSeq [VInt 1]) (Some 120);
      EvFetchone 11%nat]).
Proof.
  split; [|split].
  - destruct (query_error_and_duration Mock.driver
                (Mock.connector Mock.hand_back)
                (cursor_execute_method Mock.driver 11%nat) "insert"
                Mock.insert (Mock.world0 Mock.duplicate_key))
      as (_ & _ & H & _).
    cbv zeta. erewrite H; [|reflexivity..]. split; reflexivity.
  - destruct (query_error_and_duration Mock.driver
                (Mock.connector Mock.hand_back)
                (cursor_execute_method Mock.driver 11%nat) "select"
                Mock.insert (Mock.world0 Mock.healthy))
      as (_ & _ & _ & H).
    destruct (H _ _ _ eq_refl eq_refl) as (Hd & _).
    cbv zeta. erewrite Hd; [|reflexivity..].
    split; [|split]; reflexivity.
  - destruct (query_error_and_duration Mock.driver
                (Mock.untimed Mock.hand_back)
                (cursor_execute_method Mock.driver 11%nat) "select"
                Mock.insert (Mock.world0 Mock.healthy))
      as (_ & _ & _ & H).
    destruct (H _ _ _ eq_refl eq_refl) as (_ & Hn).
    cbv zeta. rewrite Hn; [split; reflexivity|reflexivity].
Defined.

(** C9 on a statement that violates a unique constraint, with an error
    callback that returns [None]. *)
Lemma swallowed_error_returns_None_witness :
  (let run := execute Mock.driver (Mock.connector Mock.swallow)
                "INSERT INTO t(id) VALUES (%s)" (ParametersSeq [VInt 1])
                "insert" None (Mock.world0 Mock.duplicate_key) in
   fst run = Ret None /\ length (trace (snd run)) = 2%nat) /\
  (let run := callproc Mock.driver (Mock.connector Mock.swallow)
                "add_row" (ParametersSeq [VInt 1])
                "insert" (Some 5) (Mock.world0 Mock.duplicate_key) in
   fst run = Ret None /\ length (trace (snd run)) = 2%nat).
Proof.
  split.
  - destruct (swallowed_error_returns_None Mock.driver
                (Mock.connector Mock.swallow) "INSERT INTO t(id) VALUES (%s)"
                (ParametersSeq [VInt 1]) "insert" None
                (Mock.world0 Mock.duplicate_key)
                (Psycopg2Error psycopg2.UniqueViolation
                   "duplicate key value violates unique constraint")
                (Mock.tick (Mock.start Mock.duplicate_key 1 1)) empty_heap
                eq_refl eq_refl) as (H & _).
    cbv zeta. rewrite (H eq_refl). split; reflexivity.
  - destruct (swallowed_error_returns_None Mock.driver
                (Mock.connector Mock.swallow) "add_row"
                (ParametersSeq [VInt 1]) "insert" (Some 5)
                (Mock.world0 Mock.duplicate_key)
                (Psycopg2Error psycopg2.UniqueViolation
                   "duplicate key value violates unique constraint")
                (Mock.tick (Mock.start Mock.duplicate_key 1 1)) empty_heap
                eq_refl eq_refl) as (_ & H).
    cbv zeta. rewrite (H eq_refl). split; reflexivity.
Defined.

(** C6 without [POSTGRES_QUERY_TIMEOUT] in the environment. *)
Lemma effective_timeout_witness :
  PostgresConnector__init__ ∅ Mock.int_of_str 11%nat Mock.swallow None
    (Some 30) =
    Ret {| cursor := 11%nat; _on_error := Mock.swallow; _on_duration := None;
           _timeout := 30 |} /\
  PostgresConnector__init__ ∅ Mock.int_of_str 11%nat Mock.swallow None None =
    Ret {| cursor := 11%nat; _on_error := Mock.swallow; _on_duration := None;
           _timeout := 120 |}.
Proof.
  destruct (effective_timeout Mock.driver ∅ Mock.int_of_str)
    as (_ & _ & Hgiven & Hdefault).
  split.
  - apply Hgiven. lia.
  - apply Hdefault. reflexivity.
Defined.

(** C7 on one exception of each kind. *)
Lemma default_error_policy_witness :
  fst (_on_postgres_error "RequestHandler" "insert"
         (ConnectionException "connection refused") empty_heap) =
    Raise (HTTPError 503 "Database Connection Error") /\
  fst (_on_postgres_error "RequestHandler" "insert" (TimeoutError "")
         empty_heap) =
    Raise (HTTPError 500 "Query Timeout") /\
  fst (_on_postgres_error "RequestHandler" "insert"
         (Psycopg2Error psycopg2.UniqueViolation "duplicate key") empty_heap) =
    Raise (HTTPError 409 "Unique Violation") /\
  fst (_on_postgres_error "RequestHandler" "insert"
         (Psycopg2Error psycopg2.UndefinedTable "no such table") empty_heap) =
    Raise (HTTPError 500 "Database Error") /\
  fst (_on_postgres_error "RequestHandler" "insert" (ValueError "bad id")
         empty_heap) =
    Ret (Some (ValueError "bad id")).
Proof.
  split; [|split; [|split; [|split]]].
  - apply (default_error_policy "RequestHandler" "insert"
             (ConnectionException "connection refused") empty_heap).
    reflexivity.
  - apply (default_error_policy "RequestHandler" "insert" (TimeoutError "")
             empty_heap).
    reflexivity.
  - apply (default_error_policy "RequestHandler" "insert"
             (Psycopg2Error psycopg2.UniqueViolation "duplicate key")
             empty_heap).
    reflexivity.
  - apply (default_error_policy "RequestHandler" "insert"
             (Psycopg2Error psycopg2.UndefinedTable "no such table")
             empty_heap); reflexivity.
  - apply (default_error_policy "RequestHandler" "insert"
             (ValueError "bad id") empty_heap); reflexivity.
Defined.

(** C8 on the scripted pool, whose flags follow [aiopg.Pool]. *)
Lemma shutdown_idempotent_witness :
  exists w1 w2,
    _postgres_shutdown Mock.driver Mock.app (Mock.world0 Mock.healthy) =
      (Ret tt, w1) /\
    Mock.closed (env w1) = true /\
    trace w1 = [EvPoolClose 0%nat; EvPoolWaitClosed 0%nat] /\
    _postgres_shutdown Mock.driver Mock.app w1 = (Ret tt, w2) /\
    Mock.closed (env w2) = true.
Proof.
  apply (proj2 (shutdown_idempotent Mock.driver) 0%nat).
  - intros d. simpl. unfold Mock.close.
    destruct (Mock.closed d); eexists; reflexivity.
  - intros d d'. simpl. unfold Mock.close, Mock.wait_closed.
    destruct (Mock.closed d) eqn:Hc; intros [= <-]; simpl.
    + rewrite Hc. eexists; split; [reflexivity|exact Hc].
    + eexists; split; reflexivity.
Defined.

(** C2 on the scripted driver: a scope that ends normally, a scope whose
    body raises, a statement that fails in the scope, and the two ends of a
    scope opened by a request handler. *)
Lemma transaction_scope_witness :
  (let run := async_with (transaction Mock.driver (Mock.connector Mock.swallow))
                (fun c => ret (cursor c)) (Mock.world0 Mock.healthy) in
   fst run = Ret (Some 11%nat) /\
   trace (snd run) = [EvBegin 11%nat; EvCommit 11%nat]) /\
  (let run := async_with (transaction Mock.driver (Mock.connector Mock.swallow))
                (fun _ => raise (A := unit) (ValueError "bad id"))
                (Mock.world0 Mock.healthy) in
   fst run = Raise (ValueError "bad id") /\
   trace (snd run) = [EvBegin 11%nat; EvRollback 11%nat]) /\
  (let run := async_with
                (transaction Mock.driver (Mock.connector Mock.hand_back))
                (fun c => execute Mock.driver c
                            "INSERT INTO t(id) VALUES (%s)"
                            (ParametersSeq [VInt 1]) "insert" None)
                (Mock.world0 Mock.duplicate_key) in
   fst run = Raise (Psycopg2Error psycopg2.UniqueViolation
                      "duplicate key value violates unique constraint") /\
   trace (snd run) =
     [EvBegin 11%nat;
      EvExecute 11%nat "INSERT INTO t(id) VALUES (%s)"
        (ParametersSeq [VInt 1]) (Some 120);
      EvOnError "insert"
        (Psycopg2Error psycopg2.UniqueViolation
           "duplicate key value violates unique constraint");
      EvRollback 11%nat]) /\
  (let run := async_with
                (postgres_transaction Mock.driver ∅ Mock.int_of_str
                   Mock.handler None)
                (fun c => execute Mock.driver c "SELECT 1" ParametersNone
                            "select" None)
                (Mock.world0 Mock.healthy) in
   fst run = Ret (Some (Some {| row_count := 1; row := Some (dict Mock.one);
                                rows := None |})) /\
   trace (snd run) =
     [EvAcquire 0%nat; EvCursor 7%nat None; EvBegin 11%nat;
      EvExecute 11%nat "SELECT 1" ParametersNone (Some 120);
      EvFetchone 11%nat; EvOnDuration "select" 2;
      EvCommit 11%nat; EvCursorClose 11%nat; EvRelease 0%nat 7%nat]) /\
  (let run := async_with
                (postgres_transaction Mock.driver ∅ Mock.int_of_str
                   Mock.handler None)
                (fun c => execute Mock.driver c
                            "INSERT INTO t(id) VALUES (%s)"
                            (ParametersSeq [VInt 1]) "insert" None)
                (Mock.world0 Mock.duplicate_key) in
   fst run = Raise (HTTPError 409 "Unique Violation") /\
   trace (snd run) =
     [EvAcquire 0%nat; EvCursor 7%nat None; EvBegin 11%nat;
      EvExecute 11%nat "INSERT INTO t(id) VALUES (%s)"
        (ParametersSeq [VInt 1]) (Some 120);
      EvOnError "insert"
        (Psycopg2Error psycopg2.UniqueViolation
           "duplicate key value violates unique constraint");
      EvRollback 11%nat; EvCursorClose 11%nat; EvRelease 0%nat 7%nat]).
Proof.
  destruct (transaction_scope Mock.driver ∅ Mock.int_of_str)
    as (Hscope & Hstatement & Hhandler).
  split; [|split; [|split; [|split]]]; cbv zeta.
  - destruct (Hscope Cursor (Mock.connector Mock.swallow)
                (fun c => ret (cursor c)) (Mock.world0 Mock.healthy)
                _ eq_refl) as (_ & H).
    erewrite H; [|reflexivity..]. split; reflexivity.
  - destruct (Hscope unit (Mock.connector Mock.swallow)
                (fun _ => raise (ValueError "bad id"))
                (Mock.world0 Mock.healthy) _ eq_refl) as (H & _).
    erewrite H; [|reflexivity..]. split; reflexivity.
  - erewrite Hstatement; [|reflexivity..]. split; reflexivity.
  - destruct (Hhandler (option QueryResult) Mock.handler None
                (fun c => execute Mock.driver c "SELECT 1" ParametersNone
                            "select" None)
                (Mock.world0 Mock.healthy) 0%nat 7%nat 11%nat
                {| cursor := 11%nat;
                   _on_error := _on_postgres_error "RequestHandler";
                   _on_duration := Some (_on_postgres_timing NoMetrics);
                   _timeout := 120 |}
                _ _ _ eq_refl eq_refl eq_refl eq_refl eq_refl) as (H & _).
    erewrite H; [|reflexivity..]. split; reflexivity.
  - destruct (Hhandler (option QueryResult) Mock.handler None
                (fun c => execute Mock.driver c
                            "INSERT INTO t(id) VALUES (%s)"
                            (ParametersSeq [VInt 1]) "insert" None)
                (Mock.world0 Mock.duplicate_key) 0%nat 7%nat 11%nat
                {| cursor := 11%nat;
                   _on_error := _on_postgres_error "RequestHandler";
                   _on_duration := Some (_on_postgres_timing NoMetrics);
                   _timeout := 120 |}
                _ _ _ eq_refl eq_refl eq_refl eq_refl eq_refl) as (_ & H).
    destruct (H _ _ _ _ _ eq_refl eq_refl eq_refl eq_refl)
      as (e' & reported & h & Hrun & Hsame).
    destruct (Hsame eq_refl) as (-> & -> & ->).
    rewrite Hrun. split; reflexivity.
Defined.

(** A statement whose error the callback swallows raises nothing in the
    scope: [execute] returns [None] and the scope ends with [COMMIT]. *)
Example swallowed_error_commits :
  let run := async_with (transaction Mock.driver (Mock.connector Mock.swallow))
               (fun c => execute Mock.driver c
                           "INSERT INTO t(id) VALUES (%s)"
                           (ParametersSeq [VInt 1]) "insert" None)
               (Mock.world0 Mock.duplicate_key) in
  fst run = Ret (Some None) /\
  trace (snd run) =
    [EvBegin 11%nat;
     EvExecute 11%nat "INSERT INTO t(id) VALUES (%s)"
       (ParametersSeq [VInt 1]) (Some 120);
     EvOnError "insert"
       (Psycopg2Error psycopg2.UniqueViolation
          "duplicate key value violates unique constraint");
     EvCommit 11%nat].
Proof. split; reflexivity. Qed.

(** C4 on a database that cannot be reached and on one whose cursor times
    out, with a callback that returns the exception and one that returns
    [None]. *)
Lemma acquisition_failure_witness :
  (let run := async_with
                (postgres_connector Mock.driver ∅ Mock.int_of_str Mock.app
                   Mock.hand_back None None)
                (fun connector => ret (bool_decide (is_Some connector)))
                (Mock.world0 Mock.unreachable) in
   fst run = Raise (ConnectionException "connection refused") /\
   trace (snd run) =
     [EvAcquire 0%nat;
      EvOnError "postgres_connector"
        (ConnectionException "connection refused")]) /\
  (let run := async_with
                (postgres_connector Mock.driver ∅ Mock.int_of_str Mock.app
                   Mock.swallow None (Some 3))
                (fun connector => ret (bool_decide (is_Some connector)))
                (Mock.world0 Mock.no_cursor) in
   fst run = Ret (Some false) /\
   trace (snd run) =
     [EvAcquire 0%nat; EvCursor 7%nat (Some 3); EvRelease 0%nat 7%nat;
      EvOnError "postgres_connector" (ConnectionException "")]).
Proof.
  split; cbv zeta.
  - destruct (acquisition_failure Mock.driver ∅ Mock.int_of_str Mock.app
                Mock.hand_back None None
                (fun connector => ret (bool_decide (is_Some connector)))
                (Mock.world0 Mock.unreachable) 0%nat
                (Psycopg2Error psycopg2.OperationalError "connection refused")
                (Mock.tick (Mock.start Mock.unreachable 1 1))
                [EvAcquire 0%nat] empty_heap eq_refl eq_refl
                (or_introl (conj eq_refl eq_refl))) as (H & _).
    rewrite (H _ eq_refl). split; reflexivity.
  - destruct (acquisition_failure Mock.driver ∅ Mock.int_of_str Mock.app
                Mock.swallow None (Some 3)
                (fun connector => ret (bool_decide (is_Some connector)))
                (Mock.world0 Mock.no_cursor) 0%nat (TimeoutError "")
                (Mock.tick
                   (Mock.set_free 1
                      (Mock.tick
                         (Mock.tick
                            (Mock.set_free 0 (Mock.start Mock.no_cursor 1 1))))))
                [EvAcquire 0%nat; EvCursor 7%nat (Some 3);
                 EvRelease 0%nat 7%nat]
                empty_heap eq_refl eq_refl
                (or_intror
                   (ex_intro _ 7%nat
                      (ex_intro _ _
                         (ex_intro _ _
                            (conj eq_refl
                               (conj eq_refl (conj eq_refl eq_refl))))))))
      as (_ & H).
    rewrite (H eq_refl). split; reflexivity.
Defined.

(** C5 as amended, on a database that cannot be reached, one whose cursor
    times out, one that rejects the statement and one that answers. *)
Lemma status_reports_driver_errors_witness :
  fst (postgres_status Mock.driver ∅ Mock.int_of_str Mock.app
         (Mock.world0 Mock.unreachable)) =
    Ret {| available := false; status_pool_size := 1;
           status_pool_free := 1 |} /\
  fst (postgres_status Mock.driver ∅ Mock.int_of_str Mock.app
         (Mock.world0 Mock.no_cursor)) =
    Ret {| available := false; status_pool_size := 1;
           status_pool_free := 1 |} /\
  fst (postgres_status Mock.driver ∅ Mock.int_of_str Mock.app
         (Mock.world0 Mock.duplicate_key)) =
    Ret {| available := false; status_pool_size := 1;
           status_pool_free := 1 |} /\
  fst (postgres_status Mock.driver ∅ Mock.int_of_str Mock.app
         (Mock.world0 Mock.healthy)) =
    Ret {| available := true; status_pool_size := 1;
           status_pool_free := 1 |}.
Proof.
  split; [|split; [|split]].
  - destruct (status_reports_driver_errors Mock.driver ∅ Mock.int_of_str
                Mock.app (Mock.world0 Mock.unreachable) 0%nat
                (Mock.tick (Mock.start Mock.unreachable 1 1))
                [EvAcquire 0%nat;
                 EvOnError "postgres_connector"
                   (ConnectionException "connection refused")]
                false eq_refl) as [h Hrun].
    + left.
      exists (Psycopg2Error psycopg2.OperationalError "connection refused").
      repeat split.
    + rewrite Hrun. reflexivity.
  - destruct (status_reports_driver_errors Mock.driver ∅ Mock.int_of_str
                Mock.app (Mock.world0 Mock.no_cursor) 0%nat
                (Mock.tick
                   (Mock.set_free 1
                      (Mock.tick
                         (Mock.tick
                            (Mock.set_free 0 (Mock.start Mock.no_cursor 1 1))))))
                [EvAcquire 0%nat; EvCursor 7%nat (Some 3);
                 EvRelease 0%nat 7%nat;
                 EvOnError "postgres_connector" (ConnectionException "")]
                false eq_refl) as [h Hrun].
    + right; left. exists (TimeoutError ""), 7%nat. do 2 eexists.
      repeat split.
    + rewrite Hrun. reflexivity.
  - destruct (status_reports_driver_errors Mock.driver ∅ Mock.int_of_str
                Mock.app (Mock.world0 Mock.duplicate_key) 0%nat
                (Mock.tick
                   (Mock.set_free 1
                      (Mock.tick
                         (Mock.tick
                            (Mock.tick
                               (Mock.tick
                                  (Mock.set_free 0
                                     (Mock.start Mock.duplicate_key 1 1))))))))
                [EvAcquire 0%nat; EvCursor 7%nat (Some 3);
                 EvExecute 11%nat "SELECT 1" ParametersNone (Some 3);
                 EvOnError ""
                   (Psycopg2Error psycopg2.UniqueViolation
                      "duplicate key value violates unique constraint");
                 EvCursorClose 11%nat; EvRelease 0%nat 7%nat]
                false eq_refl) as [h Hrun].
    + right; right; left.
      exists (Psycopg2Error psycopg2.UniqueViolation
                "duplicate key value violates unique constraint"),
        7%nat, 11%nat.
      do 4 eexists. repeat split.
    + rewrite Hrun. reflexivity.
  - destruct (status_reports_driver_errors Mock.driver ∅ Mock.int_of_str
                Mock.app (Mock.world0 Mock.healthy) 0%nat
                (Mock.tick
                   (Mock.set_free 1
                      (Mock.tick
                         (Mock.tick
                            (Mock.set_unfetched (Ret [])
                               (Mock.tick
                                  (Mock.tick
                                     (Mock.tick
                                        (Mock.set_free 0
                                           (Mock.start Mock.healthy 1 1))))))))))
                ([EvAcquire 0%nat; EvCursor 7%nat (Some 3);
                  EvExecute 11%nat "SELECT 1" ParametersNone (Some 3)] ++
                 [EvFetchone 11%nat] ++
                 [EvCursorClose 11%nat; EvRelease 0%nat 7%nat])
                true eq_refl) as [h Hrun].
    + right; right; right.
      set (d1 := Mock.tick (Mock.set_free 0 (Mock.start Mock.healthy 1 1))).
      set (d4 := Mock.tick
                   (Mock.set_unfetched (Ret []) (Mock.tick (Mock.tick d1)))).
      exists 7%nat, 11%nat, d1, (Mock.tick d1), (Mock.tick (Mock.tick d1)),
        d4, (Mock.tick d4), [EvFetchone 11%nat].
      split; [reflexivity|]. split; [reflexivity|]. split; [reflexivity|].
      split.
      { intros [cur oe od t] [d tr h] Hc Hd. simpl in Hc, Hd. subst cur d.
        eexists. reflexivity. }
      repeat split.
    + rewrite Hrun. reflexivity.
Defined.

(** C5 as stated fails: without a pool the attribute access raises; on a
    pool that was shut down, [acquire] raises a [RuntimeError], which is
    neither a timeout nor a driver error, and [postgres_status] lets it
    through. *)
Lemma status_raises :
  fst (postgres_status Mock.driver ∅ Mock.int_of_str Mock.app_not_started
         (Mock.world0 Mock.healthy)) =
    Raise (AttributeError "'NoneType' object has no attribute 'acquire'") /\
  fst (postgres_status Mock.driver ∅ Mock.int_of_str Mock.app
         (snd (_postgres_shutdown Mock.driver Mock.app
                 (Mock.world0 Mock.healthy)))) =
    Raise (RuntimeError "Cannot acquire connection after closing pool").
Proof. split; reflexivity. Qed.

(** A driver error while the row of [SELECT 1] is fetched is not a
    [ProgrammingError], leaves [_query] and is thrown into
    [postgres_connector], whose handler swallows it and yields a second
    time. *)
Example status_fetch_error :
  fst (postgres_status Mock.driver ∅ Mock.int_of_str Mock.app
         (Mock.world0 (Mock.returning 1 (Raise Mock.cursor_closed)))) =
    Raise didnt_stop_after_athrow.
Proof. reflexivity. Qed.

(** C10 as stated fails when the environment sets the default: a
    connector constructed with timeout 0 then takes that default, not
    120. *)
Lemma zero_timeout_reads_environment :
  PostgresConnector__init__ {[ "POSTGRES_QUERY_TIMEOUT"%string := "60"%string ]}
    Mock.int_of_str 11%nat Mock.swallow None (Some 0) =
  Ret {| cursor := 11%nat; _on_error := Mock.swallow; _on_duration := None;
         _timeout := 60 |} /\
  (60 <> DEFAULT_POSTGRES_QUERY_TIMEOUT).
Proof. split; [vm_compute; reflexivity|discriminate]. Qed.

(** * Further properties of the module *)

Section more_properties.

Context {D : Type}.
Variable drv : Driver D.
Variable environ : gmap string string.
Variable int_of_str : string -> option Z.

Local Abbreviation M := (M D).
Local Abbreviation G := (G D).

Ltac unfold_control :=
  unfold async_with, async_with_gen, async_with_cm, agen_exit,
    gtry_except, gbind, gcatch, glift, gret, graise, yield_,
    catch, try_except, try_except_else, bind, ret, raise, of_outcome,
    the_pool, call_on_error, call_on_duration, time_monotonic.

(** ** Result shaping: errors and calls *)

(** X1.  What [_query_results] lets through: with one row reported and
    [fetchone] returning [None], [dict(None)] raises [TypeError]; an
    exception of [fetchone] or [fetchall] that is not a
    [ProgrammingError] is raised, a driver error included. *)
Theorem query_results_errors (self : PostgresConnector) (w : world D) :
  let cur := cursor self in
  let n := cursor_rowcount drv cur (env w) in
  (n = 1 -> forall d,
     cursor_fetchone drv cur (env w) = (Ret None, d) ->
     _query_results drv self w =
       (Raise (TypeError "'NoneType' object is not iterable"),
        World d (trace w ++ [EvFetchone cur]) (objects w))) /\
  (n = 1 -> forall e d,
     cursor_fetchone drv cur (env w) = (Raise e, d) ->
     is_psycopg2 psycopg2.ProgrammingError e = false ->
     _query_results drv self w =
       (Raise e, World d (trace w ++ [EvFetchone cur]) (objects w))) /\
  (1 < n -> forall e d,
     cursor_fetchall drv cur (env w) = (Raise e, d) ->
     is_psycopg2 psycopg2.ProgrammingError e = false ->
     _query_results drv self w =
       (Raise e, World d (trace w ++ [EvFetchall cur]) (objects w))).
Proof.
  intros cur n. subst cur n. split; [|split].
  - intros Hn d Hf.
    unfold _query_results, bind, try_except, rowcount, ret, fetchone; simpl.
    rewrite Hn; simpl. rewrite (run_driver_call _ _ _ _ _ Hf). reflexivity.
  - intros Hn e d Hf He.
    unfold _query_results, bind, try_except, rowcount, ret, fetchone; simpl.
    rewrite Hn; simpl. rewrite (run_driver_call _ _ _ _ _ Hf), He.
    reflexivity.
  - intros Hn e d Hf He.
    unfold _query_results, bind, try_except, rowcount, ret, fetchall; simpl.
    replace (_ =? 1) with false by lia.
    replace (_ >? 1) with true by lia.
    rewrite (run_driver_call _ _ _ _ _ Hf), He. reflexivity.
Qed.

(** X2.  [_query_results] never changes the objects of the world and makes
    at most one call: none when fewer than one row is reported (the result
    is then the reported count with both fields unset, also for a negative
    count), [fetchone] for one row, [fetchall] for more.  A result it
    returns carries the reported count, whatever fetching did. *)
Theorem query_results_calls (self : PostgresConnector) (w : world D) :
  let cur := cursor self in
  let n := cursor_rowcount drv cur (env w) in
  let run := _query_results drv self w in
  objects (snd run) = objects w /\
  (n < 1 ->
   run = (Ret {| row_count := n; row := None; rows := None |}, w)) /\
  (n = 1 -> trace (snd run) = trace w ++ [EvFetchone cur]) /\
  (1 < n -> trace (snd run) = trace w ++ [EvFetchall cur]) /\
  (forall qr, fst run = Ret qr -> row_count qr = n).
Proof.
  intros cur n run. subst cur n run.
  unfold _query_results, bind, try_except, rowcount, ret, fetchone, fetchall,
    driver_call; simpl.
  destruct (Z.eqb_spec (cursor_rowcount drv (cursor self) (env w)) 1)
    as [Hn|Hn].
  - destruct (cursor_fetchone _ _ _) as [[[r|]|e] d]; simpl;
      try destruct (is_psycopg2 _ _); simpl;
      (split; [reflexivity|]); (split; [lia|]); (split; [reflexivity|]);
      (split; [lia|]); intros qr [= <-]; reflexivity.
  - destruct (cursor_rowcount drv (cursor self) (env w) >? 1) eqn:Hgt.
    + destruct (cursor_fetchall _ _ _) as [[rs|e] d]; simpl;
        try destruct (is_psycopg2 _ _); simpl;
        (split; [reflexivity|]); (split; [lia|]); (split; [lia|]);
        (split; [reflexivity|]); intros qr [= <-]; reflexivity.
    + split; [reflexivity|]. split; [reflexivity|]. split; [lia|].
      split; [lia|]. now intros qr [= <-].
Qed.

(** ** The shared execution path: what is not handled *)

(** X3.  [_query] hands only timeouts and driver errors of the driver
    method to the error callback: any other exception of the method is
    raised as it is, with no callback called.  An exception raised while
    the result is shaped, a driver error included, is raised without the
    error callback and without the duration callback.  An exception the
    error callback raises itself is raised. *)
Theorem query_unhandled (self : PostgresConnector)
    (method : kwargs -> M unit) (metric_name : string) (kw : kwargs)
    (w : world D) :
  let kw' := timeout_defaulted self kw in
  (forall e w1,
     method kw' w = (Raise e, w1) ->
     timeout_or_driver_error e = false ->
     _query drv self method metric_name kw w = (Raise e, w1)) /\
  (forall w1 e w2,
     method kw' w = (Ret tt, w1) ->
     _query_results drv self w1 = (Raise e, w2) ->
     _query drv self method metric_name kw w = (Raise e, w2)) /\
  (forall err w1 e h,
     method kw' w = (Raise err, w1) ->
     timeout_or_driver_error err = true ->
     _on_error self metric_name err (objects w1) = (Raise e, h) ->
     _query drv self method metric_name kw w =
       (Raise e, World (env w1) (trace w1 ++ [EvOnError metric_name err]) h)).
Proof.
  intros kw'. split; [|split].
  - intros e w1 Hm He.
    unfold _query, bind, try_except_else, time_monotonic. fold kw'.
    now rewrite Hm, He.
  - intros w1 e w2 Hm Hq.
    unfold _query, bind, try_except_else, time_monotonic. fold kw'.
    now rewrite Hm, Hq.
  - intros err w1 e h Hm Herr Hcb.
    unfold _query, bind, try_except_else, time_monotonic, call_on_error.
    fold kw'. now rewrite Hm, Herr, Hcb.
Qed.

(** The calls [_query_results] makes. *)
Lemma _query_results_fetches (self : PostgresConnector) (w : world D) :
  exists fetch : list event,
    trace (snd (_query_results drv self w)) = trace w ++ fetch /\
    (fetch = [] \/ fetch = [EvFetchone (cursor self)] \/
     fetch = [EvFetchall (cursor self)]).
Proof.
  unfold _query_results, bind, try_except, rowcount, ret, fetchone, fetchall,
    driver_call; simpl.
  destruct (_ =? 1).
  - destruct (cursor_fetchone _ _ _) as [[[r|]|e] d]; simpl;
      try destruct (is_psycopg2 _ _); simpl; eauto.
  - destruct (_ >? 1); [|exists []; rewrite app_nil_r; auto].
    destruct (cursor_fetchall _ _ _) as [[rs|e] d]; simpl;
      try destruct (is_psycopg2 _ _); simpl; eauto.
Qed.

(** The calls [_query] makes on a driver method. *)
Lemma _query_calls (self : PostgresConnector)
    (method_event : kwargs -> event) (f : kwargs -> D -> outcome unit * D)
    (metric_name : string) (kw : kwargs) (w : world D) :
  exists rest : list event,
    trace (snd (_query drv self
                  (fun k => driver_call (method_event k) (f k))
                  metric_name kw w)) =
    trace w ++ method_event (timeout_defaulted self kw) :: rest /\
    ((exists err, rest = [EvOnError metric_name err]) \/
     (exists fetch dur,
        rest = fetch ++ dur /\
        (fetch = [] \/ fetch = [EvFetchone (cursor self)] \/
         fetch = [EvFetchall (cursor self)]) /\
        (dur = [] \/ exists t, dur = [EvOnDuration metric_name t]))).
Proof.
  unfold _query, bind, try_except_else, time_monotonic.
  set (kw' := timeout_defaulted self kw).
  unfold driver_call at 1.
  destruct (f kw' (env w)) as [[[]|e] d].
  - set (w1 := World d _ _).
    destruct (_query_results_fetches self w1) as [fetch [Hl Hfetch]].
    destruct (_query_results drv self w1) as [[qr|e] w2]; simpl in Hl.
    + destruct (_on_duration self) as [cb|]; simpl.
      * unfold call_on_duration.
        destruct (cb _ _ _) as [[[]|e] h]; simpl; rewrite Hl; subst w1;
          simpl; rewrite <- !app_assoc; simpl;
          (eexists; split; [reflexivity|]); right;
          exists fetch, [EvOnDuration metric_name
                           (monotonic drv (env w2) - monotonic drv (env w))];
          (split; [reflexivity|]); (split; [exact Hfetch|]);
          right; eexists; reflexivity.
      * rewrite Hl. subst w1. simpl. rewrite <- app_assoc. simpl.
        eexists; split; [reflexivity|]. right. exists fetch, [].
        rewrite app_nil_r. auto.
    + simpl. rewrite Hl. subst w1. simpl. rewrite <- app_assoc. simpl.
      eexists; split; [reflexivity|]. right. exists fetch, [].
      rewrite app_nil_r. auto.
  - destruct (timeout_or_driver_error e); simpl.
    + unfold call_on_error; simpl.
      destruct (_on_error self _ _ _) as [[[x|]|x] h]; simpl;
        rewrite <- app_assoc; simpl; eauto.
    + exists []. split; [reflexivity|]. right. exists [], []. auto.
Qed.

(** X4.  One call of [execute] or [callproc] calls the driver method
    once, first, with the timeout of the call or the default of the
    connector.  What follows is either one call of the error callback and
    nothing else, or at most one fetch and then at most one call of the
    duration callback: the two callbacks are never both called, and nothing
    is fetched after an error. *)
Theorem statement_calls (self : PostgresConnector) (target : string)
    (parameters : QueryParameters) (metric_name : string) (timeout : Timeout)
    (w : world D) :
  let cur := cursor self in
  let t := Some (default (_timeout self) timeout) in
  let shape (rest : list event) :=
    (exists err, rest = [EvOnError metric_name err]) \/
    (exists fetch dur,
       rest = fetch ++ dur /\
       (fetch = [] \/ fetch = [EvFetchone cur] \/ fetch = [EvFetchall cur]) /\
       (dur = [] \/ exists elapsed, dur = [EvOnDuration metric_name elapsed]))
  in
  (exists rest : list event,
     trace (snd (execute drv self target parameters metric_name timeout w)) =
       trace w ++ EvExecute cur target parameters t :: rest /\
     shape rest) /\
  (exists rest : list event,
     trace (snd (callproc drv self target parameters metric_name timeout w)) =
       trace w ++ EvCallproc cur target parameters t :: rest /\
     shape rest).
Proof.
  intros cur t shape. subst cur t shape. split.
  - destruct (_query_calls self
                (fun k => EvExecute (cursor self) (kw_operation k)
                            (kw_parameters k) (kw_timeout k))
                (fun k => cursor_execute drv (cursor self) (kw_operation k)
                            (kw_parameters k) (kw_timeout k))
                metric_name
                {| kw_operation := target; kw_parameters := parameters;
                   kw_timeout := timeout |} w) as [rest [Hrest Hshape]].
    exists rest. split; [|exact Hshape].
    unfold execute, cursor_execute_method. rewrite Hrest.
    destruct timeout; reflexivity.
  - destruct (_query_calls self
                (fun k => EvCallproc (cursor self) (kw_operation k)
                            (kw_parameters k) (kw_timeout k))
                (fun k => cursor_callproc drv (cursor self) (kw_operation k)
                            (kw_parameters k) (kw_timeout k))
                metric_name
                {| kw_operation := target; kw_parameters := parameters;
                   kw_timeout := timeout |} w) as [rest [Hrest Hshape]].
    exists rest. split; [|exact Hshape].
    unfold callproc, cursor_callproc_method. rewrite Hrest.
    destruct timeout; reflexivity.
Qed.

(** ** Transactions: failing [BEGIN], [COMMIT] and [ROLLBACK] *)

(** X5.  When [BEGIN] raises, the exception leaves the scope: the body
    does not run and neither [COMMIT] nor [ROLLBACK] is issued.  When the
    body ends normally and [COMMIT] raises, the scope raises that
    exception and issues no [ROLLBACK].  When the body raises and
    [ROLLBACK] raises too, the exception of [ROLLBACK] replaces the one of
    the body. *)
Theorem transaction_failures {B} (self : PostgresConnector)
    (body : PostgresConnector -> M B) (w : world D) :
  let cur := cursor self in
  let begun d1 := World d1 (trace w ++ [EvBegin cur]) (objects w) in
  (forall e d1,
     tx_begin drv cur (env w) = (Raise e, d1) ->
     async_with (transaction drv self) body w = (Raise e, begun d1)) /\
  (forall d1 b w2 e d3,
     tx_begin drv cur (env w) = (Ret tt, d1) ->
     body self (begun d1) = (Ret b, w2) ->
     tx_commit drv cur (env w2) = (Raise e, d3) ->
     async_with (transaction drv self) body w =
       (Raise e, World d3 (trace w2 ++ [EvCommit cur]) (objects w2))) /\
  (forall d1 e w2 e' d3,
     tx_begin drv cur (env w) = (Ret tt, d1) ->
     body self (begun d1) = (Raise e, w2) ->
     tx_rollback drv cur (env w2) = (Raise e', d3) ->
     async_with (transaction drv self) body w =
       (Raise e', World d3 (trace w2 ++ [EvRollback cur]) (objects w2))).
Proof.
  intros cur begun. subst cur begun. split; [|split].
  - intros e d1 Hbegin. rewrite run_transaction.
    now rewrite (run_driver_call _ _ _ _ _ Hbegin).
  - intros d1 b w2 e d3 Hbegin Hbody Hcommit. rewrite run_transaction.
    rewrite (run_driver_call _ _ _ _ _ Hbegin), Hbody.
    now rewrite (run_driver_call _ _ _ _ _ Hcommit).
  - intros d1 e w2 e' d3 Hbegin Hbody Hrb. rewrite run_transaction.
    rewrite (run_driver_call _ _ _ _ _ Hbegin), Hbody.
    now rewrite (run_driver_call _ _ _ _ _ Hrb).
Qed.

(** ** Scoped acquisition: leaving the scope *)

(** X6.  Once [postgres_connector] has handed a connector to the body,
    the cursor is closed and then the connection is given back, whatever
    the body does and whether or not closing or releasing raises.  After
    the release at most the error callback is called, for a connection
    error. *)
Theorem connector_scope_releases {B} (self : ApplicationMixin)
    (on_error : on_error_callback)
    (on_duration : option on_duration_callback) (timeout : Timeout)
    (body : option PostgresConnector -> M B) (w : world D)
    (p : Pool) (conn : Connection) (cur : Cursor) (c : PostgresConnector)
    (d1 d2 : D) :
  let scope := postgres_connector drv environ int_of_str self on_error
                 on_duration timeout in
  let entered := World d2 (trace w ++ [EvAcquire p; EvCursor conn timeout])
                   (objects w) in
  _postgres_pool self = Some p ->
  pool_acquire drv p (env w) = (Ret conn, d1) ->
  conn_cursor drv conn timeout d1 = (Ret cur, d2) ->
  PostgresConnector__init__ environ int_of_str cur on_error on_duration
    timeout = Ret c ->
  exists after : list event,
    trace (snd (async_with scope body w)) =
      trace (snd (body (Some c) entered)) ++
      EvCursorClose cur :: EvRelease p conn :: after /\
    (after = [] \/
     exists e, after = [EvOnError "postgres_connector"
                          (ConnectionException (str e))]).
Proof.
  intros scope entered Hp Hacq Hcur Hinit. subst scope entered.
  unfold postgres_connector, pool_acquire_cm, conn_cursor_cm; unfold_control.
  rewrite Hp; simpl. unfold driver_call; simpl. rewrite Hacq; simpl.
  rewrite Hcur; simpl. rewrite Hinit; simpl.
  rewrite <- !app_assoc; simpl.
  destruct (body (Some c) _) as [[b|e] w2]; simpl.
  - destruct (cursor_close drv cur (env w2)) as [[[]|e1] d3]; simpl;
      destruct (pool_release drv p conn d3) as [[[]|e2] d4]; simpl;
      try (exists []; split; [now rewrite <- !app_assoc|now left]);
      match goal with
      | |- context [timeout_or_driver_error ?x] =>
          destruct (timeout_or_driver_error x); simpl
      end;
      try (exists []; split; [now rewrite <- !app_assoc|now left]);
      destruct (on_error _ _ _) as [[[x|]|x] h]; simpl;
      (eexists [_]; split; [now rewrite <- !app_assoc|right; eauto]).
  - destruct (cursor_close drv cur (env w2)) as [[[]|e1] d3]; simpl;
      destruct (pool_release drv p conn d3) as [[[]|e2] d4]; simpl;
      match goal with
      | |- context [timeout_or_driver_error ?x] =>
          destruct (timeout_or_driver_error x); simpl
      end;
      try (exists []; split; [now rewrite <- !app_assoc|now left]);
      destruct (on_error _ _ _) as [[[x|]|x] h]; simpl;
      (eexists [_]; split; [now rewrite <- !app_assoc|right; eauto]).
Qed.

(** X7.  How [postgres_connector] ends when the cursor closes and the
    connection is released without error.  A body that ends normally gives
    its value.  An exception of the body that is neither a timeout nor a
    driver error is raised as it is.  A timeout or driver error of the
    body is reported to the error callback as a [ConnectionException] under
    "postgres_connector"; an exception the callback returns is raised in
    its place, and when the callback returns [None] the generator yields a
    second time and the [async with] raises [RuntimeError]. *)
Theorem connector_scope_exit {B} (self : ApplicationMixin)
    (on_error : on_error_callback)
    (on_duration : option on_duration_callback) (timeout : Timeout)
    (body : option PostgresConnector -> M B) (w : world D)
    (p : Pool) (conn : Connection) (cur : Cursor) (c : PostgresConnector)
    (d1 d2 d3 d4 : D) (w2 : world D) (r : outcome B) :
  let scope := postgres_connector drv environ int_of_str self on_error
                 on_duration timeout in
  let entered := World d2 (trace w ++ [EvAcquire p; EvCursor conn timeout])
                   (objects w) in
  let left h calls :=
    World d4 (trace w2 ++ [EvCursorClose cur; EvRelease p conn] ++ calls) h in
  _postgres_pool self = Some p ->
  pool_acquire drv p (env w) = (Ret conn, d1) ->
  conn_cursor drv conn timeout d1 = (Ret cur, d2) ->
  PostgresConnector__init__ environ int_of_str cur on_error on_duration
    timeout = Ret c ->
  body (Some c) entered = (r, w2) ->
  cursor_close drv cur (env w2) = (Ret tt, d3) ->
  pool_release drv p conn d3 = (Ret tt, d4) ->
  (forall b, r = Ret b ->
     async_with scope body w = (Ret (Some b), left (objects w2) [])) /\
  (forall e, r = Raise e -> timeout_or_driver_error e = false ->
     async_with scope body w = (Raise e, left (objects w2) [])) /\
  (forall e, r = Raise e -> timeout_or_driver_error e = true ->
     let reported := ConnectionException (str e) in
     (forall e' h,
        on_error "postgres_connector"%string reported (objects w2) =
          (Ret (Some e'), h) ->
        async_with scope body w =
          (Raise e', left h [EvOnError "postgres_connector" reported])) /\
     (forall h,
        on_error "postgres_connector"%string reported (objects w2) =
          (Ret None, h) ->
        async_with scope body w =
          (Raise didnt_stop_after_athrow,
           left h [EvOnError "postgres_connector" reported]))).
Proof.
  intros scope entered left Hp Hacq Hcur Hinit Hbody Hclose Hrel.
  subst scope entered left.
  split; [|split].
  - intros b ->.
    unfold postgres_connector, pool_acquire_cm, conn_cursor_cm;
      unfold_control.
    rewrite Hp; simpl. unfold driver_call; simpl. rewrite Hacq; simpl.
    rewrite Hcur; simpl. rewrite Hinit; simpl.
    rewrite <- !app_assoc; simpl. rewrite Hbody; simpl.
    rewrite Hclose; simpl. rewrite Hrel; simpl.
    rewrite <- !app_assoc. reflexivity.
  - intros e -> He.
    unfold postgres_connector, pool_acquire_cm, conn_cursor_cm;
      unfold_control.
    rewrite Hp; simpl. unfold driver_call; simpl. rewrite Hacq; simpl.
    rewrite Hcur; simpl. rewrite Hinit; simpl.
    rewrite <- !app_assoc; simpl. rewrite Hbody; simpl.
    rewrite Hclose; simpl. rewrite Hrel; simpl. rewrite He; simpl.
    rewrite <- !app_assoc. reflexivity.
  - intros e -> He reported. subst reported.
    split; [intros e' h Hcb|intros h Hcb];
      unfold postgres_connector, pool_acquire_cm, conn_cursor_cm;
      unfold_control;
      rewrite Hp; simpl; unfold driver_call; simpl; rewrite Hacq; simpl;
      rewrite Hcur; simpl; rewrite Hinit; simpl;
      rewrite <- !app_assoc; simpl; rewrite Hbody; simpl;
      rewrite Hclose; simpl; rewrite Hrel; simpl; rewrite He; simpl;
      rewrite Hcb; simpl; rewrite <- !app_assoc; reflexivity.
Qed.

(** X8.  With no timeout given (or 0) and a [POSTGRES_QUERY_TIMEOUT] in
    the environment that [int] rejects, [postgres_connector] fails after
    it has taken a connection and opened a cursor: the constructor raises
    [ValueError], the cursor is closed, the connection is given back, the
    body does not run and the error callback is not called. *)
Theorem connector_scope_bad_environment {B} (self : ApplicationMixin)
    (on_error : on_error_callback)
    (on_duration : option on_duration_callback) (timeout : Timeout)
    (body : option PostgresConnector -> M B) (w : world D)
    (p : Pool) (conn : Connection) (cur : Cursor) (d1 d2 d3 d4 : D)
    (s : string) :
  timeout_truthy timeout = false ->
  environ !! "POSTGRES_QUERY_TIMEOUT"%string = Some s ->
  int_of_str s = None ->
  _postgres_pool self = Some p ->
  pool_acquire drv p (env w) = (Ret conn, d1) ->
  conn_cursor drv conn timeout d1 = (Ret cur, d2) ->
  cursor_close drv cur d2 = (Ret tt, d3) ->
  pool_release drv p conn d3 = (Ret tt, d4) ->
  async_with
    (postgres_connector drv environ int_of_str self on_error on_duration
       timeout) body w =
    (Raise (ValueError
              ("invalid literal for int() with base 10: '" +:+ s +:+ "'")),
     World d4
       (trace w ++ [EvAcquire p; EvCursor conn timeout; EvCursorClose cur;
                    EvRelease p conn])
       (objects w)).
Proof.
  intros Ht Henv Hint Hp Hacq Hcur Hclose Hrel.
  unfold postgres_connector, pool_acquire_cm, conn_cursor_cm,
    PostgresConnector__init__, environ_query_timeout; unfold_control.
  rewrite Hp, Ht, Henv, Hint; simpl. unfold driver_call; simpl.
  rewrite Hacq; simpl. rewrite Hcur; simpl. rewrite Hclose; simpl.
  rewrite Hrel; simpl. rewrite <- !app_assoc. reflexivity.
Qed.

(** X9.  [postgres_status] does not depend on the environment: it gives
    its own timeout to the connector, so [POSTGRES_QUERY_TIMEOUT] is never
    read, valid or not. *)
Theorem status_ignores_environment (environ' : gmap string string)
    (int_of_str' : string -> option Z) (self : ApplicationMixin)
    (w : world D) :
  postgres_status drv environ int_of_str self w =
  postgres_status drv environ' int_of_str' self w.
Proof. reflexivity. Qed.

(** ** The request handler with its default policy *)

(** The HTTP error [_on_postgres_error] raises for a timeout or driver
    error. *)
Lemma _on_postgres_error_raises (self_class metric_name : string)
    (err : exn) (h : heap) :
  timeout_or_driver_error err = true ->
  _on_postgres_error self_class metric_name err h =
    (Raise (if is_TimeoutError err then HTTPError 500 "Query Timeout"
            else if is_psycopg2 psycopg2.UniqueViolation err
                 then HTTPError 409 "Unique Violation"
                 else HTTPError 500 "Database Error"),
     LOGGER_log "ERROR" "%s in %s for %s (%s)"
       [LogStr (class_name err); LogStr self_class; LogStr metric_name;
        LogStr (first_line (str err))] h).
Proof.
  unfold timeout_or_driver_error, _on_postgres_error.
  destruct err as [m|c m|m|s m|m|m|m|m|c m]; simpl; try discriminate.
  - reflexivity.
  - intros ->. destruct (psycopg2.issubclass c psycopg2.UniqueViolation);
      reflexivity.
Qed.

(** X10.  With the default policy, a timeout or driver error of the
    statement leaves [postgres_execute] and [postgres_callproc] as the
    HTTP error of the policy (500 for a timeout, 409 for a unique
    violation, 500 for other driver errors): it is logged and reported
    once, under the metric name of the statement, the cursor is closed and
    the connection is given back; the HTTP error is not a driver error, so
    it is not reported again as a connection error. *)
Theorem facade_statement_error (handler : RequestHandlerMixin)
    (target : string) (parameters : QueryParameters) (metric_name : string)
    (timeout : Timeout) (w : world D) (p : Pool) (conn : Connection)
    (cur : Cursor) (c : PostgresConnector) (err : exn) (d1 d2 d3 d4 d5 : D) :
  let t := Some (default (_timeout c) timeout) in
  let http := if is_TimeoutError err then HTTPError 500 "Query Timeout"
              else if is_psycopg2 psycopg2.UniqueViolation err
                   then HTTPError 409 "Unique Violation"
                   else HTTPError 500 "Database Error" in
  let logged := LOGGER_log "ERROR" "%s in %s for %s (%s)"
                  [LogStr (class_name err); LogStr (handler_class handler);
                   LogStr metric_name; LogStr (first_line (str err))]
                  (objects w) in
  on_postgres_error handler = _on_postgres_error (handler_class handler) ->
  _postgres_pool (application handler) = Some p ->
  pool_acquire drv p (env w) = (Ret conn, d1) ->
  conn_cursor drv conn timeout d1 = (Ret cur, d2) ->
  PostgresConnector__init__ environ int_of_str cur
    (on_postgres_error handler) (Some (on_postgres_timing handler))
    timeout = Ret c ->
  timeout_or_driver_error err = true ->
  cursor_close drv cur d3 = (Ret tt, d4) ->
  pool_release drv p conn d4 = (Ret tt, d5) ->
  (cursor_execute drv cur target parameters t d2 = (Raise err, d3) ->
   postgres_execute drv environ int_of_str handler target parameters
     metric_name timeout w =
     (Raise http,
      World d5
        (trace w ++ [EvAcquire p; EvCursor conn timeout;
                     EvExecute cur target parameters t;
                     EvOnError metric_name err;
                     EvCursorClose cur; EvRelease p conn])
        logged)) /\
  (cursor_callproc drv cur target parameters t d2 = (Raise err, d3) ->
   postgres_callproc drv environ int_of_str handler target parameters
     metric_name timeout w =
     (Raise http,
      World d5
        (trace w ++ [EvAcquire p; EvCursor conn timeout;
                     EvCallproc cur target parameters t;
                     EvOnError metric_name err;
                     EvCursorClose cur; EvRelease p conn])
        logged)).
Proof.
  intros t http logged Hpolicy Hp Hacq Hcur Hinit Herr Hclose Hrel.
  subst t http logged.
  destruct (PostgresConnector__init__inv _ _ _ _ _ _ _ Hinit) as [t0 Hc].
  assert (Hhttp : forall a b,
             timeout_or_driver_error
               (if is_TimeoutError err then HTTPError 500 a
                else if is_psycopg2 psycopg2.UniqueViolation err
                     then HTTPError 409 b else HTTPError 500 "Database Error")
             = false)
    by (intros; destruct (is_TimeoutError err);
        [|destruct (is_psycopg2 _ err)]; reflexivity).
  split; intros Hexe;
    unfold postgres_execute, postgres_callproc, postgres_connector,
      pool_acquire_cm, conn_cursor_cm, execute, callproc, _query,
      cursor_execute_method, cursor_callproc_method, timeout_defaulted;
    unfold_control;
    rewrite Hp; simpl; unfold driver_call; simpl; rewrite Hacq; simpl;
    rewrite Hcur; simpl; rewrite Hinit; simpl; rewrite Hc in *; simpl in *;
    destruct timeout as [t1|]; simpl in *;
    rewrite Hexe; simpl; rewrite Herr; simpl;
    rewrite Hpolicy, (_on_postgres_error_raises _ _ _ _ Herr); simpl;
    rewrite Hclose; simpl; rewrite Hrel; simpl; rewrite Hhttp; simpl;
    rewrite <- !app_assoc; reflexivity.
Qed.

(** X11.  With the default policy, a timeout or driver error while the
    connection is taken from the pool leaves [postgres_execute],
    [postgres_callproc] and a [postgres_transaction] scope as
    [HTTPError 503]: the policy raises it inside [postgres_connector], the
    statement is never sent and the body of the scope does not run. *)
Theorem facade_unavailable {B} (handler : RequestHandlerMixin)
    (target : string) (parameters : QueryParameters) (metric_name : string)
    (timeout : Timeout) (body : PostgresConnector -> M B) (w : world D)
    (p : Pool) (err : exn) (d : D) :
  let reported := ConnectionException (str err) in
  let unavailable {A} : outcome A * world D :=
    (Raise (HTTPError 503 "Database Connection Error"),
     World d (trace w ++ [EvAcquire p; EvOnError "postgres_connector" reported])
       (LOGGER_log "ERROR" "%s in %s for %s (%s)"
          [LogStr "ConnectionException"; LogStr (handler_class handler);
           LogStr "postgres_connector"; LogStr (first_line (str err))]
          (objects w))) in
  on_postgres_error handler = _on_postgres_error (handler_class handler) ->
  _postgres_pool (application handler) = Some p ->
  pool_acquire drv p (env w) = (Raise err, d) ->
  timeout_or_driver_error err = true ->
  postgres_execute drv environ int_of_str handler target parameters
    metric_name timeout w = unavailable /\
  postgres_callproc drv environ int_of_str handler target parameters
    metric_name timeout w = unavailable /\
  async_with (postgres_transaction drv environ int_of_str handler timeout)
    body w = unavailable.
Proof.
  intros reported unavailable Hpolicy Hp Hacq Herr.
  subst reported unavailable.
  split; [|split];
    unfold postgres_execute, postgres_callproc, postgres_transaction,
      postgres_connector, pool_acquire_cm, conn_cursor_cm; unfold_control;
    rewrite Hp; simpl; unfold driver_call; simpl; rewrite Hacq; simpl;
    rewrite Herr; simpl; rewrite Hpolicy; simpl;
    rewrite <- !app_assoc; reflexivity.
Qed.

(** X12.  With a policy that swallows the connection error (the callback
    returns [None]), a failed acquisition does not end the facade
    operations quietly: [postgres_connector] yields [None] and the
    attribute access on it raises [AttributeError], for [execute],
    [callproc] and [transaction] alike. *)
Theorem facade_swallowed_unavailable {B} (handler : RequestHandlerMixin)
    (target : string) (parameters : QueryParameters) (metric_name : string)
    (timeout : Timeout) (body : PostgresConnector -> M B) (w : world D)
    (p : Pool) (err : exn) (d : D) (h : heap) :
  let reported := ConnectionException (str err) in
  let no_attribute {A} (attr : string) : outcome A * world D :=
    (Raise (AttributeError
              ("'NoneType' object has no attribute '" +:+ attr +:+ "'")),
     World d (trace w ++ [EvAcquire p; EvOnError "postgres_connector" reported])
       h) in
  _postgres_pool (application handler) = Some p ->
  pool_acquire drv p (env w) = (Raise err, d) ->
  timeout_or_driver_error err = true ->
  on_postgres_error handler "postgres_connector"%string reported (objects w) =
    (Ret None, h) ->
  postgres_execute drv environ int_of_str handler target parameters
    metric_name timeout w = no_attribute "execute" /\
  postgres_callproc drv environ int_of_str handler target parameters
    metric_name timeout w = no_attribute "callproc" /\
  async_with (postgres_transaction drv environ int_of_str handler timeout)
    body w = no_attribute "transaction".
Proof.
  intros reported no_attr Hp Hacq Herr Hcb. subst reported no_attr.
  split; [|split];
    unfold postgres_execute, postgres_callproc, postgres_transaction,
      postgres_connector, pool_acquire_cm, conn_cursor_cm, no_attribute;
    unfold_control;
    rewrite Hp; simpl; unfold driver_call; simpl; rewrite Hacq; simpl;
    rewrite Herr; simpl; rewrite Hcb; simpl;
    rewrite <- !app_assoc; reflexivity.
Qed.

(** X13.  A statement that succeeds through [postgres_execute] or
    [postgres_callproc]: the connection is taken, the cursor opened, the
    statement sent with the timeout of the call or the default of the
    connector, the result shaped, the duration from before the statement
    to after shaping given to the timing method of the handler, the cursor
    closed and the connection given back, in that order; the shaped result
    is returned. *)
Theorem facade_statement_success (handler : RequestHandlerMixin)
    (target : string) (parameters : QueryParameters) (metric_name : string)
    (timeout : Timeout) (w : world D) (p : Pool) (conn : Connection)
    (cur : Cursor) (c : PostgresConnector) (d1 d2 d3 d4 d5 d6 : D)
    (fetches : list event) (qr : QueryResult) (h : heap) :
  let t := Some (default (_timeout c) timeout) in
  let elapsed := monotonic drv d4 - monotonic drv d2 in
  let done statement :=
    (Ret (Some qr),
     World d6
       (trace w ++ [EvAcquire p; EvCursor conn timeout; statement] ++
        fetches ++ [EvOnDuration metric_name elapsed; EvCursorClose cur;
                    EvRelease p conn])
       h) in
  _postgres_pool (application handler) = Some p ->
  pool_acquire drv p (env w) = (Ret conn, d1) ->
  conn_cursor drv conn timeout d1 = (Ret cur, d2) ->
  PostgresConnector__init__ environ int_of_str cur
    (on_postgres_error handler) (Some (on_postgres_timing handler))
    timeout = Ret c ->
  (forall c' (w' : world D),
     cursor c' = cur -> env w' = d3 ->
     _query_results drv c' w' =
       (Ret qr, World d4 (trace w' ++ fetches) (objects w'))) ->
  on_postgres_timing handler metric_name elapsed (objects w) = (Ret tt, h) ->
  cursor_close drv cur d4 = (Ret tt, d5) ->
  pool_release drv p conn d5 = (Ret tt, d6) ->
  (cursor_execute drv cur target parameters t d2 = (Ret tt, d3) ->
   postgres_execute drv environ int_of_str handler target parameters
     metric_name timeout w = done (EvExecute cur target parameters t)) /\
  (cursor_callproc drv cur target parameters t d2 = (Ret tt, d3) ->
   postgres_callproc drv environ int_of_str handler target parameters
     metric_name timeout w = done (EvCallproc cur target parameters t)).
Proof.
  intros t elapsed done Hp Hacq Hcur Hinit Hshape Htiming Hclose Hrel.
  subst t elapsed done.
  destruct (PostgresConnector__init__inv _ _ _ _ _ _ _ Hinit) as [t0 Hc].
  split; intros Hexe;
    unfold postgres_execute, postgres_callproc, postgres_connector,
      pool_acquire_cm, conn_cursor_cm, execute, callproc, _query,
      cursor_execute_method, cursor_callproc_method, timeout_defaulted;
    unfold_control;
    rewrite Hp; simpl; unfold driver_call; simpl; rewrite Hacq; simpl;
    rewrite Hcur; simpl; rewrite Hinit; simpl; rewrite Hc in *; simpl in *;
    destruct timeout as [t1|]; simpl in *;
    rewrite Hexe; simpl;
    match goal with
    | |- context [_query_results drv ?c' ?w'] =>
        rewrite (Hshape c' w' eq_refl eq_refl)
    end; simpl;
    rewrite Htiming; simpl; rewrite Hclose; simpl; rewrite Hrel; simpl;
    rewrite <- !app_assoc; reflexivity.
Qed.

(** ** What the default policy logs *)

Lemma first_line_no_newline (s : string) (ch : ascii) :
  In ch (list_ascii_of_string (first_line s)) -> ch <> "010"%char.
Proof.
  induction s as [|a s IH]; simpl; [tauto|].
  destruct (Ascii.eqb_spec a "010"%char) as [->|Hne]; simpl; [tauto|].
  intros [<-|Hin]; auto.
Qed.

Lemma first_line_prefix (s : string) :
  s = first_line s \/
  exists rest, s = first_line s +:+ String "010"%char rest.
Proof.
  induction s as [|a s IH]; simpl; [now left|].
  destruct (Ascii.eqb_spec a "010"%char) as [->|Hne]; simpl.
  - right. now exists s.
  - destruct IH as [IH|[rest IH]].
    + left. f_equal. exact IH.
    + right. exists rest.
      change (String a s =
              String a (first_line s +:+ String "010"%char rest)).
      f_equal. exact IH.
Qed.

(** X14.  Whatever the exception, and whether it then raises or returns,
    [_on_postgres_error] adds exactly one record to the log, at level
    ERROR, with the class of the exception, the class of the handler, the
    metric name and the text of the exception up to its first line break:
    the logged text has no line break.  Nothing else the callbacks can
    reach is changed. *)
Theorem error_policy_logs (self_class metric_name : string) (exc : exn)
    (h : heap) :
  let h' := snd (_on_postgres_error self_class metric_name exc h) in
  exists line : string,
    log_records h' =
      log_records h ++
      [LogRecord "ERROR" "%s in %s for %s (%s)"
         [LogStr (class_name exc); LogStr self_class; LogStr metric_name;
          LogStr line]] /\
    (forall ch, In ch (list_ascii_of_string line) -> ch <> "010"%char) /\
    (str exc = line \/
     exists rest, str exc = line +:+ String "010"%char rest) /\
    events h' = events h /\
    influxdb_fields h' = influxdb_fields h /\
    recorded_timings h' = recorded_timings h.
Proof.
  intros h'. subst h'. exists (first_line (str exc)).
  split; [|split; [apply first_line_no_newline|split;
                   [apply first_line_prefix|]]];
    unfold _on_postgres_error;
    destruct (is_ConnectionException exc), (is_TimeoutError exc),
      (is_psycopg2 psycopg2.UniqueViolation exc),
      (is_psycopg2 psycopg2.Error exc); simpl; auto.
Qed.

(** ** The status operation: what it lets through *)

(** X15.  [postgres_status] can raise.  An exception of the driver's
    [execute] that is neither a timeout nor a driver error is raised, after
    the cursor is closed and the connection given back.  A timeout or
    driver error raised while the result of [SELECT 1] is shaped is not
    handled by [_query]; it is thrown into [postgres_connector], whose
    handler reports it to the status callback, gets [None] and yields a
    second time, so the status request ends with [RuntimeError]. *)
Theorem status_lets_through (self : ApplicationMixin) (w : world D)
    (p : Pool) (conn : Connection) (cur : Cursor) (e : exn)
    (d1 d2 d3 d4 d5 d6 : D) (fetches : list event) :
  let t := Some POSTGRES_STATUS_TIMEOUT in
  let select := EvExecute cur "SELECT 1" ParametersNone t in
  _postgres_pool self = Some p ->
  pool_acquire drv p (env w) = (Ret conn, d1) ->
  conn_cursor drv conn t d1 = (Ret cur, d2) ->
  cursor_close drv cur d4 = (Ret tt, d5) ->
  pool_release drv p conn d5 = (Ret tt, d6) ->
  (cursor_execute drv cur "SELECT 1" ParametersNone t d2 = (Raise e, d4) ->
   timeout_or_driver_error e = false ->
   exists h,
     postgres_status drv environ int_of_str self w =
       (Raise e,
        World d6
          (trace w ++ [EvAcquire p; EvCursor conn t; select;
                       EvCursorClose cur; EvRelease p conn]) h)) /\
  (cursor_execute drv cur "SELECT 1" ParametersNone t d2 = (Ret tt, d3) ->
   (forall c (w' : world D),
      cursor c = cur -> env w' = d3 ->
      _query_results drv c w' =
        (Raise e, World d4 (trace w' ++ fetches) (objects w'))) ->
   timeout_or_driver_error e = true ->
   exists h,
     postgres_status drv environ int_of_str self w =
       (Raise didnt_stop_after_athrow,
        World d6
          (trace w ++ [EvAcquire p; EvCursor conn t; select] ++ fetches ++
           [EvCursorClose cur; EvRelease p conn;
            EvOnError "postgres_connector" (ConnectionException (str e))])
          h)).
Proof.
  intros t select Hp Hacq Hcur Hclose Hrel. subst t select. split.
  - intros Hexe He. eexists.
    unfold postgres_status, postgres_connector, pool_acquire_cm,
      conn_cursor_cm, asyncio_Event, Event_is_set, execute, _query,
      cursor_execute_method, timeout_defaulted; unfold_control.
    rewrite Hp; simpl. unfold driver_call; simpl. rewrite Hacq; simpl.
    rewrite Hcur; simpl. rewrite Hexe; simpl. rewrite He; simpl.
    rewrite Hclose; simpl. rewrite Hrel; simpl. rewrite He; simpl.
    rewrite <- !app_assoc. reflexivity.
  - intros Hexe Hshape He. eexists.
    unfold postgres_status, postgres_connector, pool_acquire_cm,
      conn_cursor_cm, asyncio_Event, Event_is_set, execute, _query,
      cursor_execute_method, timeout_defaulted; unfold_control.
    rewrite Hp; simpl. unfold driver_call; simpl. rewrite Hacq; simpl.
    rewrite Hcur; simpl. rewrite Hexe; simpl.
    match goal with
    | |- context [_query_results drv ?c ?w'] =>
        rewrite (Hshape c w' eq_refl eq_refl)
    end; simpl.
    rewrite Hclose; simpl. rewrite Hrel; simpl. rewrite He; simpl.
    rewrite <- !app_assoc. reflexivity.
Qed.

End more_properties.

(** * Properties of start-up *)

Section startup_properties.

Context {D : Type}.
Variable drv : Driver D.
Variable host : Host D.
Variable environ : gmap string string.
Variable int_of_str : string -> option Z.
Variable strtobool_of_str : string -> option Z.

(** A driver error is what the handler of [_postgres_setup] catches: the
    first class of its tuple is a subclass of the second. *)
Lemma OperationalError_or_Error (e : exn) :
  is_psycopg2 psycopg2.OperationalError e || is_psycopg2 psycopg2.Error e =
  is_psycopg2 psycopg2.Error e.
Proof. destruct e as [m|c m|m|s m|m|m|m|m|c m]; try reflexivity.
       destruct c; reflexivity. Qed.

(** X16.  Without [POSTGRES_URL] in the environment [_postgres_setup] logs
    one CRITICAL record, calls [stop] and returns what it returns; it reads
    no other setting, creates no pool and leaves the application as it
    was.  On an application that had no pool, a later shutdown does nothing
    and a later status request raises [AttributeError]. *)
Theorem setup_without_url (self : ApplicationMixin) (w : world D) :
  environ !! "POSTGRES_URL"%string = None ->
  _postgres_pool self = None ->
  exists r d,
    app_stop host (env w) = (r, d) /\
    let w' := World d (trace w)
                (LOGGER_log "CRITICAL"
                   "Missing POSTGRES_URL environment variable" []
                   (objects w)) in
    _postgres_setup host environ int_of_str strtobool_of_str self w =
      (r, self, w') /\
    _postgres_shutdown drv self w' = (Ret tt, w') /\
    fst (postgres_status drv environ int_of_str self w') =
      Raise (AttributeError "'NoneType' object has no attribute 'acquire'").
Proof.
  intros Hurl Hpool.
  destruct (app_stop host (env w)) as [r d] eqn:Hstop.
  exists r, d. split; [reflexivity|]. cbv zeta.
  split; [|split].
  - unfold _postgres_setup. now rewrite Hurl, Hstop.
  - unfold _postgres_shutdown. now rewrite Hpool.
  - unfold postgres_status, postgres_connector, asyncio_Event, async_with,
      gtry_except, gbind, gcatch, glift, catch, bind, the_pool, raise.
    rewrite Hpool. reflexivity.
Qed.

(** X17.  With [POSTGRES_URL] as the only setting, and [int] and
    [strtobool] reading the default strings as Python does, the pool is
    constructed with at most 10 and at least 1 connection, a connect
    timeout of 10, hstore and JSON conversion off, UUID conversion on,
    echo off and a connection age of 300; once it is filled the
    application holds it. *)
Theorem setup_defaults (self : ApplicationMixin) (w : world D)
    (url : string) (p : Pool) (d1 d2 : D) :
  let arguments :=
    {| dsn := url; maxsize := 10; minsize := 1; timeout_ := 10;
       enable_hstore := 0; enable_json := 0; enable_uuid := 1;
       echo := false; pool_recycle := 300 |} in
  environ !! "POSTGRES_URL"%string = Some url ->
  environ !! "POSTGRES_MAX_POOL_SIZE"%string = None ->
  environ !! "POSTGRES_MIN_POOL_SIZE"%string = None ->
  environ !! "POSTGRES_CONNECT_TIMEOUT"%string = None ->
  environ !! "POSTGRES_HSTORE"%string = None ->
  environ !! "POSTGRES_JSON"%string = None ->
  environ !! "POSTGRES_UUID"%string = None ->
  environ !! "POSTGRES_CONNECTION_TTL"%string = None ->
  int_of_str "10" = Some 10 ->
  int_of_str "1" = Some 1 ->
  strtobool_of_str "FALSE" = Some 0 ->
  strtobool_of_str "TRUE" = Some 1 ->
  Pool_new host arguments (env w) = (Ret p, d1) ->
  pool_fill_free_pool host p d1 = (Ret tt, d2) ->
  _postgres_setup host environ int_of_str strtobool_of_str self w =
    (Ret tt, {| _postgres_pool := Some p |},
     World d2 (trace w) (objects w)).
Proof.
  intros arguments Hurl Hmax Hmin Hct Hhs Hjs Huu Httl Hten Hone Hfalse
    Htrue Hnew Hfill. subst arguments.
  unfold _postgres_setup, pool_arguments_of_environ, environ_int_str,
    environ_int, environ_bool, int_, strtobool.
  rewrite Hurl, Hmax, Hmin, Hct, Hhs, Hjs, Huu, Httl; simpl.
  unfold DEFAULT_POSTGRES_MAX_POOL_SIZE, DEFAULT_POSTGRES_MIN_POOL_SIZE,
    DEFAULT_POSTGRES_HSTORE, DEFAULT_POSTGRES_JSON, DEFAULT_POSTGRES_UUID,
    DEFAULT_POSTGRES_CONNECTION_TIMEOUT, DEFAULT_POSTGRES_CONNECTION_TTL.
  rewrite Hten, Hone, Hfalse, Htrue; simpl.
  now rewrite Hnew, Hfill.
Qed.

(** X18.  When filling the new pool raises a driver error,
    [_postgres_setup] logs one WARNING with the text of the error and
    returns normally.  Any other exception, a timeout included, is
    raised.  Either way the application already holds the pool. *)
Theorem setup_fill_failure (self : ApplicationMixin) (w : world D)
    (url : string) (arguments : pool_arguments) (p : Pool) (error : exn)
    (d1 d2 : D) :
  let setup := _postgres_setup host environ int_of_str strtobool_of_str
                 self w in
  environ !! "POSTGRES_URL"%string = Some url ->
  pool_arguments_of_environ environ int_of_str strtobool_of_str url =
    Ret arguments ->
  Pool_new host arguments (env w) = (Ret p, d1) ->
  pool_fill_free_pool host p d1 = (Raise error, d2) ->
  (is_psycopg2 psycopg2.Error error = true ->
   setup =
     (Ret tt, {| _postgres_pool := Some p |},
      World d2 (trace w)
        (LOGGER_log "WARNING" "Error connecting to PostgreSQL on startup: %s"
           [LogStr (str error)] (objects w)))) /\
  (is_psycopg2 psycopg2.Error error = false ->
   setup =
     (Raise error, {| _postgres_pool := Some p |},
      World d2 (trace w) (objects w))).
Proof.
  intros setup Hurl Hargs Hnew Hfill. subst setup.
  split; intros Herr; unfold _postgres_setup;
    rewrite Hurl, Hargs, Hnew, Hfill, OperationalError_or_Error, Herr;
    reflexivity.
Qed.

(** The arguments of the pool are not built when a setting does not
    parse. *)
Lemma pool_arguments_invalid (url key s : string) :
  environ !! key = Some s ->
  (In key ["POSTGRES_MAX_POOL_SIZE"; "POSTGRES_MIN_POOL_SIZE";
           "POSTGRES_CONNECT_TIMEOUT"; "POSTGRES_CONNECTION_TTL"]%string /\
   int_of_str s = None) \/
  (In key ["POSTGRES_HSTORE"; "POSTGRES_JSON"; "POSTGRES_UUID"]%string /\
   strtobool_of_str s = None) ->
  exists msg,
    pool_arguments_of_environ environ int_of_str strtobool_of_str url =
      Raise (ValueError msg).
Proof.
  intros Hkey Hbad.
  unfold pool_arguments_of_environ, environ_int_str, environ_int,
    environ_bool, int_, strtobool, and_then.
  destruct Hbad as [[Hin Hnone]|[Hin Hnone]]; simpl in Hin;
    repeat match type of Hin with
           | _ \/ _ => destruct Hin as [<-|Hin]
           | False => contradiction
           end;
    rewrite Hkey; simpl; rewrite Hnone;
    repeat match goal with
           | |- context [environ !! ?k] => destruct (environ !! k); simpl
           | |- context [match int_of_str ?x with _ => _ end] =>
               destruct (int_of_str x); simpl
           | |- context [match strtobool_of_str ?x with _ => _ end] =>
               destruct (strtobool_of_str x); simpl
           end;
    eauto.
Qed.

(** X19.  With [POSTGRES_URL] set, a pool size, connect timeout or
    connection age that [int] rejects, or a conversion flag that
    [strtobool] rejects, makes [_postgres_setup] raise [ValueError] before
    anything is called: no pool is constructed, nothing is logged, and the
    application is as it was. *)
Theorem setup_invalid_setting (self : ApplicationMixin) (w : world D)
    (url key s : string) :
  environ !! "POSTGRES_URL"%string = Some url ->
  environ !! key = Some s ->
  (In key ["POSTGRES_MAX_POOL_SIZE"; "POSTGRES_MIN_POOL_SIZE";
           "POSTGRES_CONNECT_TIMEOUT"; "POSTGRES_CONNECTION_TTL"]%string /\
   int_of_str s = None) \/
  (In key ["POSTGRES_HSTORE"; "POSTGRES_JSON"; "POSTGRES_UUID"]%string /\
   strtobool_of_str s = None) ->
  exists msg,
    _postgres_setup host environ int_of_str strtobool_of_str self w =
      (Raise (ValueError msg), self, w).
Proof.
  intros Hurl Hkey Hbad.
  destruct (pool_arguments_invalid url key s Hkey Hbad) as [msg Hargs].
  exists msg. unfold _postgres_setup. now rewrite Hurl, Hargs.
Qed.

End startup_properties.

(** * The further properties on the scripted driver *)

(** X1 on a cursor that reports one row and has none, and on fetches that
    fail with a closed cursor. *)
Lemma query_results_errors_witness :
  fst (_query_results Mock.driver (Mock.connector Mock.swallow)
         (Mock.world0 (Mock.returning 1 (Ret [])))) =
    Raise (TypeError "'NoneType' object is not iterable") /\
  fst (_query_results Mock.driver (Mock.connector Mock.swallow)
         (Mock.world0 (Mock.returning 1 (Raise Mock.cursor_closed)))) =
    Raise Mock.cursor_closed /\
  fst (_query_results Mock.driver (Mock.connector Mock.swallow)
         (Mock.world0 (Mock.returning 5 (Raise Mock.cursor_closed)))) =
    Raise Mock.cursor_closed.
Proof.
  split; [|split].
  - destruct (query_results_errors Mock.driver (Mock.connector Mock.swallow)
                (Mock.world0 (Mock.returning 1 (Ret [])))) as (H & _).
    erewrite H; reflexivity.
  - destruct (query_results_errors Mock.driver (Mock.connector Mock.swallow)
                (Mock.world0 (Mock.returning 1 (Raise Mock.cursor_closed))))
      as (_ & H & _).
    erewrite H; reflexivity.
  - destruct (query_results_errors Mock.driver (Mock.connector Mock.swallow)
                (Mock.world0 (Mock.returning 5 (Raise Mock.cursor_closed))))
      as (_ & _ & H).
    erewrite H; reflexivity.
Defined.

(** X2 on a cursor that reports -1 rows, one row and three rows. *)
Lemma query_results_calls_witness :
  _query_results Mock.driver (Mock.connector Mock.swallow)
    (Mock.world0 (Mock.returning (-1) (Ret []))) =
    (Ret {| row_count := -1; row := None; rows := None |},
     Mock.world0 (Mock.returning (-1) (Ret []))) /\
  trace (snd (_query_results Mock.driver (Mock.connector Mock.swallow)
                (Mock.world0 Mock.healthy))) = [EvFetchone 11%nat] /\
  trace (snd (_query_results Mock.driver (Mock.connector Mock.swallow)
                (Mock.world0 (Mock.returning 3 (Raise Mock.no_results))))) =
    [EvFetchall 11%nat].
Proof.
  split; [|split].
  - apply (query_results_calls Mock.driver (Mock.connector Mock.swallow)
             (Mock.world0 (Mock.returning (-1) (Ret [])))).
    reflexivity.
  - apply (query_results_calls Mock.driver (Mock.connector Mock.swallow)
             (Mock.world0 Mock.healthy)).
    reflexivity.
  - apply (query_results_calls Mock.driver (Mock.connector Mock.swallow)
             (Mock.world0 (Mock.returning 3 (Raise Mock.no_results)))).
    reflexivity.
Defined.

(** X3 on a statement interrupted by an exception of another kind, on a
    fetch that fails, and on the default policy, which raises. *)
Lemma query_unhandled_witness :
  (let run := _query Mock.driver (Mock.connector Mock.hand_back)
                (cursor_execute_method Mock.driver 11%nat) "insert"
                Mock.insert
                (Mock.world0
                   (MockCases.failing_with (RuntimeError "loop is closed")))
   in
   fst run = Raise (RuntimeError "loop is closed") /\
   length (trace (snd run)) = 1%nat) /\
  (let run := _query Mock.driver (Mock.connector Mock.hand_back)
                (cursor_execute_method Mock.driver 11%nat) "select"
                Mock.insert
                (Mock.world0 (Mock.returning 1 (Raise Mock.cursor_closed))) in
   fst run = Raise Mock.cursor_closed /\
   length (trace (snd run)) = 2%nat /\
   recorded_timings (objects (snd run)) = []) /\
  (let run := _query Mock.driver
                (Mock.connector (_on_postgres_error "RequestHandler"))
                (cursor_execute_method Mock.driver 11%nat) "insert"
                Mock.insert (Mock.world0 Mock.duplicate_key) in
   fst run = Raise (HTTPError 409 "Unique Violation")).
Proof.
  split; [|split]; cbv zeta.
  - destruct (query_unhandled Mock.driver (Mock.connector Mock.hand_back)
                (cursor_execute_method Mock.driver 11%nat) "insert"
                Mock.insert
                (Mock.world0
                   (MockCases.failing_with (RuntimeError "loop is closed"))))
      as (H & _).
    erewrite H; [|reflexivity..]. split; reflexivity.
  - destruct (query_unhandled Mock.driver (Mock.connector Mock.hand_back)
                (cursor_execute_method Mock.driver 11%nat) "select"
                Mock.insert
                (Mock.world0 (Mock.returning 1 (Raise Mock.cursor_closed))))
      as (_ & H & _).
    erewrite H; [|reflexivity..]. split; [|split]; reflexivity.
  - destruct (query_unhandled Mock.driver
                (Mock.connector (_on_postgres_error "RequestHandler"))
                (cursor_execute_method Mock.driver 11%nat) "insert"
                Mock.insert (Mock.world0 Mock.duplicate_key))
      as (_ & _ & H).
    erewrite H; [|reflexivity..]. reflexivity.
Defined.

(** X5 on a database that refuses [BEGIN], one that refuses [COMMIT], and
    one that refuses [ROLLBACK]. *)
Lemma transaction_failures_witness :
  (let run := async_with (transaction Mock.driver (Mock.connector Mock.swallow))
                (fun c => ret (cursor c))
                (Mock.world0
                   (MockCases.transacting (Raise MockCases.server_gone)
                      (Ret tt) (Ret tt))) in
   fst run = Raise MockCases.server_gone /\
   trace (snd run) = [EvBegin 11%nat]) /\
  (let run := async_with (transaction Mock.driver (Mock.connector Mock.swallow))
                (fun c => ret (cursor c))
                (Mock.world0
                   (MockCases.transacting (Ret tt)
                      (Raise MockCases.server_gone) (Ret tt))) in
   fst run = Raise MockCases.server_gone /\
   trace (snd run) = [EvBegin 11%nat; EvCommit 11%nat]) /\
  (let run := async_with (transaction Mock.driver (Mock.connector Mock.swallow))
                (fun _ => raise (A := Cursor) (ValueError "bad id"))
                (Mock.world0
                   (MockCases.transacting (Ret tt) (Ret tt)
                      (Raise MockCases.server_gone))) in
   fst run = Raise MockCases.server_gone /\
   trace (snd run) = [EvBegin 11%nat; EvRollback 11%nat]).
Proof.
  split; [|split]; cbv zeta.
  - destruct (transaction_failures Mock.driver (Mock.connector Mock.swallow)
                (fun c => ret (cursor c))
                (Mock.world0
                   (MockCases.transacting (Raise MockCases.server_gone)
                      (Ret tt) (Ret tt)))) as (H & _).
    erewrite H; [|reflexivity..]. split; reflexivity.
  - destruct (transaction_failures Mock.driver (Mock.connector Mock.swallow)
                (fun c => ret (cursor c))
                (Mock.world0
                   (MockCases.transacting (Ret tt)
                      (Raise MockCases.server_gone) (Ret tt))))
      as (_ & H & _).
    erewrite H; [|reflexivity..]. split; reflexivity.
  - destruct (transaction_failures Mock.driver (Mock.connector Mock.swallow)
                (fun _ => raise (A := Cursor) (ValueError "bad id"))
                (Mock.world0
                   (MockCases.transacting (Ret tt) (Ret tt)
                      (Raise MockCases.server_gone))))
      as (_ & _ & H).
    erewrite H; [|reflexivity..]. split; reflexivity.
Defined.

(** X6 and X7 on the scripted driver, with a body that raises a timeout of
    its own and with one that returns. *)
Lemma connector_scope_releases_witness :
  trace (snd (async_with
                (postgres_connector Mock.driver ∅ Mock.int_of_str Mock.app
                   Mock.swallow None (Some 3))
                (fun _ => raise (A := unit) (ValueError "bad id"))
                (Mock.world0 Mock.healthy))) =
    [EvAcquire 0%nat; EvCursor 7%nat (Some 3); EvCursorClose 11%nat;
     EvRelease 0%nat 7%nat].
Proof.
  destruct (connector_scope_releases Mock.driver ∅ Mock.int_of_str Mock.app
              Mock.swallow None (Some 3)
              (fun _ => raise (A := unit) (ValueError "bad id"))
              (Mock.world0 Mock.healthy) 0%nat 7%nat 11%nat
              {| cursor := 11%nat; _on_error := Mock.swallow;
                 _on_duration := None; _timeout := 3 |}
              _ _ eq_refl eq_refl eq_refl eq_refl) as (after & Htrace & Hafter).
  rewrite Htrace.
  destruct Hafter as [->|[e ->]]; [reflexivity|].
  exfalso. revert Htrace. vm_compute. intros [=].
Defined.

Lemma connector_scope_exit_witness :
  (let run := async_with
                (postgres_connector Mock.driver ∅ Mock.int_of_str Mock.app
                   Mock.swallow None (Some 3))
                (fun connector => ret (bool_decide (is_Some connector)))
                (Mock.world0 Mock.healthy) in
   fst run = Ret (Some true)) /\
  (let run := async_with
                (postgres_connector Mock.driver ∅ Mock.int_of_str Mock.app
                   Mock.swallow None (Some 3))
                (fun _ => raise (A := unit) (ValueError "bad id"))
                (Mock.world0 Mock.healthy) in
   fst run = Raise (ValueError "bad id")) /\
  (let run := async_with
                (postgres_connector Mock.driver ∅ Mock.int_of_str Mock.app
                   Mock.hand_back None (Some 3))
                (fun _ => raise (A := unit) (TimeoutError "too slow"))
                (Mock.world0 Mock.healthy) in
   fst run = Raise (ConnectionException "too slow") /\
   trace (snd run) =
     [EvAcquire 0%nat; EvCursor 7%nat (Some 3); EvCursorClose 11%nat;
      EvRelease 0%nat 7%nat;
      EvOnError "postgres_connector" (ConnectionException "too slow")]) /\
  (let run := async_with
                (postgres_connector Mock.driver ∅ Mock.int_of_str Mock.app
                   Mock.swallow None (Some 3))
                (fun _ => raise (A := unit) (TimeoutError "too slow"))
                (Mock.world0 Mock.healthy) in
   fst run = Raise didnt_stop_after_athrow).
Proof.
  pose (c := {| cursor := 11%nat; _on_error := Mock.swallow;
                _on_duration := None; _timeout := 3 |}).
  pose (c' := {| cursor := 11%nat; _on_error := Mock.hand_back;
                 _on_duration := None; _timeout := 3 |}).
  split; [|split; [|split]]; cbv zeta.
  - destruct (connector_scope_exit Mock.driver ∅ Mock.int_of_str Mock.app
                Mock.swallow None (Some 3)
                (fun connector => ret (bool_decide (is_Some connector)))
                (Mock.world0 Mock.healthy) 0%nat 7%nat 11%nat c
                _ _ _ _ _ _ eq_refl eq_refl eq_refl eq_refl eq_refl eq_refl
                eq_refl) as (H & _).
    rewrite (H _ eq_refl). reflexivity.
  - destruct (connector_scope_exit Mock.driver ∅ Mock.int_of_str Mock.app
                Mock.swallow None (Some 3)
                (fun _ => raise (A := unit) (ValueError "bad id"))
                (Mock.world0 Mock.healthy) 0%nat 7%nat 11%nat c
                _ _ _ _ _ _ eq_refl eq_refl eq_refl eq_refl eq_refl eq_refl
                eq_refl) as (_ & H & _).
    rewrite (H _ eq_refl eq_refl). reflexivity.
  - destruct (connector_scope_exit Mock.driver ∅ Mock.int_of_str Mock.app
                Mock.hand_back None (Some 3)
                (fun _ => raise (A := unit) (TimeoutError "too slow"))
                (Mock.world0 Mock.healthy) 0%nat 7%nat 11%nat c'
                _ _ _ _ _ _ eq_refl eq_refl eq_refl eq_refl eq_refl eq_refl
                eq_refl) as (_ & _ & H).
    destruct (H _ eq_refl eq_refl) as (Hback & _).
    rewrite (Hback _ _ eq_refl). split; reflexivity.
  - destruct (connector_scope_exit Mock.driver ∅ Mock.int_of_str Mock.app
                Mock.swallow None (Some 3)
                (fun _ => raise (A := unit) (TimeoutError "too slow"))
                (Mock.world0 Mock.healthy) 0%nat 7%nat 11%nat c
                _ _ _ _ _ _ eq_refl eq_refl eq_refl eq_refl eq_refl eq_refl
                eq_refl) as (_ & _ & H).
    destruct (H _ eq_refl eq_refl) as (_ & Hnone).
    rewrite (Hnone _ eq_refl). reflexivity.
Defined.

(** X8 with [POSTGRES_QUERY_TIMEOUT=soon]. *)
Lemma connector_scope_bad_environment_witness :
  let run := async_with
               (postgres_connector Mock.driver MockCases.bad_query_timeout
                  Mock.int_of_str Mock.app Mock.swallow None None)
               (fun connector => ret (bool_decide (is_Some connector)))
               (Mock.world0 Mock.healthy) in
  fst run =
    Raise (ValueError "invalid literal for int() with base 10: 'soon'") /\
  trace (snd run) =
    [EvAcquire 0%nat; EvCursor 7%nat None; EvCursorClose 11%nat;
     EvRelease 0%nat 7%nat].
Proof.
  cbv zeta.
  erewrite (connector_scope_bad_environment Mock.driver
              MockCases.bad_query_timeout Mock.int_of_str Mock.app
              Mock.swallow None None
              (fun connector => ret (bool_decide (is_Some connector)))
              (Mock.world0 Mock.healthy) 0%nat 7%nat 11%nat _ _ _ _ "soon");
    [split; reflexivity|reflexivity..].
Defined.

(** X10 on a duplicate key, through [postgres_execute] and
    [postgres_callproc]. *)
Lemma facade_statement_error_witness :
  (let run := postgres_execute Mock.driver ∅ Mock.int_of_str Mock.handler
                "INSERT INTO t(id) VALUES (%s)" (ParametersSeq [VInt 1])
                "insert" None (Mock.world0 Mock.duplicate_key) in
   fst run = Raise (HTTPError 409 "Unique Violation") /\
   trace (snd run) =
     [EvAcquire 0%nat; EvCursor 7%nat None;
      EvExecute 11%nat "INSERT INTO t(id) VALUES (%s)"
        (ParametersSeq [VInt 1]) (Some 120);
      EvOnError "insert"
        (Psycopg2Error psycopg2.UniqueViolation
           "duplicate key value violates unique constraint");
      EvCursorClose 11%nat; EvRelease 0%nat 7%nat] /\
   length (log_records (objects (snd run))) = 1%nat) /\
  (let run := postgres_callproc Mock.driver ∅ Mock.int_of_str Mock.handler
                "add_row" (ParametersSeq [VInt 1]) "insert" (Some 5)
                (Mock.world0 Mock.duplicate_key) in
   fst run = Raise (HTTPError 409 "Unique Violation")).
Proof.
  assert (Hinit : forall t,
             PostgresConnector__init__ ∅ Mock.int_of_str 11%nat
               (on_postgres_error Mock.handler)
               (Some (on_postgres_timing Mock.handler)) t =
             Ret {| cursor := 11%nat;
                    _on_error := _on_postgres_error "RequestHandler";
                    _on_duration := Some (_on_postgres_timing NoMetrics);
                    _timeout := if timeout_truthy t then default 0 t
                                else 120 |})
    by (intros t; unfold PostgresConnector__init__;
        destruct (timeout_truthy t); reflexivity).
  split; cbv zeta.
  - destruct (facade_statement_error Mock.driver ∅ Mock.int_of_str
                Mock.handler "INSERT INTO t(id) VALUES (%s)"
                (ParametersSeq [VInt 1]) "insert" None
                (Mock.world0 Mock.duplicate_key) 0%nat 7%nat 11%nat
                {| cursor := 11%nat;
                   _on_error := _on_postgres_error "RequestHandler";
                   _on_duration := Some (_on_postgres_timing NoMetrics);
                   _timeout := 120 |}
                (Psycopg2Error psycopg2.UniqueViolation
                   "duplicate key value violates unique constraint")
                _ _ (Mock.tick
                       (Mock.tick
                          (Mock.tick
                             (Mock.set_free 0
                                (Mock.start Mock.duplicate_key 1 1)))))
                _ _ eq_refl eq_refl eq_refl eq_refl (Hinit None) eq_refl
                eq_refl eq_refl) as (H & _).
    rewrite (H eq_refl). split; [|split]; reflexivity.
  - destruct (facade_statement_error Mock.driver ∅ Mock.int_of_str
                Mock.handler "add_row" (ParametersSeq [VInt 1]) "insert"
                (Some 5) (Mock.world0 Mock.duplicate_key) 0%nat 7%nat 11%nat
                {| cursor := 11%nat;
                   _on_error := _on_postgres_error "RequestHandler";
                   _on_duration := Some (_on_postgres_timing NoMetrics);
                   _timeout := 5 |}
                (Psycopg2Error psycopg2.UniqueViolation
                   "duplicate key value violates unique constraint")
                _ _ (Mock.tick
                       (Mock.tick
                          (Mock.tick
                             (Mock.set_free 0
                                (Mock.start Mock.duplicate_key 1 1)))))
                _ _ eq_refl eq_refl eq_refl eq_refl (Hinit (Some 5)) eq_refl
                eq_refl eq_refl) as (_ & H).
    rewrite (H eq_refl). reflexivity.
Defined.

(** X11 and X12 on a database that cannot be reached, with the default
    policy and with a handler that swallows. *)
Lemma facade_unavailable_witness :
  fst (postgres_execute Mock.driver ∅ Mock.int_of_str Mock.handler
         "SELECT 1" ParametersNone "select" None
         (Mock.world0 Mock.unreachable)) =
    Raise (HTTPError 503 "Database Connection Error") /\
  fst (postgres_callproc Mock.driver ∅ Mock.int_of_str Mock.handler
         "now" ParametersNone "now" None (Mock.world0 Mock.unreachable)) =
    Raise (HTTPError 503 "Database Connection Error") /\
  fst (async_with
         (postgres_transaction Mock.driver ∅ Mock.int_of_str Mock.handler
            None)
         (fun c => ret (cursor c)) (Mock.world0 Mock.unreachable)) =
    Raise (HTTPError 503 "Database Connection Error").
Proof.
  destruct (facade_unavailable Mock.driver ∅ Mock.int_of_str Mock.handler
              "SELECT 1" ParametersNone "select" None
              (fun c => ret (cursor c)) (Mock.world0 Mock.unreachable)
              0%nat
              (Psycopg2Error psycopg2.OperationalError "connection refused")
              _ eq_refl eq_refl eq_refl eq_refl) as (H1 & _ & H3).
  destruct (facade_unavailable Mock.driver ∅ Mock.int_of_str Mock.handler
              "now" ParametersNone "now" None
              (fun c => ret (cursor c)) (Mock.world0 Mock.unreachable)
              0%nat
              (Psycopg2Error psycopg2.OperationalError "connection refused")
              _ eq_refl eq_refl eq_refl eq_refl) as (_ & H2 & _).
  rewrite H1, H2, H3. repeat split.
Defined.

Lemma facade_swallowed_unavailable_witness :
  fst (postgres_execute Mock.driver ∅ Mock.int_of_str MockCases.quiet_handler
         "SELECT 1" ParametersNone "select" None
         (Mock.world0 Mock.unreachable)) =
    Raise (AttributeError "'NoneType' object has no attribute 'execute'") /\
  fst (postgres_callproc Mock.driver ∅ Mock.int_of_str
         MockCases.quiet_handler "now" ParametersNone "now" None
         (Mock.world0 Mock.unreachable)) =
    Raise (AttributeError "'NoneType' object has no attribute 'callproc'") /\
  fst (async_with
         (postgres_transaction Mock.driver ∅ Mock.int_of_str
            MockCases.quiet_handler None)
         (fun c => ret (cursor c)) (Mock.world0 Mock.unreachable)) =
    Raise (AttributeError "'NoneType' object has no attribute 'transaction'").
Proof.
  destruct (facade_swallowed_unavailable Mock.driver ∅ Mock.int_of_str
              MockCases.quiet_handler "SELECT 1" ParametersNone "select"
              None (fun c => ret (cursor c)) (Mock.world0 Mock.unreachable)
              0%nat
              (Psycopg2Error psycopg2.OperationalError "connection refused")
              _ _ eq_refl eq_refl eq_refl eq_refl) as (H1 & _ & H3).
  destruct (facade_swallowed_unavailable Mock.driver ∅ Mock.int_of_str
              MockCases.quiet_handler "now" ParametersNone "now"
              None (fun c => ret (cursor c)) (Mock.world0 Mock.unreachable)
              0%nat
              (Psycopg2Error psycopg2.OperationalError "connection refused")
              _ _ eq_refl eq_refl eq_refl eq_refl) as (_ & H2 & _).
  rewrite H1, H2, H3. repeat split.
Defined.

(** X13 on a database that answers [SELECT 1]. *)
Lemma facade_statement_success_witness :
  let run := postgres_execute Mock.driver ∅ Mock.int_of_str Mock.handler
               "SELECT 1" ParametersNone "select" None
               (Mock.world0 Mock.healthy) in
  fst run = Ret (Some {| row_count := 1; row := Some (dict Mock.one);
                         rows := None |}) /\
  trace (snd run) =
    [EvAcquire 0%nat; EvCursor 7%nat None;
     EvExecute 11%nat "SELECT 1" ParametersNone (Some 120);
     EvFetchone 11%nat; EvOnDuration "select" 2;
     EvCursorClose 11%nat; EvRelease 0%nat 7%nat].
Proof.
  cbv zeta.
  assert (Hinit :
            PostgresConnector__init__ ∅ Mock.int_of_str 11%nat
              (on_postgres_error Mock.handler)
              (Some (on_postgres_timing Mock.handler)) None =
            Ret {| cursor := 11%nat;
                   _on_error := _on_postgres_error "RequestHandler";
                   _on_duration := Some (_on_postgres_timing NoMetrics);
                   _timeout := 120 |}) by reflexivity.
  set (d1 := Mock.tick (Mock.set_free 0 (Mock.start Mock.healthy 1 1))).
  set (d4 := Mock.tick
               (Mock.set_unfetched (Ret []) (Mock.tick (Mock.tick d1)))).
  destruct (facade_statement_success Mock.driver ∅ Mock.int_of_str
              Mock.handler "SELECT 1" ParametersNone "select" None
              (Mock.world0 Mock.healthy) 0%nat 7%nat 11%nat
              {| cursor := 11%nat;
                 _on_error := _on_postgres_error "RequestHandler";
                 _on_duration := Some (_on_postgres_timing NoMetrics);
                 _timeout := 120 |}
              d1 (Mock.tick d1) (Mock.tick (Mock.tick d1)) d4 (Mock.tick d4)
              (Mock.tick (Mock.set_free 1 (Mock.tick d4)))
              [EvFetchone 11%nat]
              {| row_count := 1; row := Some (dict Mock.one); rows := None |}
              (LOGGER_log "DEBUG" "Postgres query %s duration: %s"
                 [LogStr "select"; LogNum 2] empty_heap)
              eq_refl eq_refl eq_refl Hinit) as (H & _).
  - intros [cur oe od t] [d tr h] Hc Hd. simpl in Hc, Hd. subst cur d.
    reflexivity.
  - reflexivity.
  - reflexivity.
  - reflexivity.
  - rewrite (H eq_refl). split; reflexivity.
Defined.

(** X16 with an empty environment. *)
Lemma setup_without_url_witness :
  exists r d,
    app_stop MockHost.host (env (Mock.world0 Mock.healthy)) = (r, d) /\
    let w' := World d []
                (LOGGER_log "CRITICAL"
                   "Missing POSTGRES_URL environment variable" []
                   empty_heap) in
    _postgres_setup MockHost.host ∅ Mock.int_of_str
      MockHost.strtobool_of_str Mock.app_not_started
      (Mock.world0 Mock.healthy) = (r, Mock.app_not_started, w') /\
    _postgres_shutdown Mock.driver Mock.app_not_started w' = (Ret tt, w') /\
    fst (postgres_status Mock.driver ∅ Mock.int_of_str Mock.app_not_started
           w') =
      Raise (AttributeError "'NoneType' object has no attribute 'acquire'").
Proof.
  apply (setup_without_url Mock.driver MockHost.host ∅ Mock.int_of_str
           MockHost.strtobool_of_str Mock.app_not_started
           (Mock.world0 Mock.healthy)); reflexivity.
Defined.

(** X17 with [POSTGRES_URL] alone in the environment. *)
Lemma setup_defaults_witness :
  _postgres_setup MockHost.host MockCases.url_only Mock.int_of_str
    MockHost.strtobool_of_str Mock.app_not_started
    (Mock.world0 Mock.healthy) =
    (Ret tt, Mock.app,
     World (Mock.tick (Mock.start Mock.healthy 1 1)) [] empty_heap).
Proof.
  apply (setup_defaults MockHost.host MockCases.url_only Mock.int_of_str
           MockHost.strtobool_of_str Mock.app_not_started
           (Mock.world0 Mock.healthy) MockHost.url 0%nat
           (Mock.start Mock.healthy 1 1)); reflexivity.
Defined.

(** X18 on a database that refuses the connection, and on one that does
    not answer in time. *)
Lemma setup_fill_failure_witness :
  (let setup := _postgres_setup MockHost.host MockCases.url_only
                  Mock.int_of_str MockHost.strtobool_of_str
                  Mock.app_not_started (Mock.world0 Mock.unreachable) in
   fst setup = (Ret tt, Mock.app) /\
   log_records (objects (snd setup)) =
     [LogRecord "WARNING" "Error connecting to PostgreSQL on startup: %s"
        [LogStr "connection refused"]]) /\
  (let setup := _postgres_setup MockHost.host MockCases.url_only
                  Mock.int_of_str MockHost.strtobool_of_str
                  Mock.app_not_started
                  (Mock.world0 (MockCases.connecting (Raise (TimeoutError ""))))
   in
   fst setup = (Raise (TimeoutError ""), Mock.app)).
Proof.
  pose (arguments :=
          {| dsn := MockHost.url; maxsize := 10; minsize := 1; timeout_ := 10;
             enable_hstore := 0; enable_json := 0; enable_uuid := 1;
             echo := false; pool_recycle := 300 |}).
  assert (Hargs : pool_arguments_of_environ MockCases.url_only
                    Mock.int_of_str MockHost.strtobool_of_str MockHost.url =
                  Ret arguments) by reflexivity.
  split; cbv zeta.
  - destruct (setup_fill_failure MockHost.host MockCases.url_only
                Mock.int_of_str MockHost.strtobool_of_str
                Mock.app_not_started (Mock.world0 Mock.unreachable)
                MockHost.url arguments 0%nat
                (Psycopg2Error psycopg2.OperationalError "connection refused")
                _ _ eq_refl Hargs eq_refl eq_refl) as (H & _).
    rewrite (H eq_refl). split; reflexivity.
  - destruct (setup_fill_failure MockHost.host MockCases.url_only
                Mock.int_of_str MockHost.strtobool_of_str
                Mock.app_not_started
                (Mock.world0 (MockCases.connecting (Raise (TimeoutError ""))))
                MockHost.url arguments 0%nat (TimeoutError "")
                _ _ eq_refl Hargs eq_refl eq_refl) as (_ & H).
    rewrite (H eq_refl). reflexivity.
Defined.

(** X19 with [POSTGRES_MAX_POOL_SIZE=many] and with [POSTGRES_JSON=maybe]. *)
Lemma setup_invalid_setting_witness :
  (exists msg,
     _postgres_setup MockHost.host MockCases.bad_pool_size Mock.int_of_str
       MockHost.strtobool_of_str Mock.app_not_started
       (Mock.world0 Mock.healthy) =
       (Raise (ValueError msg), Mock.app_not_started,
        Mock.world0 Mock.healthy)) /\
  (exists msg,
     _postgres_setup MockHost.host MockCases.bad_flag Mock.int_of_str
       MockHost.strtobool_of_str Mock.app_not_started
       (Mock.world0 Mock.healthy) =
       (Raise (ValueError msg), Mock.app_not_started,
        Mock.world0 Mock.healthy)).
Proof.
  split.
  - apply (setup_invalid_setting MockHost.host MockCases.bad_pool_size
             Mock.int_of_str MockHost.strtobool_of_str Mock.app_not_started
             (Mock.world0 Mock.healthy) MockHost.url
             "POSTGRES_MAX_POOL_SIZE" "many"); [reflexivity..|].
    left. split; [simpl; tauto|reflexivity].
  - apply (setup_invalid_setting MockHost.host MockCases.bad_flag
             Mock.int_of_str MockHost.strtobool_of_str Mock.app_not_started
             (Mock.world0 Mock.healthy) MockHost.url
             "POSTGRES_JSON" "maybe"); [reflexivity..|].
    right. split; [simpl; tauto|reflexivity].
Defined.

(** X15 on a statement interrupted by an exception of another kind and
    on a fetch that fails with a closed cursor. *)
Lemma status_lets_through_witness :
  fst (postgres_status Mock.driver ∅ Mock.int_of_str Mock.app
         (Mock.world0
            (MockCases.failing_with (RuntimeError "loop is closed")))) =
    Raise (RuntimeError "loop is closed") /\
  fst (postgres_status Mock.driver ∅ Mock.int_of_str Mock.app
         (Mock.world0 (Mock.returning 1 (Raise Mock.cursor_closed)))) =
    Raise didnt_stop_after_athrow.
Proof.
  split.
  - set (s := MockCases.failing_with (RuntimeError "loop is closed")).
    set (d1 := Mock.tick (Mock.set_free 0 (Mock.start s 1 1))).
    set (d4 := Mock.tick (Mock.tick d1)).
    destruct (status_lets_through Mock.driver ∅ Mock.int_of_str Mock.app
                (Mock.world0 s) 0%nat 7%nat 11%nat
                (RuntimeError "loop is closed")
                d1 (Mock.tick d1) d4 d4 (Mock.tick d4)
                (Mock.tick (Mock.set_free 1 (Mock.tick d4))) []
                eq_refl eq_refl eq_refl eq_refl eq_refl) as (H & _).
    destruct (H eq_refl eq_refl) as [h Hrun]. rewrite Hrun. reflexivity.
  - set (s := Mock.returning 1 (Raise Mock.cursor_closed)).
    set (d1 := Mock.tick (Mock.set_free 0 (Mock.start s 1 1))).
    set (d3 := Mock.tick (Mock.tick d1)).
    set (d4 := Mock.tick d3).
    destruct (status_lets_through Mock.driver ∅ Mock.int_of_str Mock.app
                (Mock.world0 s) 0%nat 7%nat 11%nat Mock.cursor_closed
                d1 (Mock.tick d1) d3 d4 (Mock.tick d4)
                (Mock.tick (Mock.set_free 1 (Mock.tick d4)))
                [EvFetchone 11%nat]
                eq_refl eq_refl eq_refl eq_refl eq_refl) as (_ & H).
    destruct (H eq_refl) as [h Hrun].
    + intros [cur oe od t] [d tr h] Hc Hd. simpl in Hc, Hd. subst cur d.
      reflexivity.
    + reflexivity.
    + rewrite Hrun. reflexivity.
Defined.
